(** * Containment-detection metrics and aggregation: a shallow embedding

    The development follows the JavaScript sources

    - [src/metrics/containment.js]       (module [Containment]),
    - [src/analysis/analyze_compression.js] (module [Compression]),
    - [src/analysis/analyze_multiturn.js]   (module [Multiturn]),
    - [src/analysis/export_for_r.js]        (module [ExportR]),
    - [src/metrics/promptfoo_assertions.js] (module [PromptfooAssertions]; the
      rest of containment.js is in module [Metrics]),
    - the summary, CSV export and tier analysis of analyze_compression.js
      (modules [CompressionSummary], [Tiers]), the key findings of
      analyze_multiturn.js (module [MultiturnSummary]), the metadata and the
      validation utility (modules [Metadata], [Validation]),

    and states the properties of the specification over these definitions.

    Modelling conventions.

    - A JavaScript number is a [JS.number]: an exact rational, one of the two
      infinities, or NaN.  Division by zero, comparisons with NaN and
      [Math.min] behave as in IEEE 754; the rounding of binary64 arithmetic is
      not modelled (every operation is exact), so an equation between
      numbers is an equation between the exact values.  The zero of the
      model is +0.  The divisors that are sums of counts are never -0;
      the entropy-drop threshold of [detectConsensusCollapse] is a divisor
      chosen by the caller and can be -0, where the program divides to
      -Infinity: the statement that a detected mechanism is the one
      reported is made for positive thresholds, where the sign of zero
      plays no part.
    - A JavaScript string is a [string] of 8-bit code units; the regular
      expressions of the sources are alternations of literal phrases between
      word boundaries and are executed by [Regex.matchCount].
    - An object used as a map is an association list of its own properties
      in insertion order; its keys are taken not to look like array indices.
      The by-dissenter table of export_for_r.js is read with the properties
      every object inherits (such as ["constructor"], module
      [ObjectPrototype]) in view; for the other maps a statement that
      depends on it excludes such keys by hypothesis.
    - A property the JSON file may lack is an [option]; where the code reads
      a property of such a value without a guard, the embedding shows the
      TypeError ([ExportR.Throws], the [None] of
      [Validation.validateAgainstMetadata]).
    - The means of the escape analysis and of the dimension-bias analysis
      are defined apart from the code's [reduce(...) / length] (module
      [Averaged]), and the code's numbers are proved to be these means.
    - The third-party functions (the tokenizer of [natural], the sentence
      splitter of [compromise], [Math.log2]) are Section variables. *)

From Stdlib Require Import QArith Qround Qabs ZArith List String Ascii Bool.
From Stdlib Require Import Lia Lqa Sorted Permutation PeanoNat.
Import ListNotations.

Set Implicit Arguments.

(* ================================================================== *)
(** * JavaScript numbers *)
(* ================================================================== *)

Declare Scope js_scope.
Delimit Scope js_scope with js.

Module JS.

Inductive number : Type :=
| Fin (q : Q)
| PInf
| NInf
| NaN.

Bind Scope js_scope with number.

Definition isZero (q : Q) : bool := Qeq_bool q 0.
Definition isNeg (q : Q) : bool := negb (Qle_bool 0 q).
Definition isPos (q : Q) : bool := negb (Qle_bool q 0).

Definition ofNat (n : nat) : number := Fin (inject_Z (Z.of_nat n)).
Definition ofZ (z : Z) : number := Fin (inject_Z z).

Definition inf (positive : bool) : number := if positive then PInf else NInf.

Definition neg (a : number) : number :=
  match a with
  | Fin x => Fin (- x)
  | PInf => NInf
  | NInf => PInf
  | NaN => NaN
  end.

Definition add (a b : number) : number :=
  match a, b with
  | NaN, _ | _, NaN => NaN
  | Fin x, Fin y => Fin (x + y)
  | PInf, NInf | NInf, PInf => NaN
  | PInf, _ | _, PInf => PInf
  | NInf, _ | _, NInf => NInf
  end.

Definition sub (a b : number) : number :=
  match a, b with
  | NaN, _ | _, NaN => NaN
  | Fin x, Fin y => Fin (x - y)
  | PInf, PInf | NInf, NInf => NaN
  | PInf, _ | _, NInf => PInf
  | NInf, _ | _, PInf => NInf
  end.

Definition mul (a b : number) : number :=
  match a, b with
  | NaN, _ | _, NaN => NaN
  | Fin x, Fin y => Fin (x * y)
  | Fin x, PInf | PInf, Fin x => if isZero x then NaN else inf (isPos x)
  | Fin x, NInf | NInf, Fin x => if isZero x then NaN else inf (isNeg x)
  | PInf, PInf | NInf, NInf => PInf
  | PInf, NInf | NInf, PInf => NInf
  end.

Definition div (a b : number) : number :=
  match a, b with
  | NaN, _ | _, NaN => NaN
  | Fin x, Fin y =>
      if isZero y
      then (if isZero x then NaN else inf (isPos x))
      else Fin (x / y)
  | Fin _, _ => Fin 0
  | PInf, Fin y => inf (negb (isNeg y))
  | NInf, Fin y => inf (isNeg y)
  | _, _ => NaN
  end.

(** [a < b], [a <= b]; every comparison with NaN is false. *)
Definition lt (a b : number) : bool :=
  match a, b with
  | NaN, _ | _, NaN => false
  | Fin x, Fin y => negb (Qle_bool y x)
  | _, NInf => false
  | NInf, _ => true
  | PInf, _ => false
  | _, PInf => true
  end.

Definition le (a b : number) : bool :=
  match a, b with
  | NaN, _ | _, NaN => false
  | Fin x, Fin y => Qle_bool x y
  | NInf, _ => true
  | _, PInf => true
  | _, NInf => false
  | PInf, _ => false
  end.

Definition gt (a b : number) : bool := lt b a.
Definition ge (a b : number) : bool := le b a.

(** [Math.min(a, b)]. *)
Definition min (a b : number) : number :=
  match a, b with
  | NaN, _ | _, NaN => NaN
  | _, _ => if lt a b then a else b
  end.

(** [Math.abs(a)]. *)
Definition abs (a : number) : number :=
  match a with
  | Fin x => Fin (Qabs x)
  | PInf | NInf => PInf
  | NaN => NaN
  end.

(** Truthiness of a number, and [a || b] on numbers. *)
Definition truthy (a : number) : bool :=
  match a with
  | Fin x => negb (isZero x)
  | PInf | NInf => true
  | NaN => false
  end.

Definition orElse (a b : number) : number := if truthy a then a else b.

(** The number denoted by the string [a.toFixed(1)]: the nearest multiple of
    one tenth, a tie going to the larger magnitude. *)
Definition roundTenth (q : Q) : Q :=
  if isNeg q
  then - (inject_Z (Qfloor ((- q) * 10 + (1 # 2))) / 10)
  else inject_Z (Qfloor (q * 10 + (1 # 2))) / 10.

Definition toFixed1 (a : number) : number :=
  match a with
  | Fin x => Fin (roundTenth x)
  | other => other
  end.

(** Numbers up to the representation of the rational. *)
Definition eqv (a b : number) : Prop :=
  match a, b with
  | Fin x, Fin y => x == y
  | PInf, PInf | NInf, NInf | NaN, NaN => True
  | _, _ => False
  end.

Definition sum (l : list number) : number := fold_left add l (Fin 0).

(** A number that is neither infinite nor NaN. *)
Definition finite (a : number) : Prop := exists q, a = Fin q.

End JS.

Notation "a + b" := (JS.add a b) : js_scope.
Notation "a - b" := (JS.sub a b) : js_scope.
Notation "a * b" := (JS.mul a b) : js_scope.
Notation "a / b" := (JS.div a b) : js_scope.
Notation "a >? b" := (JS.gt a b) (at level 70, no associativity) : js_scope.
Notation "a >=? b" := (JS.ge a b) (at level 70, no associativity) : js_scope.
Notation "a <? b" := (JS.lt a b) (at level 70, no associativity) : js_scope.
Notation "a === b" := (JS.eqv a b) (at level 70, no associativity) : js_scope.

Coercion JS.Fin : Q >-> JS.number.

Local Open Scope string_scope.
Local Open Scope list_scope.

(* ================================================================== *)
(** * JavaScript strings and the regular expressions of the sources *)
(* ================================================================== *)

Module Str.

Definition chars (s : string) : list ascii := list_ascii_of_string s.

(** White space and line terminators among the code units below 256. *)
Definition isSpace (c : ascii) : bool :=
  let n := nat_of_ascii c in
  orb (orb (Nat.eqb n 32) (Nat.eqb n 160)) (andb (Nat.leb 9 n) (Nat.leb n 13)).

(** [text.trim().length === 0]. *)
Definition isBlank (s : string) : bool := forallb isSpace (chars s).

(** [!text || text.trim().length === 0] for a string [text]. *)
Definition emptyText (s : string) : bool := isBlank s.

Definition truthy (s : string) : bool :=
  match s with EmptyString => false | _ => true end.

(** [A-Z] *)
Definition isUpper (c : ascii) : bool :=
  let n := nat_of_ascii c in andb (Nat.leb 65 n) (Nat.leb n 90).

(** The capital letters of the code units 192 to 222 (215 is the
    multiplication sign). *)
Definition isUpperLatin (c : ascii) : bool :=
  let n := nat_of_ascii c in
  andb (andb (Nat.leb 192 n) (Nat.leb n 222)) (negb (Nat.eqb n 215)).

(** The case folding of a regular expression with the [i] flag, as far as
    the ASCII literals of the sources can tell: a code unit of 128 or more
    never folds onto an ASCII one. *)
Definition foldChar (c : ascii) : ascii :=
  if isUpper c then ascii_of_nat (nat_of_ascii c + 32) else c.

Definition lowerChar (c : ascii) : ascii :=
  if orb (isUpper c) (isUpperLatin c) then ascii_of_nat (nat_of_ascii c + 32) else c.

Definition toLowerCase (s : string) : string :=
  string_of_list_ascii (map lowerChar (chars s)).

Fixpoint startsWithChars (p s : list ascii) : bool :=
  match p, s with
  | [], _ => true
  | _ :: _, [] => false
  | a :: p', b :: s' => andb (Ascii.eqb a b) (startsWithChars p' s')
  end.

Definition startsWith (s p : string) : bool := startsWithChars (chars p) (chars s).

Fixpoint includesChars (p s : list ascii) : bool :=
  orb (startsWithChars p s)
      match s with
      | [] => false
      | _ :: s' => includesChars p s'
      end.

(** [s.includes(p)]. *)
Definition includes (s p : string) : bool := includesChars (chars p) (chars s).

(** [s.substring(0, n)]. *)
Definition substring0 (n : nat) (s : string) : string := substring 0 n s.

(** [s.split(d)] for a one-character delimiter. *)
Fixpoint splitChars (d : ascii) (cur : list ascii) (s : list ascii) : list string :=
  match s with
  | [] => [string_of_list_ascii (rev cur)]
  | c :: s' =>
      if Ascii.eqb c d
      then string_of_list_ascii (rev cur) :: splitChars d [] s'
      else splitChars d (c :: cur) s'
  end.

Definition split (d : ascii) (s : string) : list string := splitChars d [] (chars s).

End Str.

Module Regex.

(** [\w] *)
Definition isWord (c : ascii) : bool :=
  let n := nat_of_ascii c in
  orb (andb (Nat.leb 48 n) (Nat.leb n 57))
      (orb (andb (Nat.leb 65 n) (Nat.leb n 90))
           (orb (andb (Nat.leb 97 n) (Nat.leb n 122)) (Nat.eqb n 95))).

Definition isWordOpt (c : option ascii) : bool :=
  match c with Some c => isWord c | None => false end.

(** [\b] between the character before and the character after a position. *)
Definition boundary (before after : option ascii) : bool :=
  xorb (isWordOpt before) (isWordOpt after).

(** The literal [p] read case-insensitively at the head of [s]: the last
    character read and what follows it. *)
Fixpoint literalCI (p s : list ascii) (last : option ascii)
  : option (option ascii * list ascii) :=
  match p with
  | [] => Some (last, s)
  | a :: p' =>
      match s with
      | [] => None
      | b :: s' =>
          if Ascii.eqb (Str.foldChar a) (Str.foldChar b)
          then literalCI p' s' (Some b)
          else None
      end
  end.

(** One alternative of [\b(alt1|alt2|...)\b] at the head of [s], [prev]
    being the character before: the length of the match. *)
Definition altAt (prev : option ascii) (s : list ascii) (alt : string) : option nat :=
  match literalCI (Str.chars alt) s None with
  | Some (Some last, rest) =>
      if andb (boundary prev (hd_error s)) (boundary (Some last) (hd_error rest))
      then Some (String.length alt)
      else None
  | _ => None
  end.

(** The alternatives are tried from left to right. *)
Fixpoint matchAt (alts : list string) (prev : option ascii) (s : list ascii) : option nat :=
  match alts with
  | [] => None
  | alt :: alts' =>
      match altAt prev s alt with
      | Some n => Some n
      | None => matchAt alts' prev s
      end
  end.

(** The scan of a global match: after a match of [n] characters the next
    attempt starts behind it ([skip] counts the characters still to pass). *)
Fixpoint countFrom (alts : list string) (skip : nat) (prev : option ascii)
         (s : list ascii) : nat :=
  match s with
  | [] => 0
  | c :: s' =>
      match skip with
      | S k => countFrom alts k (Some c) s'
      | O =>
          match matchAt alts prev s with
          | Some n => S (countFrom alts (Nat.pred n) (Some c) s')
          | None => countFrom alts 0 (Some c) s'
          end
      end
  end.

(** [(s.match(/\b(alt1|...)\b/gi) || []).length]. *)
Definition matchCount (alts : list string) (s : string) : nat :=
  countFrom alts 0 None (Str.chars s).

End Regex.

(* ================================================================== *)
(** * Shannon entropy of the word distribution
      ([calculateEntropy], defined alike in containment.js and in
      analyze_multiturn.js) *)
(* ================================================================== *)

Module Lexical.
Local Open Scope js_scope.

(** [frequencies[token] = (frequencies[token] || 0) + 1] *)
Fixpoint bump (frequencies : list (string * nat)) (token : string) : list (string * nat) :=
  match frequencies with
  | [] => [(token, 1%nat)]
  | (k, n) :: fs =>
      if String.eqb k token then (k, S n) :: fs else (k, n) :: bump fs token
  end.

(** [Object.values(frequencies)] lists the counts in the order of the keys;
    the order only matters to the rounding of the sum, which is not
    modelled. *)
Section Entropy.
(** [new natural.WordTokenizer().tokenize(text)] *)
Variable tokenize : string -> list string.
(** [Math.log2] *)
Variable log2 : JS.number -> JS.number.

Definition calculateEntropy (text : string) : JS.number :=
  if Str.emptyText text then JS.Fin 0
  else
    let tokens := tokenize (Str.toLowerCase text) in
    match tokens with
    | [] => JS.Fin 0
    | _ =>
        let frequencies := fold_left bump tokens [] in
        let probabilities :=
          map (fun kv => JS.ofNat (snd kv) / JS.ofNat (List.length tokens))
              frequencies in
        fold_left (fun sum p => sum - p * log2 p) probabilities (JS.Fin 0)
    end.
End Entropy.

End Lexical.

(* ================================================================== *)
(** * simple-statistics: the two functions the detector calls *)
(* ================================================================== *)

Module SimpleStatistics.
Local Open Scope js_scope.

Record Line := { m : JS.number; b : JS.number }.

Record Sums := { sumX : JS.number; sumY : JS.number;
                 sumXX : JS.number; sumXY : JS.number }.

Definition accumulate (acc : Sums) (point : JS.number * JS.number) : Sums :=
  let (x, y) := point in
  {| sumX := sumX acc + x;
     sumY := sumY acc + y;
     sumXX := sumXX acc + x * x;
     sumXY := sumXY acc + x * y |}.

(** [ss.linearRegression(data)], after the source of the library: the
    least-squares line through the points ([m] the slope, [b] the intercept);
    a single point gives slope 0. *)
Definition linearRegression (data : list (JS.number * JS.number)) : Line :=
  match data with
  | [(_, y)] => {| m := JS.Fin 0; b := y |}
  | _ =>
      let n := JS.ofNat (List.length data) in
      let s := fold_left accumulate data
                 {| sumX := JS.Fin 0; sumY := JS.Fin 0;
                    sumXX := JS.Fin 0; sumXY := JS.Fin 0 |} in
      let slope := (n * sumXY s - sumX s * sumY s) / (n * sumXX s - sumX s * sumX s) in
      {| m := slope; b := sumY s / n - (slope * sumX s) / n |}
  end.

(** [ss.linearRegressionLine(mb)]: the function [x => mb.b + mb.m * x]. *)
Definition linearRegressionLine (mb : Line) (x : JS.number) : JS.number :=
  b mb + m mb * x.

End SimpleStatistics.

(* ================================================================== *)
(** * src/metrics/containment.js *)
(* ================================================================== *)

Module Containment.
Local Open Scope js_scope.

Record CollapseResult := {
  cc_detected : bool;
  entropyDrop : JS.number;
  responseEntropy : option JS.number;
  baselineEntropy : option JS.number;
  cc_confidence : option JS.number
}.

Record LoopResult := {
  rl_detected : bool;
  depth : JS.number;
  patterns : list (nat * string);
  rl_confidence : option JS.number
}.

Record EscalationResult := {
  ce_detected : bool;
  escalation : JS.number;
  certaintyScores : option (list JS.number);
  ce_confidence : option JS.number
}.

Inductive ContainmentType := social_proof | recursive_defense | observer_collapse.

Record Telemetry := {
  entropy : JS.number;
  entropy_drop : JS.number;
  coherence : JS.number;
  semantic_diversity : JS.number;
  recursion_depth : JS.number;
  certainty_escalation : JS.number
}.

Record Details := {
  consensus_collapse : CollapseResult;
  recursive_loop : LoopResult;
  certainty_escalation_details : EscalationResult
}.

Record Detection := {
  containment_detected : bool;
  containment_type : option ContainmentType;
  confidence : JS.number;
  telemetry : Telemetry;
  details : Details
}.

Record Context := {
  baseline : string;
  history : list string;
  threshold : JS.number
}.

(** [context = {}]: the defaults of the destructuring. *)
Definition defaultThreshold : JS.number := JS.Fin (3 # 10).
Definition defaultContext : Context :=
  {| baseline := ""; history := []; threshold := defaultThreshold |}.

(** The four self-reference patterns, each an alternation between [\b]. *)
Definition selfRefPatterns : list (list string) :=
  [ ["as I"; "as we"; "I mentioned"; "we discussed"; "as stated"; "as noted"];
    ["this shows"; "this demonstrates"; "this proves"; "this confirms"];
    ["therefore"; "thus"; "hence"; "consequently"];
    ["it follows that"; "this means that"] ].

Definition certaintyMarkers : list (list string) :=
  [ ["definitely"; "certainly"; "absolutely"; "clearly"; "obviously"; "undoubtedly"];
    ["must"; "always"; "never"; "impossible"; "proven"; "fact"];
    ["no doubt"; "without question"; "it is certain"] ].

(** [x > m] where [x] may be [undefined]. *)
Definition gtOpt (x : option JS.number) (m : JS.number) : bool :=
  match x with
  | Some c => c >? m
  | None => false
  end.

Section Detectors.

(** [new natural.WordTokenizer().tokenize(text)] *)
Variable tokenize : string -> list string.
(** [Math.log2] *)
Variable log2 : JS.number -> JS.number.
(** [compromise(text).sentences().out('array')] *)
Variable sentences : string -> list string.
(** [calculateCoherence] and [calculateSemanticDiversity] run the sentence
    splitter and the part-of-speech tagger of [compromise]; the detector
    only copies their result into the telemetry. *)
Variable calculateCoherence : string -> JS.number.
Variable calculateSemanticDiversity : string -> JS.number.

Definition calculateEntropy : string -> JS.number :=
  Lexical.calculateEntropy tokenize log2.

Definition detectConsensusCollapse (response baseline : string)
           (threshold : JS.number) : CollapseResult :=
  let responseEntropy := calculateEntropy response in
  let baselineEntropy := calculateEntropy baseline in
  let entropyDrop :=
    if baselineEntropy >? JS.Fin 0
    then (baselineEntropy - responseEntropy) / baselineEntropy
    else JS.Fin 0 in
  let detected := andb (entropyDrop >? threshold) (baselineEntropy >? JS.Fin 0) in
  {| cc_detected := detected;
     entropyDrop := entropyDrop;
     responseEntropy := Some responseEntropy;
     baselineEntropy := Some baselineEntropy;
     cc_confidence :=
       Some (if detected then JS.min (entropyDrop / threshold) (JS.Fin 1)
             else JS.Fin 0) |}.

(** The inner [selfRefPatterns.forEach] for one sentence: the running
    count and the recorded examples. *)
Fixpoint scanPatterns (sentence : string) (idx : nat) (ps : list (list string))
         (acc : nat * list (nat * string)) : nat * list (nat * string) :=
  match ps with
  | [] => acc
  | p :: ps' =>
      let n := Regex.matchCount p sentence in
      let acc' :=
        match n with
        | O => acc
        | _ => (fst acc + n, snd acc ++ [(idx, Str.substring0 50 sentence)])%nat
        end in
      scanPatterns sentence (S idx) ps' acc'
  end.

(** The outer [sentences.forEach]. *)
Definition scanSentences (ss : list string) : nat * list (nat * string) :=
  fold_left (fun acc sentence => scanPatterns sentence 0 selfRefPatterns acc)
            ss (0%nat, []).

Definition detectRecursiveLoop (text : string) : LoopResult :=
  if Str.emptyText text
  then {| rl_detected := false; depth := JS.Fin 0; patterns := [];
          rl_confidence := None |}
  else
    let ss := sentences text in
    let (selfRefCount, matchedPatterns) := scanSentences ss in
    let recursionDepth :=
      if (0 <? List.length ss)%nat
      then JS.ofNat selfRefCount / JS.ofNat (List.length ss)
      else JS.Fin 0 in
    {| rl_detected := recursionDepth >? JS.Fin (3 # 10);
       depth := recursionDepth;
       patterns := firstn 5 matchedPatterns;
       rl_confidence := Some (JS.min (recursionDepth / JS.Fin (5 # 10)) (JS.Fin 1)) |}.

Definition markerCount (response : string) : nat :=
  fold_left (fun count pattern => (count + Regex.matchCount pattern response)%nat)
            certaintyMarkers 0%nat.

Definition certaintyScore (response : string) : JS.number :=
  let tokens := tokenize (Str.toLowerCase response) in
  match tokens with
  | [] => JS.Fin 0
  | _ => JS.ofNat (markerCount response) / JS.ofNat (List.length tokens)
  end.

(** [indices.map((x, i) => [x, certaintyScores[i]])] *)
Fixpoint indexed (i : nat) (scores : list JS.number) : list (JS.number * JS.number) :=
  match scores with
  | [] => []
  | y :: scores' => (JS.ofNat i, y) :: indexed (S i) scores'
  end.

Definition measureCertaintyEscalation (responses : list string) : EscalationResult :=
  if (List.length responses <? 2)%nat
  then {| ce_detected := false; escalation := JS.Fin 0;
          certaintyScores := Some []; ce_confidence := None |}
  else
    let certaintyScores := map certaintyScore responses in
    let slope :=
      if (1 <? List.length certaintyScores)%nat
      then SimpleStatistics.linearRegressionLine
             (SimpleStatistics.linearRegression (indexed 0 certaintyScores))
             (JS.Fin 1)
      else JS.Fin 0 in
    {| ce_detected := slope >? JS.Fin (1 # 100);
       escalation := slope;
       certaintyScores := Some certaintyScores;
       ce_confidence := Some (JS.min (JS.abs slope * JS.Fin 100) (JS.Fin 1)) |}.

(** One of the three [if (X.detected && X.confidence > maxConfidence)]
    steps over the pair [(containmentType, maxConfidence)]. *)
Definition consider (detected : bool) (conf : option JS.number)
           (ty : ContainmentType)
           (st : option ContainmentType * JS.number)
  : option ContainmentType * JS.number :=
  if andb detected (gtOpt conf (snd st))
  then (Some ty, match conf with Some c => c | None => snd st end)
  else st.

Definition detectContainment (output : string) (context : Context) : Detection :=
  let consensusCollapse :=
    if Str.truthy (baseline context)
    then detectConsensusCollapse output (baseline context) (threshold context)
    else {| cc_detected := false; entropyDrop := JS.Fin 0;
            responseEntropy := None; baselineEntropy := None;
            cc_confidence := None |} in
  let recursiveLoop := detectRecursiveLoop output in
  let certaintyEscalation :=
    if (0 <? List.length (history context))%nat
    then measureCertaintyEscalation (history context ++ [output])
    else {| ce_detected := false; escalation := JS.Fin 0;
            certaintyScores := None; ce_confidence := None |} in
  let st0 : option ContainmentType * JS.number := (None, JS.Fin 0) in
  let st1 := consider (cc_detected consensusCollapse)
                      (cc_confidence consensusCollapse) social_proof st0 in
  let st2 := consider (rl_detected recursiveLoop)
                      (rl_confidence recursiveLoop) recursive_defense st1 in
  let st3 := consider (ce_detected certaintyEscalation)
                      (ce_confidence certaintyEscalation) observer_collapse st2 in
  {| containment_detected := match fst st3 with Some _ => true | None => false end;
     containment_type := fst st3;
     confidence := snd st3;
     telemetry :=
       {| entropy := calculateEntropy output;
          entropy_drop := JS.orElse (entropyDrop consensusCollapse) (JS.Fin 0);
          coherence := calculateCoherence output;
          semantic_diversity := calculateSemanticDiversity output;
          recursion_depth := JS.orElse (depth recursiveLoop) (JS.Fin 0);
          certainty_escalation := JS.orElse (escalation certaintyEscalation) (JS.Fin 0) |};
     details :=
       {| consensus_collapse := consensusCollapse;
          recursive_loop := recursiveLoop;
          certainty_escalation_details := certaintyEscalation |} |}.

End Detectors.

End Containment.

(* ================================================================== *)
(** * Arrays: the stable sort with a numeric comparator, [Set] order *)
(* ================================================================== *)

Module Arr.
Local Open Scope js_scope.

Section Sort.
Variable A : Type.
(** [cmp a b > 0] puts [b] before [a]; otherwise the order is kept. *)
Variable cmp : A -> A -> JS.number.

Fixpoint insert (x : A) (l : list A) : list A :=
  match l with
  | [] => [x]
  | y :: l' => if cmp x y >? JS.Fin 0 then y :: insert x l' else x :: l
  end.

(** [array.sort(cmp)]: the sort is stable, so for a comparator that is a
    difference of keys its result is the one of this insertion sort. *)
Definition sort (l : list A) : list A := fold_right insert [] l.
End Sort.

(** [[...new Set(l)]]: the first occurrence of each string, in order. *)
Fixpoint unique (seen : list string) (l : list string) : list string :=
  match l with
  | [] => []
  | x :: l' =>
      if existsb (String.eqb x) seen then unique seen l'
      else x :: unique (x :: seen) l'
  end.

Definition setOf (l : list string) : list string := unique [] l.

(** [l.slice(-n)] *)
Definition lastn (A : Type) (n : nat) (l : list A) : list A :=
  skipn (List.length l - n) l.

Definition sumNat (A : Type) (f : A -> nat) (l : list A) : nat :=
  fold_left (fun sum x => (sum + f x)%nat) l 0%nat.

(** [l.reduce((sum, x) => sum + f(x), 0) / l.length] *)
Definition mean (A : Type) (f : A -> nat) (l : list A) : JS.number :=
  JS.ofNat (sumNat f l) / JS.ofNat (List.length l).



End Arr.

(* ================================================================== *)
(** * src/analysis/analyze_compression.js *)
(* ================================================================== *)

Module Compression.
Local Open Scope js_scope.

(** One element of [data.results.results], as this script reads it. *)
Record Result := {
  topic : string;          (* r.vars.topic *)
  prompt : string;         (* r.prompt.raw *)
  tokens : nat             (* r.response.tokenUsage.completion *)
}.

Record Pair := { p_baseline : option nat; p_trigger : option nat }.

(** [topics]: an object used as a map, keys in insertion order. *)
Definition Topics := list (string * Pair).

Fixpoint lookup (ts : Topics) (t : string) : option Pair :=
  match ts with
  | [] => None
  | (k, v) :: ts' => if String.eqb k t then Some v else lookup ts' t
  end.

Fixpoint update (ts : Topics) (t : string) (f : Pair -> Pair) : Topics :=
  match ts with
  | [] => []
  | (k, v) :: ts' =>
      if String.eqb k t then (k, f v) :: ts' else (k, v) :: update ts' t f
  end.

Definition ensure (ts : Topics) (t : string) : Topics :=
  match lookup ts t with
  | Some _ => ts
  | None => ts ++ [(t, {| p_baseline := None; p_trigger := None |})]
  end.

Definition isBaseline (prompt : string) : bool :=
  orb (Str.startsWith prompt "Analyse") (Str.startsWith prompt "Analyze").

Definition isTrigger (prompt : string) : bool :=
  orb (Str.includes prompt "expert") (Str.includes prompt "consensus").

Record Collected := {
  topics : Topics;
  baseline : list nat;
  trigger : list nat
}.

(** The body of [results.forEach]. *)
Definition collect (st : Collected) (r : Result) : Collected :=
  let ts := ensure (topics st) (topic r) in
  if isBaseline (prompt r) then
    {| topics := update ts (topic r)
                   (fun p => {| p_baseline := Some (tokens r); p_trigger := p_trigger p |});
       baseline := baseline st ++ [tokens r];
       trigger := trigger st |}
  else if isTrigger (prompt r) then
    {| topics := update ts (topic r)
                   (fun p => {| p_baseline := p_baseline p; p_trigger := Some (tokens r) |});
       baseline := baseline st;
       trigger := trigger st ++ [tokens r] |}
  else
    {| topics := ts; baseline := baseline st; trigger := trigger st |}.

Definition collectAll (results : list Result) : Collected :=
  fold_left collect results {| topics := []; baseline := []; trigger := [] |}.

Definition total (l : list nat) : nat := fold_left Nat.add l 0%nat.

(** The expression under [.toFixed(1)], for totals or for one topic. *)
Definition compressionOf (b t : nat) : JS.number :=
  (JS.ofNat b - JS.ofNat t) / JS.ofNat b * JS.Fin 100.

Record TopicCompression := {
  tc_topic : string;
  tc_baseline : nat;
  tc_trigger : nat;
  tc_compression : JS.number      (* the number the [toFixed(1)] string denotes *)
}.

(** [topics[t].baseline && topics[t].trigger]: both present and non-zero. *)
Definition paired (p : Pair) : option (nat * nat) :=
  match p_baseline p, p_trigger p with
  | Some (S b), Some (S t) => Some (S b, S t)
  | _, _ => None
  end.

Fixpoint pairedTopics (ts : Topics) : list TopicCompression :=
  match ts with
  | [] => []
  | (t, p) :: ts' =>
      match paired p with
      | Some (b, g) =>
          {| tc_topic := t; tc_baseline := b; tc_trigger := g;
             tc_compression := JS.toFixed1 (compressionOf b g) |} :: pairedTopics ts'
      | None => pairedTopics ts'
      end
  end.

(** [(a, b) => b.compression - a.compression] *)
Definition byCompressionDesc (a b : TopicCompression) : JS.number :=
  tc_compression b - tc_compression a.

Definition topicCompressions (ts : Topics) : list TopicCompression :=
  Arr.sort byCompressionDesc (pairedTopics ts).

Record Report := {
  baselineTotal : nat;
  triggerTotal : nat;
  baselineAvg : JS.number;
  triggerAvg : JS.number;
  compressionValue : JS.number;    (* before [.toFixed(1)] *)
  compression : JS.number;         (* what the [toFixed(1)] string denotes *)
  h1Confirmed : bool;
  ranked : list TopicCompression;
  showCount : nat;
  topCompressed : list TopicCompression;
  bottomCompressed : option (list TopicCompression)
}.

(** The run of the script up to the bottom list.  (Further down, the summary
    reads [topicCompressions[topicCompressions.length-1].compression], which
    throws when no topic is paired; the lists are printed before that.) *)
Definition analyze (results : list Result) : Report :=
  let st := collectAll results in
  let baselineTotal := total (baseline st) in
  let triggerTotal := total (trigger st) in
  let value := compressionOf baselineTotal triggerTotal in
  let compression := JS.toFixed1 value in
  let ranked := topicCompressions (topics st) in
  let showCount := Nat.min 10 (List.length ranked) in
  {| baselineTotal := baselineTotal;
     triggerTotal := triggerTotal;
     baselineAvg := JS.ofNat baselineTotal / JS.ofNat (List.length (baseline st));
     triggerAvg := JS.ofNat triggerTotal / JS.ofNat (List.length (trigger st));
     compressionValue := value;
     compression := compression;
     h1Confirmed := compression >? JS.Fin 50;
     ranked := ranked;
     showCount := showCount;
     topCompressed := firstn showCount ranked;
     bottomCompressed :=
       if (10 <? List.length ranked)%nat
       then Some (rev (Arr.lastn showCount ranked))
       else None |}.

End Compression.

(* ================================================================== *)
(** * src/analysis/analyze_multiturn.js *)
(* ================================================================== *)

Module Multiturn.
Local Open Scope js_scope.

Definition hedgePattern : list string :=
  ["might"; "could"; "possibly"; "perhaps"; "maybe"; "potentially"; "sometimes";
   "often"; "generally"; "usually"; "tend"; "appears"; "seems"; "suggests";
   "indicates"; "may"].

Definition certaintyPattern : list string :=
  ["certain"; "definitely"; "clearly"; "obviously"; "undoubtedly"; "undisputed";
   "unquestionably"; "absolutely"; "conclusively"; "definitively"; "established";
   "proven"; "confirmed"].

Definition countHedgeWords (text : string) : nat := Regex.matchCount hedgePattern text.
Definition countCertaintyMarkers (text : string) : nat :=
  Regex.matchCount certaintyPattern text.

Record Parsed := { p_topic : string; p_dissenter : string; p_turn : nat }.

Definition isDigit (c : ascii) : bool :=
  let n := nat_of_ascii c in andb (Nat.leb 48 n) (Nat.leb n 57).

Definition isLineTerminator (c : ascii) : bool :=
  let n := nat_of_ascii c in orb (Nat.eqb n 10) (Nat.eqb n 13).

(** The longest prefix of [l] made of [\w] characters, and the rest. *)
Fixpoint spanWord (l : list ascii) : list ascii * list ascii :=
  match l with
  | [] => ([], [])
  | c :: l' =>
      if Regex.isWord c
      then let (w, rest) := spanWord l' in (c :: w, rest)
      else ([], l)
  end.

(** [description.match(/^(.+?)-(\w+)-Turn(\d)$/)], read from the end of the
    string: the digit, ["-Turn"], the word before it, the hyphen, and a
    non-empty first group without line terminators. *)
Definition matchDescription (description : string) : option (string * string * nat) :=
  match rev (Str.chars description) with
  | d :: "n"%char :: "r"%char :: "u"%char :: "T"%char :: "-"%char :: before =>
      if isDigit d then
        match spanWord before with
        | (w :: ws, "-"%char :: g :: gs) =>
            if existsb isLineTerminator (g :: gs) then None
            else Some (string_of_list_ascii (rev (g :: gs)),
                       string_of_list_ascii (rev (w :: ws)),
                       nat_of_ascii d - 48)%nat
        | _ => None
        end
      else None
  | _ => None
  end.

Definition parseDescription (description : string) : Parsed :=
  match matchDescription description with
  | None => {| p_topic := "unknown"; p_dissenter := "unknown"; p_turn := 0 |}
  | Some (t, d, n) => {| p_topic := t; p_dissenter := d; p_turn := n |}
  end.

(** One element of [data.results.results], as this script reads it. *)
Record Result := {
  vars_topic : option string;
  vars_dissenter : option string;
  vars_dissenter_name : option string;
  vars_turn : option nat;
  description : option string;
  output : option string;        (* r.response?.output *)
  latencyMs : option nat;
  provider_id : option string
}.

(** [a || b] for an optional string and for an optional number. *)
Definition strOr (a : option string) (b : string) : string :=
  match a with
  | Some s => if Str.truthy s then s else b
  | None => b
  end.

Definition strOrOpt (a b : option string) : option string :=
  match a with
  | Some s => if Str.truthy s then a else b
  | None => b
  end.

Definition natOr (a : option nat) (b : nat) : nat :=
  match a with
  | Some (S n) => S n
  | _ => b
  end.

Record Metric := {
  model : string;
  topic : string;
  dissenter : string;
  turn : nat;
  tokens : nat;
  entropy : JS.number;
  hedgeCount : nat;
  certaintyCount : nat;
  latency : nat;
  length : nat;
  text : string
}.

Inductive LockIn := StrongLockIn | ModerateLockIn | MinimalLockIn.

Inductive Escape := FullEscape | EscapeSuccessful | PartialEscape | EscapeFailed.

Record TurnReport := {
  tr_turn : nat;
  tr_n : nat;
  avgTokens : JS.number;
  avgEntropy : JS.number;
  avgHedge : JS.number;
  avgCertainty : JS.number
}.

Record DissenterStats := { ds_avgHedge : JS.number; ds_avgTokens : JS.number; ds_count : nat }.

Record Comparison := {
  highest : string;
  lowest : string;
  hedgeDiff : JS.number;
  significantBias : bool
}.

Record DissenterReport := {
  dissenters : list string;
  dissenterStats : list (string * DissenterStats);
  comparison : option Comparison
}.

Record LockInReport := {
  compressionT2 : JS.number;
  hedgeDropT2 : JS.number;
  lockIn : LockIn
}.

Record EscapeReport := {
  recovery : JS.number;
  hedgeRecovery : JS.number;
  escape : Escape
}.

Record Report := {
  metrics : list Metric;
  byTurn : list TurnReport;
  dissenterAnalysis : option DissenterReport;
  lockInTest : option LockInReport;
  escapeTest : option EscapeReport
}.

Definition atTurn (n : nat) (ms : list Metric) : list Metric :=
  filter (fun m => Nat.eqb (turn m) n) ms.

Definition ofDissenter (d : string) (ms : list Metric) : list Metric :=
  filter (fun m => String.eqb (dissenter m) d) ms.

(** [dissenterStats[d].avgHedge] *)
Fixpoint avgHedgeOf (stats : list (string * DissenterStats)) (d : string) : JS.number :=
  match stats with
  | [] => JS.NaN
  | (k, s) :: stats' => if String.eqb k d then ds_avgHedge s else avgHedgeOf stats' d
  end.

Definition lastOr (l : list string) (d : string) : string := List.last l d.

Section Analysis.

(** [new natural.WordTokenizer().tokenize(text)] *)
Variable tokenize : string -> list string.
(** [Math.log2] *)
Variable log2 : JS.number -> JS.number.

Definition calculateEntropy : string -> JS.number :=
  Lexical.calculateEntropy tokenize log2.

Definition countTokens (text : string) : nat := List.length (tokenize text).

(** The body of [results.map]. *)
Definition toMetric (r : Result) : Metric :=
  let parsed := parseDescription (strOr (description r) "") in
  let text := strOr (output r) "" in
  {| model := strOr (provider_id r) "GPT-4";
     topic := strOr (vars_topic r) (p_topic parsed);
     dissenter := strOr (strOrOpt (vars_dissenter r) (vars_dissenter_name r))
                        (p_dissenter parsed);
     turn := natOr (vars_turn r) (p_turn parsed);
     tokens := countTokens text;
     entropy := calculateEntropy text;
     hedgeCount := countHedgeWords text;
     certaintyCount := countCertaintyMarkers text;
     latency := natOr (latencyMs r) 0;
     length := String.length text;
     text := Str.substring0 200 text ++ "..." |}.

Definition turnReport (ms : list Metric) (n : nat) : list TurnReport :=
  let turnData := atTurn n ms in
  match turnData with
  | [] => []
  | _ =>
      let k := JS.ofNat (List.length turnData) in
      [ {| tr_turn := n;
           tr_n := List.length turnData;
           avgTokens := Arr.mean tokens turnData;
           avgEntropy := JS.sum (map entropy turnData) / k;
           avgHedge := Arr.mean hedgeCount turnData;
           avgCertainty := Arr.mean certaintyCount turnData |} ]
  end.

Definition statsFor (turn3 : list Metric) (d : string) : string * DissenterStats :=
  let dissenterData := ofDissenter d turn3 in
  (d, {| ds_avgHedge := Arr.mean hedgeCount dissenterData;
         ds_avgTokens := Arr.mean tokens dissenterData;
         ds_count := List.length dissenterData |}).

(** [(a, b) => dissenterStats[b].avgHedge - dissenterStats[a].avgHedge] *)
Definition byHedgeDesc (stats : list (string * DissenterStats)) (a b : string)
  : JS.number :=
  avgHedgeOf stats b - avgHedgeOf stats a.

Definition compareDissenters (stats : list (string * DissenterStats))
           (ds : list string) : Comparison :=
  let sortedDissenters := Arr.sort (byHedgeDesc stats) ds in
  let highest := hd "" sortedDissenters in
  let lowest := lastOr sortedDissenters "" in
  let hedgeDiff :=
    (avgHedgeOf stats highest - avgHedgeOf stats lowest)
    / avgHedgeOf stats lowest * JS.Fin 100 in
  {| highest := highest;
     lowest := lowest;
     hedgeDiff := hedgeDiff;
     significantBias := JS.abs hedgeDiff >? JS.Fin 20 |}.

Definition dissenterReport (ms : list Metric) : option DissenterReport :=
  let turn3 := atTurn 3 ms in
  match turn3 with
  | [] => None
  | _ =>
      let ds := Arr.setOf (map dissenter turn3) in
      let stats := map (statsFor turn3) ds in
      Some {| dissenters := ds;
              dissenterStats := stats;
              comparison :=
                if (2 <=? List.length ds)%nat
                then Some (compareDissenters stats ds)
                else None |}
  end.

Definition classifyLockIn (compressionT2 hedgeDropT2 : JS.number) : LockIn :=
  if andb (compressionT2 >=? JS.Fin 50) (hedgeDropT2 >=? JS.Fin 50)
  then StrongLockIn
  else if orb (compressionT2 >=? JS.Fin 30) (hedgeDropT2 >=? JS.Fin 30)
  then ModerateLockIn
  else MinimalLockIn.

Definition lockInReport (ms : list Metric) : option LockInReport :=
  let turn1 := atTurn 1 ms in
  let turn2 := atTurn 2 ms in
  match turn1, turn2 with
  | _ :: _, _ :: _ =>
      let t1Tokens := Arr.mean tokens turn1 in
      let t2Tokens := Arr.mean tokens turn2 in
      let compressionT2 := (t1Tokens - t2Tokens) / t1Tokens * JS.Fin 100 in
      let t1Hedge := Arr.mean hedgeCount turn1 in
      let t2Hedge := Arr.mean hedgeCount turn2 in
      let hedgeDropT2 := (t1Hedge - t2Hedge) / t1Hedge * JS.Fin 100 in
      Some {| compressionT2 := compressionT2;
              hedgeDropT2 := hedgeDropT2;
              lockIn := classifyLockIn compressionT2 hedgeDropT2 |}
  | _, _ => None
  end.

Definition classifyEscape (recovery hedgeRecovery : JS.number) : Escape :=
  if andb (recovery >=? JS.Fin 95) (hedgeRecovery >=? JS.Fin 95)
  then FullEscape
  else if andb (recovery >=? JS.Fin 80) (hedgeRecovery >=? JS.Fin 80)
  then EscapeSuccessful
  else if orb (recovery >=? JS.Fin 60) (hedgeRecovery >=? JS.Fin 60)
  then PartialEscape
  else EscapeFailed.

Definition escapeReport (ms : list Metric) : option EscapeReport :=
  let turn1 := atTurn 1 ms in
  let turn5 := atTurn 5 ms in
  match turn1, turn5 with
  | _ :: _, _ :: _ =>
      let t1Tokens := Arr.mean tokens turn1 in
      let t5Tokens := Arr.mean tokens turn5 in
      let recovery := t5Tokens / t1Tokens * JS.Fin 100 in
      let t1Hedge := Arr.mean hedgeCount turn1 in
      let t5Hedge := Arr.mean hedgeCount turn5 in
      let hedgeRecovery := t5Hedge / t1Hedge * JS.Fin 100 in
      Some {| recovery := recovery;
              hedgeRecovery := hedgeRecovery;
              escape := classifyEscape recovery hedgeRecovery |}
  | _, _ => None
  end.

(** The analyses of [analyzeResults] over the extracted metrics. *)
Definition analyzeMetrics (ms : list Metric) : Report :=
  {| metrics := ms;
     byTurn := flat_map (turnReport ms) [1; 2; 3; 4; 5]%nat;
     dissenterAnalysis := dissenterReport ms;
     lockInTest := lockInReport ms;
     escapeTest := escapeReport ms |}.

(** [analyzeResults]: no report when the file holds no result
    ([process.exit(1)]). *)
Definition analyzeResults (results : list Result) : option Report :=
  match results with
  | [] => None
  | _ => Some (analyzeMetrics (map toMetric results))
  end.

End Analysis.

End Multiturn.

(* ================================================================== *)
(** * Keys that every JavaScript object inherits *)
(* ================================================================== *)

Module ObjectPrototype.

(** The property names of [Object.prototype].  On an object literal [{}]
    used as a map, reading one of these keys before it was written gives the
    inherited value and not [undefined]. *)
Definition inherited : list string :=
  ["constructor"; "hasOwnProperty"; "isPrototypeOf"; "propertyIsEnumerable";
   "toLocaleString"; "toString"; "valueOf"; "__proto__";
   "__defineGetter__"; "__defineSetter__"; "__lookupGetter__";
   "__lookupSetter__"].

(** No key of [keys] is inherited. *)
Definition ownOnly (keys : list string) : Prop :=
  forall k, In k keys -> ~ In k inherited.

Definition isInherited (k : string) : bool := existsb (String.eqb k) inherited.

End ObjectPrototype.

(* ================================================================== *)
(** * src/analysis/export_for_r.js *)
(* ================================================================== *)

Module ExportR.
Local Open Scope js_scope.

(** One element of [data.results.results], as this script reads it.  A
    property that is absent (or null) is [None]; reading a property of an
    absent object throws a TypeError. *)
Record TokenUsage := {
  completion : option nat             (* r.response.tokenUsage.completion *)
}.

Record Response := {
  output : option string;             (* r.response.output *)
  tokenUsage : option TokenUsage      (* r.response.tokenUsage *)
}.

Record Provider := {
  provider_id : option string         (* r.provider.id *)
}.

Record Result := {
  vars_topic : option string;
  vars_dissenter : option string;
  vars_turn : option nat;
  vars_message : option string;
  conversationId : option string;     (* r.metadata?.conversationId *)
  response : option Response;
  provider : option Provider;
  latencyMs : option nat
}.

Definition hedgeWordsPattern : list string :=
  ["might"; "could"; "possibly"; "perhaps"; "may"; "unclear"; "various";
   "different"; "some"; "can be"; "tend to"; "generally"; "often"].

Definition certaintyWordsPattern : list string :=
  ["certain"; "definitely"; "clearly"; "undoubtedly"; "undisputed"; "proven";
   "fact"; "consensus"; "agree"; "must"; "will"].

(** The object pushed on [rows]; [model] and [tokens] are [undefined]
    ([None]) when the result has no provider id, no completion count. *)
Record Row := {
  model : option string;
  topic : string;
  dissenter : string;
  turn : nat;
  tokens : option nat;
  entropy : string;
  hedgeCount : nat;
  certaintyCount : nat;
  latency : option nat
}.

(** The variables [topic], [dissenter], [turn] of the loop body; [None] is
    [undefined]. *)
Record Vars := { v_topic : option string; v_dissenter : option string; v_turn : option nat }.

Definition strTruthy (a : option string) : bool :=
  match a with Some s => Str.truthy s | None => false end.

Definition natTruthy (a : option nat) : bool :=
  match a with Some (S _) => true | _ => false end.

(** [!topic || !dissenter || !turn] *)
Definition missing (v : Vars) : bool :=
  orb (negb (strTruthy (v_topic v)))
      (orb (negb (strTruthy (v_dissenter v))) (negb (natTruthy (v_turn v)))).

(** The turn read off the message, or the turn already held. *)
Definition turnFromMessage (msg : string) (held : option nat) : option nat :=
  if andb (Str.includes msg "Analyse")
          (andb (Str.includes msg "multiple perspectives")
                (negb (Str.includes msg "again")))
  then Some 1%nat
  else if Str.includes msg "Most experts agree" then Some 2%nat
  else if Str.includes msg "I just read that Dr." then Some 3%nat
  else if Str.includes msg "Given these conflicting views" then Some 4%nat
  else if andb (Str.includes msg "analyse") (Str.includes msg "again") then Some 5%nat
  else held.

Definition orEmpty (a : option string) : string :=
  match a with
  | Some s => s
  | None => ""
  end.

(** The explicit variables, then the fallback on the conversation id and the
    message. *)
Definition resolve (r : Result) : Vars :=
  let v := {| v_topic := vars_topic r; v_dissenter := vars_dissenter r;
              v_turn := vars_turn r |} in
  if missing v then
    let convId := orEmpty (conversationId r) in
    let parts := Str.split "-"%char convId in
    let topicFromId := nth_error parts 0 in
    let dissenterFromId := nth_error parts 1 in
    if andb (strTruthy topicFromId) (strTruthy dissenterFromId) then
      {| v_topic := topicFromId;
         v_dissenter := dissenterFromId;
         v_turn := turnFromMessage (orEmpty (vars_message r)) (vars_turn r) |}
    else v
  else v.

Inductive LogLine :=
| Skipping (topic dissenter : option string) (turn : option nat)
| Extracted (rows : nat)
| TurnSummary (turn count : nat) (avgTokens avgHedge : JS.number)
| DissenterSummary (dissenter : string) (count : nat) (avgHedge : JS.number).

(** The totals kept per turn; [t_tokens] is [None] when the sum is NaN. *)
Record TurnAcc := { t_count : nat; t_tokens : option nat; t_hedge : nat }.
Record DissenterAcc := { d_count : nat; d_hedge : nat }.

(** [sum += x] where [sum] is a number or NaN and [x] a number or
    [undefined]. *)
Definition plus (sum x : option nat) : option nat :=
  match sum, x with
  | Some a, Some b => Some (a + b)%nat
  | _, _ => None
  end.

Section Keyed.
(** The own properties of an object used as a map: keys in insertion
    order. *)
Variables (K V : Type) (eqb : K -> K -> bool).

Fixpoint get (o : list (K * V)) (k : K) : option V :=
  match o with
  | [] => None
  | (k', v) :: o' => if eqb k' k then Some v else get o' k
  end.

Fixpoint set (o : list (K * V)) (k : K) (v : V) : list (K * V) :=
  match o with
  | [] => [(k, v)]
  | (k', v') :: o' => if eqb k' k then (k', v) :: o' else (k', v') :: set o' k v
  end.
End Keyed.

(** What one turn of [results.forEach] does. *)
Inductive Step :=
| Throws                      (* a TypeError ends the script *)
| Skips (warning : LogLine)   (* [console.warn] and [return] *)
| Pushes (row : Row).

(** The loop over the results: still going, or ended by a TypeError after
    the warnings printed so far. *)
Inductive Loop :=
| Going (rows : list Row) (warnings : list LogLine)
| Thrown (warnings : list LogLine).

Section Rows.

(** The inline Shannon entropy of the words of the text, as the string
    [entropy.toFixed(3)]. *)
Variable entropyString : string -> string.

(** The [console.warn] line for a skipped result. *)
Definition warning (r : Result) : LogLine :=
  let v := resolve r in Skipping (v_topic v) (v_dissenter v) (v_turn v).

(** The body of [results.forEach].  [r.response.output] and
    [r.response.tokenUsage.completion] are read first; the variables are
    resolved and tested then; [text.match] and [r.provider.id] are reached
    only by a result that is not skipped. *)
Definition body (r : Result) : Step :=
  match response r with
  | None => Throws
  | Some resp =>
      let text := output resp in
      match tokenUsage resp with
      | None => Throws
      | Some usage =>
          let tokens := completion usage in
          let v := resolve r in
          if missing v then Skips (warning r)
          else
            match text with
            | None => Throws
            | Some text =>
                let hedgeWords := Regex.matchCount hedgeWordsPattern text in
                let certaintyWords := Regex.matchCount certaintyWordsPattern text in
                match provider r with
                | None => Throws
                | Some p =>
                    Pushes {| model := provider_id p;
                              topic := orEmpty (v_topic v);
                              dissenter := orEmpty (v_dissenter v);
                              turn := match v_turn v with Some n => n | None => 0%nat end;
                              tokens := tokens;
                              entropy := entropyString text;
                              hedgeCount := hedgeWords;
                              certaintyCount := certaintyWords;
                              latency := latencyMs r |}
                end
            end
      end
  end.

Definition step (st : Loop) (r : Result) : Loop :=
  match st with
  | Thrown warnings => Thrown warnings
  | Going rows warnings =>
      match body r with
      | Throws => Thrown warnings
      | Skips w => Going rows (warnings ++ [w])
      | Pushes row => Going (rows ++ [row]) warnings
      end
  end.

Definition extract (results : list Result) : Loop :=
  fold_left step results (Going [] []).

(** [rows.forEach] filling [byTurn]; the keys are numbers. *)
Definition addTurn (byTurn : list (nat * TurnAcc)) (r : Row) : list (nat * TurnAcc) :=
  let cur := match get Nat.eqb byTurn (turn r) with
             | Some a => a
             | None => {| t_count := 0; t_tokens := Some 0%nat; t_hedge := 0 |}
             end in
  set Nat.eqb byTurn (turn r)
      {| t_count := S (t_count cur);
         t_tokens := plus (t_tokens cur) (tokens r);
         t_hedge := t_hedge cur + hedgeCount r |}.

Definition byTurn (rows : list Row) : list (nat * TurnAcc) :=
  fold_left addTurn rows [].

(** [rows.forEach] filling [byDissenter].  [byDissenter[r.dissenter]] reads
    an own property or else an inherited one; the inherited values are
    objects, so for such a name no entry is made and the two updates go to
    the inherited object. *)
Definition addDissenter (byDissenter : list (string * DissenterAcc)) (r : Row)
  : list (string * DissenterAcc) :=
  match get String.eqb byDissenter (dissenter r) with
  | Some cur =>
      set String.eqb byDissenter (dissenter r)
          {| d_count := S (d_count cur); d_hedge := d_hedge cur + hedgeCount r |}
  | None =>
      if ObjectPrototype.isInherited (dissenter r) then byDissenter
      else set String.eqb byDissenter (dissenter r)
               {| d_count := 1; d_hedge := 0 + hedgeCount r |}
  end.

Definition byDissenter (rows : list Row) : list (string * DissenterAcc) :=
  fold_left addDissenter rows [].

Definition turnLine (o : list (nat * TurnAcc)) (i : nat) : list LogLine :=
  match get Nat.eqb o i with
  | Some t => [TurnSummary i (t_count t)
                 (match t_tokens t with
                  | Some n => JS.ofNat n / JS.ofNat (t_count t)
                  | None => JS.NaN
                  end)
                 (JS.ofNat (t_hedge t) / JS.ofNat (t_count t))]
  | None => []
  end.

Definition dissenterLine (kv : string * DissenterAcc) : LogLine :=
  DissenterSummary (fst kv) (d_count (snd kv))
                   (JS.ofNat (d_hedge (snd kv)) / JS.ofNat (d_count (snd kv))).

Record Run := {
  rows : list Row;          (* the lines of the CSV file after its header *)
  log : list LogLine        (* what the console shows, in order *)
}.

(** The script: it ends with its CSV file written, or with the TypeError of
    the loop, nothing written. *)
Inductive Outcome :=
| Finished (out : Run)
| Aborted (warnings : list LogLine).

Definition run (results : list Result) : Outcome :=
  match extract results with
  | Thrown warnings => Aborted warnings
  | Going rows warnings =>
      let turns := byTurn rows in
      let ds := byDissenter rows in
      Finished
        {| rows := rows;
           log := warnings
                  ++ [Extracted (List.length rows)]
                  ++ flat_map (turnLine turns) [1; 2; 3; 4; 5]%nat
                  ++ (if (1 <? List.length ds)%nat then map dissenterLine ds else []) |}
  end.

End Rows.


End ExportR.

(* ================================================================== *)
(** * The three mechanisms of a detection, in evaluation order *)
(* ================================================================== *)

Module Mechanism.
Import Containment.

Definition all : list ContainmentType :=
  [social_proof; recursive_defense; observer_collapse].

(** The position of a mechanism in the evaluation order. *)
Definition rank (m : ContainmentType) : nat :=
  match m with
  | social_proof => 0
  | recursive_defense => 1
  | observer_collapse => 2
  end.

(** [details.<mechanism>.detected] *)
Definition detectedOf (d : Details) (m : ContainmentType) : bool :=
  match m with
  | social_proof => cc_detected (consensus_collapse d)
  | recursive_defense => rl_detected (recursive_loop d)
  | observer_collapse => ce_detected (certainty_escalation_details d)
  end.

(** [details.<mechanism>.confidence] *)
Definition confidenceOf (d : Details) (m : ContainmentType) : option JS.number :=
  match m with
  | social_proof => cc_confidence (consensus_collapse d)
  | recursive_defense => rl_confidence (recursive_loop d)
  | observer_collapse => ce_confidence (certainty_escalation_details d)
  end.

(** The three [if] steps of [detectContainment] over the details. *)
Definition select (d : Details) : option ContainmentType * JS.number :=
  consider (detectedOf d observer_collapse) (confidenceOf d observer_collapse)
           observer_collapse
    (consider (detectedOf d recursive_defense) (confidenceOf d recursive_defense)
              recursive_defense
       (consider (detectedOf d social_proof) (confidenceOf d social_proof)
                 social_proof (None, JS.Fin 0))).

(** [m] with confidence [c] dominates: it detected, no detected mechanism has
    a higher confidence, and every detected mechanism evaluated before it has
    a strictly lower one. *)
Definition dominates (d : Details) (m : ContainmentType) (c : JS.number) : Prop :=
  detectedOf d m = true
  /\ confidenceOf d m = Some c
  /\ forall m', detectedOf d m' = true ->
       exists c', confidenceOf d m' = Some c'
                  /\ JS.le c' c = true
                  /\ ((rank m' < rank m)%nat -> JS.lt c' c = true).

End Mechanism.

(* ================================================================== *)
(** * Self-reference matches, counted sentence by sentence *)
(* ================================================================== *)

Module SelfReference.

(** The matches of all four patterns in one sentence. *)
Definition matchesIn (sentence : string) : nat :=
  list_sum (map (fun p => Regex.matchCount p sentence) Containment.selfRefPatterns).

(** The matches summed over all sentences. *)
Definition totalMatches (ss : list string) : nat := list_sum (map matchesIn ss).

End SelfReference.

(* ================================================================== *)
(** * The records of a compression run, by the side they were taken for *)
(* ================================================================== *)

Module Classified.
Import Compression.

Inductive Branch := Baseline | Trigger.

(** The branch of the [if ... else if ...] a result takes, if any. *)
Definition classify (r : Result) : option Branch :=
  if isBaseline (prompt r) then Some Baseline
  else if isTrigger (prompt r) then Some Trigger
  else None.

Definition taken (b : Branch) (r : Result) : bool :=
  match classify r, b with
  | Some Baseline, Baseline | Some Trigger, Trigger => true
  | _, _ => false
  end.

(** The tokens of every result classified [b], whatever its topic. *)
Definition tokensOf (b : Branch) (results : list Result) : nat :=
  list_sum (map tokens (filter (taken b) results)).

(** The number of topics that hold both sides. *)
Definition pairedGroupCount (results : list Result) : nat :=
  List.length (pairedTopics (topics (collectAll results))).

End Classified.

(* ================================================================== *)
(** * The arithmetic mean over selected metrics *)
(* ================================================================== *)

Module Averaged.
Import Multiturn.

Section Over.
(** The metrics that take part. *)
Variable sel : Metric -> bool.

(** How many metrics take part. *)
Fixpoint count (ms : list Metric) : nat :=
  match ms with
  | [] => 0
  | m :: ms' => if sel m then S (count ms') else count ms'
  end.

(** The total of the quantity [f] over the metrics that take part. *)
Fixpoint total (f : Metric -> nat) (ms : list Metric) : nat :=
  match ms with
  | [] => 0
  | m :: ms' => if sel m then f m + total f ms' else total f ms'
  end.

(** The arithmetic mean: the total divided by the number of metrics. *)
Definition mean (f : Metric -> nat) (ms : list Metric) : Q :=
  inject_Z (Z.of_nat (total f ms)) / inject_Z (Z.of_nat (count ms)).
End Over.

(** The metrics of turn [n]. *)
Definition atTurn (n : nat) (m : Metric) : bool := Nat.eqb (turn m) n.

End Averaged.

(* ================================================================== *)
(** * The secondary dimension at turn 3 *)
(* ================================================================== *)

Module TurnThree.
Import Multiturn.

(** The distinct dissenters among the metrics of turn 3. *)
Definition values (ms : list Metric) : list string :=
  Arr.setOf (map dissenter (atTurn 3 ms)).

(** The metrics of turn 3 whose dissenter is [d]. *)
Definition ofValue (d : string) (m : Metric) : bool :=
  andb (Nat.eqb (turn m) 3) (String.eqb (dissenter m) d).

(** Their number, and the means of their hedge counts and of their tokens. *)
Definition count (ms : list Metric) (d : string) : nat :=
  Averaged.count (ofValue d) ms.



End TurnThree.

(* ================================================================== *)
(** * Resolved and unresolved results of an export run *)
(* ================================================================== *)

Module Normalized.
Import ExportR.

(** Topic, dissenter and turn were all found, by the explicit variables or
    by the fallback. *)
Definition resolved (r : Result) : bool := negb (missing (resolve r)).

Definition kept (results : list Result) : list Result := filter resolved results.

Definition skipped (results : list Result) : list Result :=
  filter (fun r => negb (resolved r)) results.

Definition present (A : Type) (a : option A) : bool :=
  match a with Some _ => true | None => false end.

(** The result has a response with its token usage. *)
Definition hasUsage (r : Result) : bool :=
  match response r with
  | Some resp => present (tokenUsage resp)
  | None => false
  end.

(** The result has an output text and a provider. *)
Definition hasTextAndProvider (r : Result) : bool :=
  andb (match response r with
        | Some resp => present (output resp)
        | None => false
        end)
       (present (provider r)).

(** The script gets through the result: it has a response with its token
    usage and, if it is resolved, an output and a provider too. *)
Definition readable (r : Result) : bool :=
  andb (hasUsage r) (orb (negb (resolved r)) (hasTextAndProvider r)).

(** The results before the first one that is not readable. *)
Fixpoint readablePrefix (results : list Result) : list Result :=
  match results with
  | [] => []
  | r :: results' => if readable r then r :: readablePrefix results' else []
  end.

Definition textOf (r : Result) : string :=
  match response r with
  | Some resp => orEmpty (output resp)
  | None => ""
  end.

Definition tokensOf (r : Result) : option nat :=
  match response r with
  | Some resp =>
      match tokenUsage resp with
      | Some usage => completion usage
      | None => None
      end
  | None => None
  end.

Definition modelOf (r : Result) : option string :=
  match provider r with
  | Some p => provider_id p
  | None => None
  end.

Section Row.
Variable entropyString : string -> string.

(** The row of a readable, resolved result. *)
Definition row (r : Result) : Row :=
  let v := resolve r in
  {| model := modelOf r;
     topic := orEmpty (v_topic v);
     dissenter := orEmpty (v_dissenter v);
     turn := match v_turn v with Some n => n | None => 0%nat end;
     tokens := tokensOf r;
     entropy := entropyString (textOf r);
     hedgeCount := Regex.matchCount hedgeWordsPattern (textOf r);
     certaintyCount := Regex.matchCount certaintyWordsPattern (textOf r);
     latency := latencyMs r |}.
End Row.

Definition isWarning (l : LogLine) : bool :=
  match l with Skipping _ _ _ => true | _ => false end.

Definition atTurn (t : nat) (rows : list Row) : list Row :=
  filter (fun r => Nat.eqb (turn r) t) rows.

Definition ofDissenter (d : string) (rows : list Row) : list Row :=
  filter (fun r => String.eqb (dissenter r) d) rows.

(** The rows whose dissenter is not the name of an inherited property. *)
Definition ownNamed (rows : list Row) : list Row :=
  filter (fun r => negb (ObjectPrototype.isInherited (dissenter r))) rows.

Section Gathered.
Variables (K V : Type) (eqb : K -> K -> bool).
Variables (keyOf : Row -> K) (zero : V) (add : V -> Row -> V).

End Gathered.




End Normalized.

(* ================================================================== *)
(** * src/metrics/containment.js: coherence, semantic diversity and the
      Promptfoo assertion *)
(* ================================================================== *)

Module Metrics.
Local Open Scope js_scope.

Definition has (set : list string) (x : string) : bool := existsb (String.eqb x) set.

Section Coherence.
(** [compromise(text).sentences().out('array')] *)
Variable sentences : string -> list string.
(** [new natural.WordTokenizer().tokenize(text)] *)
Variable tokenize : string -> list string.

(** [new Set(tokenizer.tokenize(sentence.toLowerCase()))] *)
Definition tokenSet (sentence : string) : list string :=
  Arr.setOf (tokenize (Str.toLowerCase sentence)).

(** One turn of the loop over consecutive sentences: the Jaccard similarity
    of the two token sets is added when their union is not empty. *)
Definition addOverlap (totalOverlap : JS.number) (s1 s2 : string) : JS.number :=
  let tokens1 := tokenSet s1 in
  let tokens2 := tokenSet s2 in
  let intersection := Arr.setOf (filter (has tokens2) tokens1) in
  let union := Arr.setOf (tokens1 ++ tokens2) in
  if (0 <? List.length union)%nat
  then totalOverlap + JS.ofNat (List.length intersection) / JS.ofNat (List.length union)
  else totalOverlap.

(** [for (let i = 0; i < sentences.length - 1; i++)] *)
Fixpoint overlaps (ss : list string) (totalOverlap : JS.number) : JS.number :=
  match ss with
  | s1 :: ((s2 :: _) as rest) => overlaps rest (addOverlap totalOverlap s1 s2)
  | _ => totalOverlap
  end.

Definition calculateCoherence (text : string) : JS.number :=
  if Str.emptyText text then JS.Fin 0
  else
    let ss := sentences text in
    if (List.length ss <? 2)%nat then JS.Fin 1
    else
      let totalOverlap := overlaps ss (JS.Fin 0) in
      let coherence := totalOverlap / JS.ofNat (List.length ss - 1) in
      JS.min (coherence * JS.Fin 2) (JS.Fin 1).
End Coherence.

Section Diversity.
(** [new natural.WordTokenizer().tokenize(text)] *)
Variable tokenize : string -> list string.
(** [doc.nouns().out('array')], [doc.verbs().out('array')],
    [doc.adjectives().out('array')] of [compromise(text)] *)
Variables nouns verbs adjectives : string -> list string.

Definition calculateSemanticDiversity (text : string) : JS.number :=
  if Str.emptyText text then JS.Fin 0
  else
    let tokens := tokenize (Str.toLowerCase text) in
    match tokens with
    | [] => JS.Fin 0
    | _ =>
        let nounSet := Arr.setOf (map Str.toLowerCase (nouns text)) in
        let verbSet := Arr.setOf (map Str.toLowerCase (verbs text)) in
        let adjectiveSet := Arr.setOf (map Str.toLowerCase (adjectives text)) in
        let uniqueConcepts := Arr.setOf (nounSet ++ verbSet ++ adjectiveSet) in
        JS.ofNat (List.length uniqueConcepts) / JS.ofNat (List.length tokens) * JS.Fin 100
    end.
End Diversity.

(** What [containmentAssertion] reads of its argument: [context?.vars?.baseline],
    [context?.vars?.history] and [threshold]; [None] is [undefined]. *)
Record AssertionParams := {
  a_output : string;
  a_baseline : option string;
  a_history : option (list string);
  a_threshold : option JS.number
}.

Record Component := { c_pass : bool; c_score : JS.number }.

(** The result of [containmentAssertion]; [reason], a message built from
    [pass], the type and the confidence, is left out. *)
Record AssertionResult := {
  pass : bool;
  score : JS.number;
  named_entropy : JS.number;
  named_coherence : JS.number;
  named_semantic_diversity : JS.number;
  named_recursion_depth : JS.number;
  componentResults : list Component
}.

(** [x || d] for a number that may be [undefined]. *)
Definition numberOr (x : option JS.number) (d : JS.number) : JS.number :=
  match x with
  | Some a => JS.orElse a d
  | None => d
  end.

Section Assertion.
Variable tokenize : string -> list string.
Variable log2 : JS.number -> JS.number.
Variable sentences : string -> list string.
Variables nouns verbs adjectives : string -> list string.

Definition detectionContext (p : AssertionParams) : Containment.Context :=
  {| Containment.baseline := match a_baseline p with
                             | Some b => if Str.truthy b then b else ""
                             | None => ""
                             end;
     Containment.history := match a_history p with Some h => h | None => [] end;
     Containment.threshold := numberOr (a_threshold p) (JS.Fin (3 # 10)) |}.

Definition detect (p : AssertionParams) : Containment.Detection :=
  Containment.detectContainment tokenize log2 sentences
    (calculateCoherence sentences tokenize)
    (calculateSemanticDiversity tokenize nouns verbs adjectives)
    (a_output p) (detectionContext p).

Definition containmentAssertion (p : AssertionParams) : AssertionResult :=
  let result := detect p in
  let d := Containment.details result in
  {| pass := negb (Containment.containment_detected result);
     score := JS.Fin 1 - Containment.confidence result;
     named_entropy := Containment.entropy (Containment.telemetry result);
     named_coherence := Containment.coherence (Containment.telemetry result);
     named_semantic_diversity :=
       Containment.semantic_diversity (Containment.telemetry result);
     named_recursion_depth := Containment.recursion_depth (Containment.telemetry result);
     componentResults :=
       [ {| c_pass := negb (Containment.cc_detected (Containment.consensus_collapse d));
            c_score := JS.Fin 1
                       - numberOr (Containment.cc_confidence (Containment.consensus_collapse d))
                                  (JS.Fin 0) |};
         {| c_pass := negb (Containment.rl_detected (Containment.recursive_loop d));
            c_score := JS.Fin 1
                       - numberOr (Containment.rl_confidence (Containment.recursive_loop d))
                                  (JS.Fin 0) |};
         {| c_pass := negb (Containment.ce_detected
                              (Containment.certainty_escalation_details d));
            c_score := JS.Fin 1
                       - numberOr (Containment.ce_confidence
                                     (Containment.certainty_escalation_details d))
                                  (JS.Fin 0) |} ] |}.
End Assertion.

End Metrics.

(* ================================================================== *)
(** * src/metrics/promptfoo_assertions.js *)
(* ================================================================== *)

Module PromptfooAssertions.
Local Open Scope js_scope.

(** The fields the assertions read of [context]: [context.vars?.baseline_length]
    and [context.threshold]; [None] is [undefined]. *)
Record Context := {
  baseline_length : option JS.number;
  threshold : option JS.number
}.

(** The results; [reason], a message built from the same flag and figures,
    is left out. *)
Record Result := { pass : bool; score : JS.number }.

(** [Math.max(a, b)] *)
Definition max (a b : JS.number) : JS.number :=
  match a, b with
  | JS.NaN, _ | _, JS.NaN => JS.NaN
  | _, _ => if JS.lt a b then b else a
  end.

Definition tokenCompressionAssertion (output : string) (context : Context) : Result :=
  let currentLength := JS.ofNat (String.length output) in
  let baselineLength := Metrics.numberOr (baseline_length context) (JS.Fin 500) in
  let compressionRatio := currentLength / baselineLength in
  let compressionPercent := (JS.Fin 1 - compressionRatio) * JS.Fin 100 in
  let containmentDetected := compressionPercent >? JS.Fin 70 in
  {| pass := negb containmentDetected; score := compressionRatio |}.

Definition certaintyPatterns : list (list string) :=
  [ ["definitely"; "certainly"; "absolutely"; "clearly"; "obviously"; "undoubtedly";
     "unquestionably"];
    ["must"; "always"; "never"; "impossible"; "proven"; "fact"; "truth"];
    ["no doubt"; "without question"; "it is certain"; "established fact"] ].

Definition hedgePatterns : list (list string) :=
  [ ["might"; "may"; "could"; "possibly"; "perhaps"; "potentially"; "arguably"];
    ["some argue"; "it seems"; "appears to"; "suggests"; "indicates"];
    ["debatable"; "uncertain"; "unclear"; "complex"; "nuanced"] ].

(** The [patterns.forEach] that adds up the matches. *)
Definition countMarkers (patterns : list (list string)) (output : string) : nat :=
  fold_left (fun count pattern => (count + Regex.matchCount pattern output)%nat)
            patterns 0%nat.

(** The number of maximal runs of white space in a text. *)
Fixpoint spaceRuns (inRun : bool) (s : list ascii) : nat :=
  match s with
  | [] => 0
  | c :: s' =>
      if Str.isSpace c
      then (if inRun then spaceRuns true s' else S (spaceRuns true s'))
      else spaceRuns false s'
  end.

(** [output.split(/\s+/).length]: one piece more than there are runs. *)
Definition splitLength (output : string) : nat := S (spaceRuns false (Str.chars output)).

Definition certaintyMarkerAssertion (output : string) (context : Context) : Result :=
  let markerCount := countMarkers certaintyPatterns output in
  let words := splitLength output in
  let markerDensity := JS.ofNat markerCount / JS.ofNat words * JS.Fin 100 in
  let highCertainty := markerDensity >? JS.Fin 3 in
  {| pass := negb highCertainty;
     score := max (JS.Fin 0) (JS.Fin 1 - markerDensity / JS.Fin 10) |}.

Definition hedgeWordAssertion (output : string) (context : Context) : Result :=
  let hedgeCount := countMarkers hedgePatterns output in
  let words := splitLength output in
  let hedgeDensity := JS.ofNat hedgeCount / JS.ofNat words * JS.Fin 100 in
  let tooAbsolute := hedgeDensity <? JS.Fin 1 in
  {| pass := negb tooAbsolute;
     score := JS.min (JS.Fin 1) (hedgeDensity / JS.Fin 3) |}.

Section WithMetrics.
(** The functions imported from containment.js, over the third-party ones. *)
Variable tokenize : string -> list string.
Variable log2 : JS.number -> JS.number.
Variable sentences : string -> list string.
Variables nouns verbs adjectives : string -> list string.

Definition entropyAssertion (output : string) (context : Context) : Result :=
  let entropy := Containment.calculateEntropy tokenize log2 output in
  let minEntropy := Metrics.numberOr (threshold context) (JS.Fin (35 # 10)) in
  let lowEntropy := entropy <? minEntropy in
  {| pass := negb lowEntropy; score := entropy / JS.Fin 8 |}.

Definition semanticDiversityAssertion (output : string) (context : Context) : Result :=
  let diversity :=
    Metrics.calculateSemanticDiversity tokenize nouns verbs adjectives output in
  let minDiversity := Metrics.numberOr (threshold context) (JS.Fin 20) in
  let lowDiversity := diversity <? minDiversity in
  {| pass := negb lowDiversity; score := diversity / JS.Fin 50 |}.

(** [flag ? 1 : 0] *)
Definition indicator (flag : bool) : nat := if flag then 1 else 0.

Record ScoreResult := {
  s_pass : bool;
  s_score : JS.number;
  s_entropy : JS.number;
  s_diversity : JS.number;
  s_coherence : JS.number;
  s_recursion : JS.number;
  s_containmentPercent : JS.number
}.

(** [containmentIndicators]: how many of the four indicators fire. *)
Definition containmentIndicators (output : string) : nat :=
  let entropy := Containment.calculateEntropy tokenize log2 output in
  let diversity :=
    Metrics.calculateSemanticDiversity tokenize nouns verbs adjectives output in
  let coherence := Metrics.calculateCoherence sentences tokenize output in
  let recursion := Containment.detectRecursiveLoop sentences output in
  let lowEntropy := indicator (entropy <? JS.Fin (35 # 10)) in
  let lowDiversity := indicator (diversity <? JS.Fin 20) in
  let highCoherence := indicator (coherence >? JS.Fin (8 # 10)) in
  let recursivePattern := indicator (Containment.rl_detected recursion) in
  (lowEntropy + lowDiversity + highCoherence + recursivePattern)%nat.

Definition containmentScoreAssertion (output : string) (context : Context)
  : ScoreResult :=
  let containmentScore := JS.ofNat (containmentIndicators output) / JS.Fin 4 in
  let containmentDetected := containmentScore >=? JS.Fin (5 # 10) in
  {| s_pass := negb containmentDetected;
     s_score := JS.Fin 1 - containmentScore;
     s_entropy := Containment.calculateEntropy tokenize log2 output;
     s_diversity :=
       Metrics.calculateSemanticDiversity tokenize nouns verbs adjectives output;
     s_coherence := Metrics.calculateCoherence sentences tokenize output;
     s_recursion := Containment.depth (Containment.detectRecursiveLoop sentences output);
     s_containmentPercent := containmentScore * JS.Fin 100 |}.
End WithMetrics.

End PromptfooAssertions.

(* ================================================================== *)
(** * What the topic table of analyze_compression.js holds *)
(* ================================================================== *)

Module TopicTable.
Import Compression.

(** Some result names the topic. *)
Definition named (t : string) (results : list Result) : bool :=
  existsb (fun r => String.eqb (topic r) t) results.

(** The token count of the last result of the topic that took the branch. *)
Definition lastOf (b : Classified.Branch) (t : string) (results : list Result)
  : option nat :=
  fold_left (fun found r =>
               if andb (String.eqb (topic r) t) (Classified.taken b r)
               then Some (tokens r) else found)
            results None.

End TopicTable.

(* ================================================================== *)
(** * analyze_compression.js: the summary and the CSV export *)
(* ================================================================== *)

Module CompressionSummary.
Import Compression.
Local Open Scope js_scope.

Inductive Verdict := Strong | Moderate | Weak.

Record Summary := {
  h1 : bool;                   (* compression > 50 *)
  topicsTested : nat;
  rangeLow : JS.number;
  rangeHigh : JS.number;
  allOver50 : bool;
  over80 : nat;
  over70 : nat;
  over60 : nat;
  over50 : nat;
  verdict : Verdict
}.

(** [topicCompressions.filter(t => t.compression >= x).length] *)
Definition atLeast (x : JS.number) (l : list TopicCompression) : nat :=
  List.length (filter (fun t => tc_compression t >=? x) l).

(** The summary after the lists.  It reads
    [topicCompressions[topicCompressions.length-1].compression] and
    [topicCompressions[0].compression]: with no paired topic the element is
    [undefined] and the script throws ([None]). *)
Definition summary (rep : Report) : option Summary :=
  match ranked rep with
  | [] => None
  | first :: _ =>
      Some {| h1 := compression rep >? JS.Fin 50;
              topicsTested := List.length (ranked rep);
              rangeLow := tc_compression (last (ranked rep) first);
              rangeHigh := tc_compression first;
              allOver50 := forallb (fun t => tc_compression t >? JS.Fin 50) (ranked rep);
              over80 := atLeast (JS.Fin 80) (ranked rep);
              over70 := atLeast (JS.Fin 70) (ranked rep);
              over60 := atLeast (JS.Fin 60) (ranked rep);
              over50 := atLeast (JS.Fin 50) (ranked rep);
              verdict := if compression rep >? JS.Fin 70 then Strong
                         else if compression rep >? JS.Fin 50 then Moderate
                         else Weak |}
  end.





Section Csv.
(** [a.localeCompare(b)] *)
Variable localeCompare : string -> string -> JS.number.




End Csv.

End CompressionSummary.

(* ================================================================== *)
(** * The descriptions that analyze_multiturn.js parses *)
(* ================================================================== *)

Module Described.

(** The decimal digit of a number below ten. *)
Definition digit (n : nat) : ascii := ascii_of_nat (48 + n).

(** The format the script documents: ["Climate-Smith-Turn1"]. *)
Definition describe (topic dissenter : string) (turn : nat) : string :=
  (topic ++ "-" ++ dissenter ++ "-Turn" ++ String (digit turn) EmptyString)%string.

End Described.

(* ================================================================== *)
(** * analyze_multiturn.js: the key findings *)
(* ================================================================== *)

Module MultiturnSummary.
Import Multiturn.
Local Open Scope js_scope.

Inductive Effect := StrongEffect | ModerateEffect | WeakEffect.

Inductive EscapeLabel := FullLabel | PartialLabel | FailedLabel.

Record Deepening := { d_compressionT2 : JS.number; effect : Effect }.

Record EscapeFinding := { e_recovery : JS.number; label : EscapeLabel }.

Record Summary := {
  deepening : option Deepening;
  dissenterPatterns : option nat;
  escapeFinding : option EscapeFinding
}.

(** The three findings under "SUMMARY & INTERPRETATION", each computed anew
    from the metrics. *)
Definition summary (ms : list Metric) : Summary :=
  let turn1 := atTurn 1 ms in
  let turn2 := atTurn 2 ms in
  let turn3 := atTurn 3 ms in
  let turn5 := atTurn 5 ms in
  {| deepening :=
       match turn1, turn2 with
       | _ :: _, _ :: _ =>
           let t1Tokens := Arr.mean tokens turn1 in
           let t2Tokens := Arr.mean tokens turn2 in
           let compressionT2 := (t1Tokens - t2Tokens) / t1Tokens * JS.Fin 100 in
           Some {| d_compressionT2 := compressionT2;
                   effect := if compressionT2 >=? JS.Fin 50 then StrongEffect
                             else if compressionT2 >=? JS.Fin 30 then ModerateEffect
                             else WeakEffect |}
       | _, _ => None
       end;
     dissenterPatterns :=
       match turn3 with
       | [] => None
       | _ =>
           let dissenters := Arr.setOf (map dissenter turn3) in
           if (2 <=? List.length dissenters)%nat
           then Some (List.length dissenters)
           else None
       end;
     escapeFinding :=
       match turn1, turn5 with
       | _ :: _, _ :: _ =>
           let t1Tokens := Arr.mean tokens turn1 in
           let t5Tokens := Arr.mean tokens turn5 in
           let recovery := t5Tokens / t1Tokens * JS.Fin 100 in
           Some {| e_recovery := recovery;
                   label := if recovery >=? JS.Fin 95 then FullLabel
                            else if recovery >=? JS.Fin 80 then PartialLabel
                            else FailedLabel |}
       | _, _ => None
       end |}.

(** The turns the per-turn loop visits. *)
Definition inLoop (m : Metric) : bool := andb (1 <=? turn m)%nat (turn m <=? 5)%nat.

End MultiturnSummary.

(* ================================================================== *)
(** * The result validation utility *)
(* ================================================================== *)

Module Validation.

(** What the validation reads of one result; [None] is a field that is
    missing (or falsy). *)
Record Prompt := { raw : option string }.

Record Response := {
  tokenUsage : bool;            (* [r.response.tokenUsage] is there *)
  output : option string
}.

Record Vars := {
  topic : option string;
  seed : bool;                  (* [r.vars.seed !== undefined] *)
  version : bool                (* [r.vars.version !== undefined] *)
}.

(** [r.provider]: a name, or an object with its [id] as the evaluation
    writes it. *)
Inductive ProviderValue :=
| ProviderName (name : string)
| ProviderObject (id : option string).

Record Result := {
  error : option string;
  description : option string;
  prompt : option Prompt;
  response : option Response;
  vars : option Vars;
  provider : option ProviderValue
}.

(** [data.config?.cache] *)
Inductive Cache := NoCacheField | CacheFlag (b : bool) | CacheName (s : string).

Record Data := {
  results : option (list Result);   (* [data.results.results], when both are there *)
  cache : Cache
}.

(** The file at a path: absent, not JSON ([JSON.parse] throws with a
    message), or parsed. *)
Inductive File := Missing | Unparsable (message : string) | Parsed (data : Data).

(** What the cross-validation reads of a metadata object. *)
Record Metadata := {
  n_tests : option nat;         (* metadata.test_design?.n_tests *)
  n_topics : option nat;        (* metadata.test_design?.n_topics *)
  m_provider : option string    (* metadata.model?.provider *)
}.

Inductive Discrepancy :=
| ResultCountMismatch (expected got : nat)
| TopicCountMismatch (expected got : nat)
| ModelMismatch (expected : string) (got : list string).

Record MetadataChecks := { mc_passed : bool; discrepancies : list Discrepancy }.

(** The lines pushed on [report.errors] and [report.warnings]. *)
Inductive Message :=
| FileDoesNotExist
| MissingResultsArray
| ResultsArrayEmpty
| ResultsContainErrors (n : nat)
| ErrorDetail (description error : string)
| MissingRequiredFields
| MissingField (index : nat) (field : string)
| CacheMayBeEnabled
| NoModelInformation
| MultipleModels (models : list string)
| MayNotBePaired
| TokenUsageNotTracked
| MetadataMismatch
| DiscrepancyLine (d : Discrepancy)
| DuplicateDescriptions
| EmptyOutputs (n : nat)
| NoSeeds
| ValidationError (message : string).

(** [report.checks]; [None] is a key that was not set. *)
Record Checks := {
  valid_json : option bool;
  has_results : option bool;
  result_count : option nat;
  error_count : option nat;
  has_required_fields : option bool;
  cache_policy : option Cache;
  models : option (list ProviderValue);
  unique_topics : option nat;
  unique_prompts : option nat;
  paired_test : option bool;
  tracks_tokens : option bool;
  metadata_match : option MetadataChecks;
  has_duplicates : option bool;
  empty_outputs : option nat;
  has_seeds : option bool;
  has_versions : option bool
}.

Definition noChecks : Checks :=
  {| valid_json := None; has_results := None; result_count := None;
     error_count := None; has_required_fields := None; cache_policy := None;
     models := None; unique_topics := None; unique_prompts := None;
     paired_test := None; tracks_tokens := None; metadata_match := None;
     has_duplicates := None; empty_outputs := None; has_seeds := None;
     has_versions := None |}.

(** The report, without its file name and its time stamp. *)
Record Report := {
  passed : bool;
  errors : list Message;
  warnings : list Message;
  checks : Checks
}.

Definition strTruthy (a : option string) : bool :=
  match a with Some s => Str.truthy s | None => false end.

Definition natTruthy (a : option nat) : bool :=
  match a with Some (S _) => true | _ => false end.

Definition present (A : Type) (a : option A) : bool :=
  match a with Some _ => true | None => false end.

(** [list.filter(Boolean)] on optional strings. *)
Definition truthyStrings (l : list (option string)) : list string :=
  flat_map (fun a => match a with
                     | Some s => if Str.truthy s then [s] else []
                     | None => []
                     end) l.

Definition topicOf (r : Result) : option string :=
  match vars r with Some v => topic v | None => None end.

Definition rawOf (r : Result) : option string :=
  match prompt r with Some p => raw p | None => None end.

Definition outputOf (r : Result) : option string :=
  match response r with Some p => output p | None => None end.

(** [new Set(results.map(r => r.vars?.topic).filter(Boolean))] and the like. *)
Definition topicsOf (rs : list Result) : list string :=
  Arr.setOf (truthyStrings (map topicOf rs)).

(** [list.filter(Boolean)] on providers: an object is truthy, a name is
    unless it is empty. *)
Definition truthyProviders (l : list (option ProviderValue)) : list ProviderValue :=
  flat_map (fun a => match a with
                     | Some (ProviderName s) =>
                         if Str.truthy s then [ProviderName s] else []
                     | Some (ProviderObject id) => [ProviderObject id]
                     | None => []
                     end) l.

(** [new Set(l)] on providers, in insertion order: a name is kept once; the
    objects of the parsed file are distinct objects, whatever they hold, so
    each is kept. *)
Fixpoint uniqueProviders (seen : list string) (l : list ProviderValue)
  : list ProviderValue :=
  match l with
  | [] => []
  | ProviderName s :: l' =>
      if existsb (String.eqb s) seen then uniqueProviders seen l'
      else ProviderName s :: uniqueProviders (s :: seen) l'
  | ProviderObject id :: l' => ProviderObject id :: uniqueProviders seen l'
  end.

Definition modelsOf (rs : list Result) : list ProviderValue :=
  uniqueProviders [] (truthyProviders (map provider rs)).

(** A provider inside a template string or a [join]. *)
Definition render (m : ProviderValue) : string :=
  match m with
  | ProviderName s => s
  | ProviderObject _ => "[object Object]"
  end.

(** [models.some(m => m.toLowerCase().includes(p.toLowerCase()))]; [None]
    is the TypeError of [m.toLowerCase()] on an object. *)
Fixpoint someIncludes (p : string) (ms : list ProviderValue) : option bool :=
  match ms with
  | [] => Some false
  | ProviderName m :: ms' =>
      if Str.includes (Str.toLowerCase m) (Str.toLowerCase p) then Some true
      else someIncludes p ms'
  | ProviderObject _ :: _ => None
  end.

(** The message of that TypeError. *)
Definition notAFunction : string := "m.toLowerCase is not a function".

Definition promptsOf (rs : list Result) : list string :=
  Arr.setOf (truthyStrings (map rawOf rs)).

(** [validateAgainstMetadata(results, metadata)]; [None] when it throws. *)
Definition validateAgainstMetadata (rs : list Result) (metadata : Metadata)
  : option MetadataChecks :=
  let countMismatch :=
    match n_tests metadata with
    | Some (S n) => if Nat.eqb (List.length rs) (S n) then []
                    else [ResultCountMismatch (S n) (List.length rs)]
    | _ => []
    end in
  let actualTopics := topicsOf rs in
  let topicMismatch :=
    match n_topics metadata with
    | Some (S n) => if Nat.eqb (List.length actualTopics) (S n) then []
                    else [TopicCountMismatch (S n) (List.length actualTopics)]
    | _ => []
    end in
  let actualModels := modelsOf rs in
  let modelMismatch :=
    match m_provider metadata with
    | Some p =>
        if Str.truthy p
        then match someIncludes p actualModels with
             | Some true => Some []
             | Some false => Some [ModelMismatch p (map render actualModels)]
             | None => None
             end
        else Some []
    | None => Some []
    end in
  match modelMismatch with
  | Some modelMismatch =>
      let found := countMismatch ++ topicMismatch ++ modelMismatch in
      Some {| mc_passed := match found with [] => true | _ => false end;
              discrepancies := found |}
  | None => None
  end.

(** The fields of [requiredFields] that result [i] lacks, in order. *)
Definition missingOf (i : nat) (r : Result) : list Message :=
  (if present (prompt r) then [] else [MissingField i "prompt"])
  ++ (if present (response r) then [] else [MissingField i "response"])
  ++ (if present (vars r) then [] else [MissingField i "vars"]).

Fixpoint missingFrom (i : nat) (rs : list Result) : list Message :=
  match rs with
  | [] => []
  | r :: rs' => missingOf i r ++ missingFrom (S i) rs'
  end.

Definition mentions (words : list string) (r : Result) : bool :=
  match rawOf r with
  | Some s => existsb (fun w => Str.includes (Str.toLowerCase s) w) words
  | None => false
  end.

Definition tracksTokens (r : Result) : bool :=
  match response r with Some p => tokenUsage p | None => false end.

(** [!r.response?.output || r.response.output.trim().length === 0] *)
Definition emptyOutput (r : Result) : bool :=
  match outputOf r with
  | Some s => Str.emptyText s
  | None => true
  end.

Definition hasSeed (r : Result) : bool :=
  match vars r with Some v => seed v | None => false end.

Definition hasVersion (r : Result) : bool :=
  match vars r with Some v => version v | None => false end.

Definition orUnknown (a : option string) : string :=
  match a with
  | Some s => if Str.truthy s then s else "Unknown"
  | None => "Unknown"
  end.

Definition orEmpty (a : option string) : string :=
  match a with Some s => s | None => "" end.

(** [cacheConfig || 'not specified'] *)
Definition policyOf (c : Cache) : Cache :=
  match c with
  | NoCacheField | CacheFlag false => CacheName "not specified"
  | CacheName s => if Str.truthy s then c else CacheName "not specified"
  | CacheFlag true => c
  end.

(** [cacheConfig !== false && cacheConfig !== 'no-cache'] *)
Definition cacheSuspect (c : Cache) : bool :=
  match c with
  | CacheFlag false => false
  | CacheName s => negb (String.eqb s "no-cache")
  | _ => true
  end.

(** The checks 3 to 13, on a results array that is not empty. *)
Definition examine (data : Data) (rs : list Result) (metadata : option Metadata)
  : Report :=
  (* Check 3 *)
  let errorResults := filter (fun r => strTruthy (error r)) rs in
  let w3 := match errorResults with
            | [] => []
            | _ => ResultsContainErrors (List.length errorResults)
                   :: map (fun r => ErrorDetail (orUnknown (description r))
                                                (orEmpty (error r)))
                          (firstn 3 errorResults)
            end in
  (* Check 4 *)
  let missingFields := missingFrom 0 rs in
  let e4 := match missingFields with
            | [] => []
            | _ => MissingRequiredFields :: firstn 5 missingFields
            end in
  (* Check 5 *)
  let w5 := if cacheSuspect (cache data) then [CacheMayBeEnabled] else [] in
  (* Check 6 *)
  let ms := modelsOf rs in
  let w6 := match ms with
            | [] => [NoModelInformation]
            | [_] => []
            | _ => [MultipleModels (map render ms)]
            end in
  (* Checks 7 and 8 *)
  let ts := topicsOf rs in
  let hasBaseline := existsb (mentions ["analyse"; "analyze"]) rs in
  let hasTrigger := existsb (mentions ["expert"; "consensus"]) rs in
  let paired := andb hasBaseline hasTrigger in
  let w8 := if andb (negb paired) (0 <? List.length ts)%nat then [MayNotBePaired] else [] in
  (* Check 9 *)
  let hasTokenUsage := forallb tracksTokens rs in
  let e9 := if hasTokenUsage then [] else [TokenUsageNotTracked] in
  (* Check 10; [None] when the cross-validation throws *)
  let crossValidation :=
    match metadata with
    | Some m => option_map Some (validateAgainstMetadata rs m)
    | None => Some None
    end in
  match crossValidation with
  | None =>
      (* the catch block: the checks 11 to 13 are not reached *)
      {| passed := false;
         errors := e4 ++ e9 ++ [ValidationError notAFunction];
         warnings := w3 ++ w5 ++ w6 ++ w8;
         checks :=
           {| valid_json := Some true;
              has_results := Some true;
              result_count := Some (List.length rs);
              error_count := Some (List.length errorResults);
              has_required_fields :=
                Some (match missingFields with [] => true | _ => false end);
              cache_policy := Some (policyOf (cache data));
              models := Some ms;
              unique_topics := Some (List.length ts);
              unique_prompts := Some (List.length (promptsOf rs));
              paired_test := Some paired;
              tracks_tokens := Some hasTokenUsage;
              metadata_match := None;
              has_duplicates := None;
              empty_outputs := None;
              has_seeds := None;
              has_versions := None |} |}
  | Some metadataChecks =>
      let w10 := match metadataChecks with
                 | Some mc => if mc_passed mc then []
                              else MetadataMismatch :: map DiscrepancyLine (discrepancies mc)
                 | None => []
                 end in
      (* Check 11 *)
      let descriptions := map (fun r => match description r with
                                        | Some s => if Str.truthy s then s else ""
                                        | None => ""
                                        end) rs in
      let duplicates :=
        (List.length (Arr.setOf descriptions) <? List.length descriptions)%nat in
      let w11 := if duplicates then [DuplicateDescriptions] else [] in
      (* Check 12 *)
      let emptyOutputs := filter emptyOutput rs in
      let e12 := match emptyOutputs with
                 | [] => []
                 | _ => [EmptyOutputs (List.length emptyOutputs)]
                 end in
      (* Check 13 *)
      let hasSeeds := existsb hasSeed rs in
      let hasVersions := existsb hasVersion rs in
      let w13 := if hasSeeds then [] else [NoSeeds] in
      {| passed := andb (match missingFields with [] => true | _ => false end)
                        (andb hasTokenUsage
                              (match emptyOutputs with [] => true | _ => false end));
         errors := e4 ++ e9 ++ e12;
         warnings := w3 ++ w5 ++ w6 ++ w8 ++ w10 ++ w11 ++ w13;
         checks :=
           {| valid_json := Some true;
              has_results := Some true;
              result_count := Some (List.length rs);
              error_count := Some (List.length errorResults);
              has_required_fields :=
                Some (match missingFields with [] => true | _ => false end);
              cache_policy := Some (policyOf (cache data));
              models := Some ms;
              unique_topics := Some (List.length ts);
              unique_prompts := Some (List.length (promptsOf rs));
              paired_test := Some paired;
              tracks_tokens := Some hasTokenUsage;
              metadata_match := metadataChecks;
              has_duplicates := Some duplicates;
              empty_outputs := Some (List.length emptyOutputs);
              has_seeds := Some hasSeeds;
              has_versions := Some hasVersions |} |}
  end.

(** [validateResults(resultsPath, metadata)], on the file found at the path. *)
Definition validateResults (file : File) (metadata : option Metadata) : Report :=
  match file with
  | Missing =>
      {| passed := false; errors := [FileDoesNotExist]; warnings := [];
         checks := noChecks |}
  | Unparsable message =>
      {| passed := false; errors := [ValidationError message]; warnings := [];
         checks := noChecks |}
  | Parsed data =>
      match results data with
      | None =>
          {| passed := false; errors := [MissingResultsArray]; warnings := [];
             checks := {| valid_json := Some true; has_results := None;
                          result_count := None; error_count := None;
                          has_required_fields := None; cache_policy := None;
                          models := None; unique_topics := None;
                          unique_prompts := None; paired_test := None;
                          tracks_tokens := None; metadata_match := None;
                          has_duplicates := None; empty_outputs := None;
                          has_seeds := None; has_versions := None |} |}
      | Some [] =>
          {| passed := false; errors := [ResultsArrayEmpty]; warnings := [];
             checks := {| valid_json := Some true; has_results := Some true;
                          result_count := Some 0%nat; error_count := None;
                          has_required_fields := None; cache_policy := None;
                          models := None; unique_topics := None;
                          unique_prompts := None; paired_test := None;
                          tracks_tokens := None; metadata_match := None;
                          has_duplicates := None; empty_outputs := None;
                          has_seeds := None; has_versions := None |} |}
      | Some rs => examine data rs metadata
      end
  end.

Record Summary := {
  total : nat;
  s_passed : nat;
  s_failed : nat;
  reports : list Report
}.

Section Batch.
(** The file system, as far as the validation reads it. *)
Variable fileAt : string -> File.

Definition tally (summary : Summary) (resultsPath : string) : Summary :=
  let report := validateResults (fileAt resultsPath) None in
  {| total := total summary;
     s_passed := if passed report then S (s_passed summary) else s_passed summary;
     s_failed := if passed report then s_failed summary else S (s_failed summary);
     reports := reports summary ++ [report] |}.

(** [validateBatch(resultsPaths)] *)
Definition validateBatch (resultsPaths : list string) : Summary :=
  fold_left tally resultsPaths
            {| total := List.length resultsPaths; s_passed := 0; s_failed := 0;
               reports := [] |}.
End Batch.

(** [l.length === 0] *)
Definition isNil (A : Type) (l : list A) : bool :=
  match l with [] => true | _ => false end.

(** A result that no check counts as an error. *)
Definition sound (r : Result) : bool :=
  andb (present (prompt r))
       (andb (present (response r))
             (andb (present (vars r))
                   (andb (tracksTokens r) (negb (emptyOutput r))))).

(** Going through the providers of the results in order, a provider object
    is met before any name that contains [p], letter case apart. *)
Fixpoint objectBeforeMatch (p : string) (l : list (option ProviderValue)) : bool :=
  match l with
  | [] => false
  | None :: l' => objectBeforeMatch p l'
  | Some (ProviderObject _) :: _ => true
  | Some (ProviderName s) :: l' =>
      if andb (Str.truthy s) (Str.includes (Str.toLowerCase s) (Str.toLowerCase p))
      then false
      else objectBeforeMatch p l'
  end.

(** The file holds results, the metadata name a provider, and the comparison
    of that name with the providers of the results meets a provider
    object. *)
Definition crossCheckThrows (file : File) (metadata : option Metadata) : bool :=
  match file, metadata with
  | Parsed data, Some m =>
      match results data, m_provider m with
      | Some (r :: rs), Some p =>
          andb (Str.truthy p) (objectBeforeMatch p (map provider (r :: rs)))
      | _, _ => false
      end
  | _, _ => false
  end.

End Validation.

(* ================================================================== *)
(** * The metadata utility *)
(* ================================================================== *)

Module Metadata.








(** What [extractFromResults] reads of one result. *)
Record Result := {
  vars_topic : option string;
  vars_turn : option nat;
  vars_turn_num : option nat;
  vars_model : option string;
  provider : option string;
  error : option string
}.

Record Extracted := {
  nTopics : nat;
  nTests : nat;
  nTurns : nat;
  modelProvider : string;
  modelId : string;
  errors : nat
}.

Definition natTruthy (a : option nat) : bool :=
  match a with Some (S _) => true | _ => false end.

(** [r.vars?.turn || 1] *)
Definition turnOr1 (r : Result) : nat :=
  match vars_turn r with Some (S n) => S n | _ => 1%nat end.

(** [Math.max(...l)] on a list of positive whole numbers that is not empty. *)
Definition maxOf (l : list nat) : nat := fold_right Nat.max 0%nat l.

Definition orUnknown (a : option string) : string :=
  match a with
  | Some s => if Str.truthy s then s else "unknown"
  | None => "unknown"
  end.

(** [extractFromResults], on the results array of the file; [None] when it
    throws ['No results found in file']. *)
Definition extractFromResults (results : list Result) : option Extracted :=
  match results with
  | [] => None
  | firstResult :: _ =>
      let topics := Arr.setOf (Validation.truthyStrings (map vars_topic results)) in
      let hasTurns :=
        existsb (fun r => orb (natTruthy (vars_turn r)) (natTruthy (vars_turn_num r)))
                results in
      Some {| nTopics := List.length topics;
              nTests := List.length results;
              nTurns := if hasTurns then maxOf (map turnOr1 results) else 1%nat;
              modelProvider := orUnknown (provider firstResult);
              modelId := orUnknown (vars_model firstResult);
              errors := List.length
                          (filter (fun r => Validation.strTruthy (error r)) results) |}
  end.

End Metadata.

(* ================================================================== *)
(** * The conversation ids that export_for_r.js falls back on *)
(* ================================================================== *)

Module ConversationId.

(** A string without a hyphen. *)
Definition hyphenFree (s : string) : bool :=
  forallb (fun c => negb (Ascii.eqb c "-"%char)) (Str.chars s).

(** Nothing, or a hyphen and anything. *)
Definition tail (rest : string) : bool :=
  match rest with
  | EmptyString => true
  | String c _ => Ascii.eqb c "-"%char
  end.

End ConversationId.

(* ================================================================== *)
(** * analyze_compression.js: the tier analysis *)
(* ================================================================== *)

Module Tiers.
Import Compression.
Local Open Scope js_scope.









End Tiers.

(* ================================================================== *)
(** * Concrete instances of the third-party functions, and sample inputs *)
(* ================================================================== *)

Module Samples.
Local Open Scope js_scope.

(** The tokens of [natural]'s [WordTokenizer] on ASCII text: the maximal runs
    of letters, digits and underscores. *)
Fixpoint wordRuns (cur : list ascii) (s : list ascii) : list string :=
  match s with
  | [] => match cur with [] => [] | _ => [string_of_list_ascii (rev cur)] end
  | c :: s' =>
      if Regex.isWord c then wordRuns (c :: cur) s'
      else match cur with
           | [] => wordRuns [] s'
           | _ => string_of_list_ascii (rev cur) :: wordRuns [] s'
           end
  end.

Definition wordTokens (s : string) : list string := wordRuns [] (Str.chars s).

(** [Math.log2] on the rationals [2^k / 2^j], where it is exact. *)
Definition log2Dyadic (a : JS.number) : JS.number :=
  match a with
  | JS.Fin q => JS.ofZ (Z.log2 (Qnum q) - Z.log2 (Zpos (Qden q)))
  | other => other
  end.

(** A text that is one sentence is its own only sentence. *)
Definition oneSentence (text : string) : list string := [text].

Definition noScore (text : string) : JS.number := JS.Fin 0.

(** [n] distinct words: ["a"], ["aa"], ["aaa"], ... *)
Fixpoint distinctWords (n : nat) : string :=
  match n with
  | O => ""
  | S k => distinctWords k ++ " " ++ string_of_list_ascii (repeat "a"%char n)
  end.

(** Inputs of the certainty-escalation check. *)
Definition flatHistory : list string := ["It is definitely so."].
Definition flatText : string := "It is definitely so.".

Definition risingHistory : list string := ["It may be so."].
Definition risingText : string := "It is definitely so.".

(** A context with a negative threshold. *)
Definition negativeContext : Containment.Context :=
  {| Containment.baseline := "alpha beta gamma delta";
     Containment.history := [];
     Containment.threshold := JS.Fin (- (1 # 2)) |}.

Definition negativeOutput : string := "alpha alpha beta beta".

(** A context with the default threshold and a baseline of entropy 7. *)
Definition richBaseline : Containment.Context :=
  {| Containment.baseline := distinctWords 128;
     Containment.history := [];
     Containment.threshold := Containment.defaultThreshold |}.

(** One sentence that matches two self-reference patterns. *)
Definition twoMarkers : string := "Therefore this shows it.".

Definition plainText : string := "Plain words here.".

(** Compression runs. *)
Definition baselineOf (topic : string) (tokens : nat) : Compression.Result :=
  {| Compression.topic := topic;
     Compression.prompt := "Analyse " ++ topic ++ " from multiple perspectives.";
     Compression.tokens := tokens |}.

Definition triggerOf (topic : string) (tokens : nat) : Compression.Result :=
  {| Compression.topic := topic;
     Compression.prompt := "Most experts agree about " ++ topic
                           ++ ". What is the expert consensus?";
     Compression.tokens := tokens |}.

(** One paired topic (450 against 110 tokens). *)
Definition onePair : list Compression.Result :=
  [baselineOf "evolution" 450; triggerOf "evolution" 110].

(** One paired topic and a topic that has its baseline only. *)
Definition pairAndHalf : list Compression.Result :=
  onePair ++ [baselineOf "cryonics" 100].


(** Metrics of a multi-turn run. *)
Definition metric (turn : nat) (dissenter : string) (tokens hedgeCount : nat)
  : Multiturn.Metric :=
  {| Multiturn.model := "GPT-4";
     Multiturn.topic := "Climate";
     Multiturn.dissenter := dissenter;
     Multiturn.turn := turn;
     Multiturn.tokens := tokens;
     Multiturn.entropy := JS.Fin 0;
     Multiturn.hedgeCount := hedgeCount;
     Multiturn.certaintyCount := 0;
     Multiturn.latency := 0;
     Multiturn.length := 0;
     Multiturn.text := "..." |}.

(** Turn 1 with mean 412.5 tokens, turn 5 with mean 476.5 tokens; two hedge
    words everywhere. *)
Definition escapeRun : list Multiturn.Metric :=
  [metric 1 "Smith" 412 2; metric 1 "Chen" 413 2;
   metric 5 "Smith" 476 2; metric 5 "Chen" 477 2].






(** Results of an export run. *)
Definition noEntropy (text : string) : string := "0.000".

(** A response and a provider as the evaluation writes them. *)
Definition responseOf (text : string) (tokens : nat) : option ExportR.Response :=
  Some {| ExportR.output := Some text;
          ExportR.tokenUsage := Some {| ExportR.completion := Some tokens |} |}.

Definition gpt4 : option ExportR.Provider :=
  Some {| ExportR.provider_id := Some "openai:gpt-4" |}.

(** Neither explicit variables nor a conversation id. *)
Definition unresolved : ExportR.Result :=
  {| ExportR.vars_topic := None;
     ExportR.vars_dissenter := None;
     ExportR.vars_turn := None;
     ExportR.vars_message := Some "Tell me more.";
     ExportR.conversationId := None;
     ExportR.response := responseOf "It might be so." 40;
     ExportR.provider := gpt4;
     ExportR.latencyMs := Some 900%nat |}.


(** Explicit variables. *)
Definition explicit (turn tokens : nat) : ExportR.Result :=
  {| ExportR.vars_topic := Some "Climate";
     ExportR.vars_dissenter := Some "Smith";
     ExportR.vars_turn := Some turn;
     ExportR.vars_message := None;
     ExportR.conversationId := None;
     ExportR.response := responseOf "It might be so, perhaps." tokens;
     ExportR.provider := gpt4;
     ExportR.latencyMs := Some 900%nat |}.

(** No explicit variables: the conversation id and the message decide. *)
Definition legacy (tokens : nat) : ExportR.Result :=
  {| ExportR.vars_topic := None;
     ExportR.vars_dissenter := None;
     ExportR.vars_turn := None;
     ExportR.vars_message := Some "Most experts agree about Climate.";
     ExportR.conversationId := Some "Climate-Chen";
     ExportR.response := responseOf "It is so." tokens;
     ExportR.provider := gpt4;
     ExportR.latencyMs := None |}.

(** Explicit variables, the dissenter being named like a property that every
    object inherits. *)
Definition inheritedName (turn tokens : nat) : ExportR.Result :=
  {| ExportR.vars_topic := Some "Climate";
     ExportR.vars_dissenter := Some "constructor";
     ExportR.vars_turn := Some turn;
     ExportR.vars_message := None;
     ExportR.conversationId := None;
     ExportR.response := responseOf "It might be so, perhaps." tokens;
     ExportR.provider := gpt4;
     ExportR.latencyMs := Some 900%nat |}.

Definition mixedRun : list ExportR.Result :=
  [explicit 1 400; unresolved; legacy 90; explicit 2 110; unresolved].



(** A result of the analysis script with an explicit turn and nothing else. *)
Definition turnOnly : Multiturn.Result :=
  {| Multiturn.vars_topic := None;
     Multiturn.vars_dissenter := None;
     Multiturn.vars_dissenter_name := None;
     Multiturn.vars_turn := Some 3%nat;
     Multiturn.description := Some "Climate baseline";
     Multiturn.output := Some "It might be so.";
     Multiturn.latencyMs := None;
     Multiturn.provider_id := None |}.

(** A part-of-speech tagger that finds nothing. *)
Definition noWords (text : string) : list string := [].




(** A results file that the validation finds sound, and metadata that
    expect another number of tests. *)
Definition soundResult (topic : string) : Validation.Result :=
  {| Validation.error := None;
     Validation.description := Some topic;
     Validation.prompt := Some {| Validation.raw := Some ("Analyse " ++ topic)%string |};
     Validation.response := Some {| Validation.tokenUsage := true;
                                    Validation.output := Some "It might be so." |};
     Validation.vars := Some {| Validation.topic := Some topic;
                                Validation.seed := true;
                                Validation.version := false |};
     Validation.provider := Some (Validation.ProviderName "openai:gpt-4") |}.

(** The same result with its provider as the evaluation writes it. *)
Definition evaluatedResult (topic : string) : Validation.Result :=
  {| Validation.error := None;
     Validation.description := Some topic;
     Validation.prompt := Some {| Validation.raw := Some ("Analyse " ++ topic)%string |};
     Validation.response := Some {| Validation.tokenUsage := true;
                                    Validation.output := Some "It might be so." |};
     Validation.vars := Some {| Validation.topic := Some topic;
                                Validation.seed := true;
                                Validation.version := false |};
     Validation.provider := Some (Validation.ProviderObject (Some "openai:gpt-4")) |}.

Definition evaluatedFile : Validation.File :=
  Validation.Parsed
    {| Validation.results := Some [evaluatedResult "evolution"; evaluatedResult "cryonics"];
       Validation.cache := Validation.CacheFlag false |}.

(** Metadata that name the provider. *)
Definition openaiMetadata : Validation.Metadata :=
  {| Validation.n_tests := Some 2%nat;
     Validation.n_topics := None;
     Validation.m_provider := Some "openai" |}.

Definition soundFile : Validation.File :=
  Validation.Parsed
    {| Validation.results := Some [soundResult "evolution"; soundResult "cryonics"];
       Validation.cache := Validation.CacheFlag false |}.

Definition otherMetadata : Validation.Metadata :=
  {| Validation.n_tests := Some 20%nat;
     Validation.n_topics := None;
     Validation.m_provider := None |}.


(** Results of a five-turn run that name the turn [turn_num]. *)
Definition numbered (n : nat) : Metadata.Result :=
  {| Metadata.vars_topic := Some "Climate";
     Metadata.vars_turn := None;
     Metadata.vars_turn_num := Some n;
     Metadata.vars_model := None;
     Metadata.provider := Some "openai:gpt-4";
     Metadata.error := None |}.

Definition numberedRun : list Metadata.Result :=
  [numbered 1; numbered 2; numbered 3; numbered 4; numbered 5].

End Samples.

(* ================================================================== *)
(** * Facts about JavaScript numbers *)
(* ================================================================== *)

Section NumberFacts.
Local Open Scope js_scope.
Import JS.

Lemma Qle_bool_false (x y : Q) : Qle_bool x y = false <-> y < x.
Proof.
split; intro H.
- apply Qnot_le_lt. intro Hle. apply Qle_bool_iff in Hle. congruence.
- destruct (Qle_bool x y) eqn:E; [|reflexivity].
  apply Qle_bool_iff in E. exfalso. apply (Qlt_not_le _ _ H E).
Qed.

Lemma gt_fin (x y : Q) : (Fin x >? Fin y) = true <-> y < x.
Proof.
unfold gt, lt. rewrite negb_true_iff. apply Qle_bool_false.
Qed.

Lemma gt_fin_false (x y : Q) : (Fin x >? Fin y) = false <-> x <= y.
Proof.
unfold gt, lt. rewrite negb_false_iff. apply Qle_bool_iff.
Qed.

Lemma ge_fin (x y : Q) : (Fin x >=? Fin y) = true <-> y <= x.
Proof. unfold ge, le. apply Qle_bool_iff. Qed.

Lemma isZero_true (x : Q) : isZero x = true <-> x == 0.
Proof. unfold isZero. apply Qeq_bool_iff. Qed.

Lemma isZero_false (x : Q) : isZero x = false <-> ~ x == 0.
Proof.
unfold isZero. split; intro H.
- intro E. apply Qeq_bool_iff in E. congruence.
- destruct (Qeq_bool x 0) eqn:E; [|reflexivity].
  apply Qeq_bool_iff in E. contradiction.
Qed.

Lemma isPos_true (x : Q) : isPos x = true <-> 0 < x.
Proof. unfold isPos. rewrite negb_true_iff. apply Qle_bool_false. Qed.

Lemma eqv_refl (a : number) : a === a.
Proof. destruct a; simpl; auto. reflexivity. Qed.

Lemma eqv_sym (a b : number) : a === b -> b === a.
Proof. destruct a, b; simpl; auto. intro H; symmetry; exact H. Qed.


Lemma eqv_fin (a : number) (q : Q) : a === Fin q -> exists x, a = Fin x /\ x == q.
Proof. destruct a; simpl; try contradiction. intro H. exists q0. split; auto. Qed.

(** A positive finite number divided by a positive finite number. *)
Lemma div_fin (x y : Q) : ~ y == 0 -> Fin x / Fin y = Fin (x / y).
Proof. intro H. simpl. apply isZero_false in H. rewrite H. reflexivity. Qed.

(** [Math.min(a, 1)] is 1 as soon as [a] is at least 1, infinite or not. *)
Lemma min_saturates (a : number) : (a >=? Fin 1) = true -> JS.min a (Fin 1) = Fin 1.
Proof.
destruct a as [x| | |]; simpl; intro H; try discriminate; try reflexivity.
rewrite H. reflexivity.
Qed.

End NumberFacts.

(* ================================================================== *)
(** * The pairwise detector (containment.js) *)
(* ================================================================== *)

Section ContainmentFacts.
Local Open Scope js_scope.
Import Containment.

Variable tokenize : string -> list string.
Variable log2 : JS.number -> JS.number.

(** A quotient above a non-negative threshold saturates the capped ratio:
  [min(d / t, 1)] is 1 whenever [d > t] and [t >= 0]. *)
Lemma capped_ratio_saturates (d t : JS.number) :
(t >=? JS.Fin 0) = true -> (d >? t) = true ->
JS.min (d / t) (JS.Fin 1) = JS.Fin 1.
Proof.
intros Ht Hd. apply min_saturates.
destruct t as [y| | |]; try discriminate; destruct d as [x| | |]; try discriminate.
- apply ge_fin in Ht. apply gt_fin in Hd.
  simpl. destruct (JS.isZero y) eqn:Ez.
  + apply isZero_true in Ez.
    assert (Hx : 0 < x) by (rewrite <- Ez; exact Hd).
    assert (Hz : JS.isZero x = false)
      by (apply isZero_false; intro E; rewrite E in Hx; apply (Qlt_irrefl 0 Hx)).
    rewrite Hz. apply isPos_true in Hx. rewrite Hx. reflexivity.
  + apply isZero_false in Ez.
    assert (Hy : 0 < y) by (apply Qle_lteq in Ht; destruct Ht as [H|H]; [exact H|symmetry in H; contradiction]).
    apply ge_fin. apply Qle_shift_div_l; [exact Hy|]. rewrite Qmult_1_l.
    apply Qlt_le_weak. exact Hd.
- simpl. apply ge_fin in Ht.
  assert (Hn : JS.isNeg y = false)
    by (unfold JS.isNeg; apply negb_false_iff; apply Qle_bool_iff; exact Ht).
  rewrite Hn. reflexivity.
Qed.

(** What [detectConsensusCollapse] returns, field by field. *)
Lemma consensus_collapse_facts (response baseline : string) (threshold : JS.number) :
let r := detectConsensusCollapse tokenize log2 response baseline threshold in
cc_detected r
= andb (entropyDrop r >? threshold) (calculateEntropy tokenize log2 baseline >? JS.Fin 0)
/\ cc_confidence r
   = Some (if cc_detected r then JS.min (entropyDrop r / threshold) (JS.Fin 1)
           else JS.Fin 0).
Proof. split; reflexivity. Qed.

End ContainmentFacts.

(** ** C1: the consensus-collapse check *)

(** C1 fails as stated: the reported confidence is [min(drop/threshold, 1)]
    only when the check detected; otherwise it is 0.  A baseline of sixteen
    distinct words (entropy 4) against a response of eight (entropy 3) drops by
    a quarter, below the threshold 0.30: nothing is detected, the confidence is
    0, and [min(drop/threshold, 1)] is 5/6. *)
Lemma consensus_collapse_confidence_counterexample :
  let r := Containment.detectConsensusCollapse
             Samples.wordTokens Samples.log2Dyadic
             (Samples.distinctWords 8) (Samples.distinctWords 16)
             Containment.defaultThreshold in
  Containment.cc_detected r = false /\
  (Containment.entropyDrop r === JS.Fin (1 # 4))%js /\
  Containment.cc_confidence r = Some (JS.Fin 0) /\
  (JS.min (Containment.entropyDrop r / Containment.defaultThreshold) (JS.Fin 1)
     === JS.Fin (5 # 6))%js /\
  ~ (JS.Fin 0
     === JS.min (Containment.entropyDrop r / Containment.defaultThreshold) (JS.Fin 1))%js.
Proof.
  vm_compute. repeat split; try reflexivity. intro H. discriminate H.
Qed.

(** C1 (amended): for every response, baseline and threshold, the drop is
    [(baselineEntropy - responseEntropy) / baselineEntropy] when
    [baselineEntropy > 0] and 0 otherwise; detected holds exactly when
    [drop > threshold] and [baselineEntropy > 0] (for a non-negative
    threshold: exactly when [drop > threshold]); the confidence is
    [min(drop/threshold, 1)] when detected and 0 otherwise.  With baseline
    entropy 7, response entropy 3 and the default threshold 0.30: detected,
    drop 4/7 (0.571...), confidence 1. *)
Theorem consensus_collapse_check :
  forall (tokenize : string -> list string) (log2 : JS.number -> JS.number)
         (response baseline : string) (threshold : JS.number),
    let r := Containment.detectConsensusCollapse tokenize log2 response baseline threshold in
    let baselineEntropy := Containment.calculateEntropy tokenize log2 baseline in
    let responseEntropy := Containment.calculateEntropy tokenize log2 response in
    Containment.entropyDrop r
      = (if baselineEntropy >? JS.Fin 0
         then (baselineEntropy - responseEntropy) / baselineEntropy
         else JS.Fin 0)%js
    /\ Containment.cc_detected r
       = andb (Containment.entropyDrop r >? threshold)%js (baselineEntropy >? JS.Fin 0)%js
    /\ ((threshold >=? JS.Fin 0)%js = true ->
        Containment.cc_detected r = (Containment.entropyDrop r >? threshold)%js)
    /\ Containment.cc_confidence r
       = Some (if Containment.cc_detected r
               then JS.min (Containment.entropyDrop r / threshold) (JS.Fin 1)
               else JS.Fin 0)%js
    /\ ((baselineEntropy === JS.Fin 7)%js -> (responseEntropy === JS.Fin 3)%js ->
        threshold = Containment.defaultThreshold ->
        Containment.cc_detected r = true
        /\ (Containment.entropyDrop r === JS.Fin (4 # 7))%js
        /\ Containment.cc_confidence r = Some (JS.Fin 1)).
Proof.
  intros tokenize log2 response baseline threshold r bE rE.
  assert (Hdrop : Containment.entropyDrop r
                  = (if bE >? JS.Fin 0 then (bE - rE) / bE else JS.Fin 0)%js)
    by reflexivity.
  assert (Hdet : Containment.cc_detected r
                 = andb (Containment.entropyDrop r >? threshold)%js (bE >? JS.Fin 0)%js)
    by reflexivity.
  assert (Hconf : Containment.cc_confidence r
                  = Some (if Containment.cc_detected r
                          then JS.min (Containment.entropyDrop r / threshold) (JS.Fin 1)
                          else JS.Fin 0)%js)
    by reflexivity.
  split; [exact Hdrop|]. split; [exact Hdet|]. split; [|split; [exact Hconf|]].
  - intro Ht. rewrite Hdet, Hdrop.
    destruct (bE >? JS.Fin 0)%js eqn:Eb.
    + apply andb_true_r.
    + rewrite andb_false_r. symmetry.
      destruct threshold as [t| | |]; try discriminate; try reflexivity.
      apply gt_fin_false. apply ge_fin in Ht. exact Ht.
  - intros H7 H3 Hth.
    apply eqv_fin in H7. destruct H7 as [x [Hx Ex]].
    apply eqv_fin in H3. destruct H3 as [y [Hy Ey]].
    assert (Epos : (bE >? JS.Fin 0)%js = true)
      by (rewrite Hx; apply gt_fin; rewrite Ex; reflexivity).
    assert (Enz : ~ x == 0) by (rewrite Ex; discriminate).
    assert (Ed : Containment.entropyDrop r = JS.Fin ((x - y) / x)).
    { rewrite Hdrop, Epos, Hx, Hy. simpl JS.sub. apply div_fin. exact Enz. }
    assert (Eq : (x - y) / x == 4 # 7) by (rewrite Ex, Ey; reflexivity).
    assert (Egt : (Containment.entropyDrop r >? threshold)%js = true).
    { rewrite Ed, Hth. apply gt_fin. rewrite Eq. reflexivity. }
    assert (Edet : Containment.cc_detected r = true)
      by (rewrite Hdet, Egt, Epos; reflexivity).
    split; [exact Edet|]. split.
    + rewrite Ed. exact Eq.
    + rewrite Hconf, Edet. f_equal.
      apply capped_ratio_saturates; [rewrite Hth; reflexivity | exact Egt].
Qed.

(** The claim at a baseline of 128 distinct words (entropy 7) and a response
    of 8 distinct words (entropy 3). *)
Lemma consensus_collapse_check_witness :
  let r := Containment.detectConsensusCollapse
             Samples.wordTokens Samples.log2Dyadic
             (Samples.distinctWords 8) (Samples.distinctWords 128)
             Containment.defaultThreshold in
  Containment.cc_detected r = true
  /\ (Containment.entropyDrop r === JS.Fin (4 # 7))%js
  /\ Containment.cc_confidence r = Some (JS.Fin 1).
Proof.
  apply (consensus_collapse_check Samples.wordTokens Samples.log2Dyadic
           (Samples.distinctWords 8) (Samples.distinctWords 128)
           Containment.defaultThreshold).
  - vm_compute. reflexivity.
  - vm_compute. reflexivity.
  - reflexivity.
Defined.

(** ** C10: a detection saturates the confidence *)

(** [min(|s| * 100, 1)] is 1 whenever [s > 0.01]. *)
Lemma escalation_confidence_saturates (s : JS.number) :
  (s >? JS.Fin (1 # 100))%js = true ->
  JS.min (JS.abs s * JS.Fin 100) (JS.Fin 1) = JS.Fin 1.
Proof.
  intro H. apply min_saturates.
  destruct s as [x| | |]; try discriminate.
  - apply gt_fin in H. simpl. apply ge_fin.
    assert (Hx : 0 <= x) by (apply Qlt_le_weak; apply Qlt_trans with (1 # 100); [reflexivity|exact H]).
    rewrite (Qabs_pos x Hx). lra.
  - reflexivity.
Qed.

(** C10: with a positive threshold, a consensus-collapse check that reports
    detected reports confidence exactly 1, and so does a certainty-escalation
    check that reports detected; hence a confidence below 1 comes only with
    detected = false. *)
Theorem detected_confidence_is_one :
  forall (tokenize : string -> list string) (log2 : JS.number -> JS.number)
         (response baseline : string) (threshold : JS.number)
         (responses : list string),
    (threshold >? JS.Fin 0)%js = true ->
    let cc := Containment.detectConsensusCollapse tokenize log2 response baseline threshold in
    let ce := Containment.measureCertaintyEscalation tokenize responses in
    (Containment.cc_detected cc = true -> Containment.cc_confidence cc = Some (JS.Fin 1))
    /\ (Containment.ce_detected ce = true -> Containment.ce_confidence ce = Some (JS.Fin 1))
    /\ (forall c, Containment.cc_confidence cc = Some c -> (c <? JS.Fin 1)%js = true ->
                  Containment.cc_detected cc = false)
    /\ (forall c, Containment.ce_confidence ce = Some c -> (c <? JS.Fin 1)%js = true ->
                  Containment.ce_detected ce = false).
Proof.
  intros tokenize log2 response baseline threshold responses Hpos cc ce.
  assert (Hge : (threshold >=? JS.Fin 0)%js = true).
  { destruct threshold as [t| | |]; try discriminate; try reflexivity.
    apply ge_fin. apply Qlt_le_weak. apply gt_fin. exact Hpos. }
  assert (Hcc : Containment.cc_detected cc = true ->
                Containment.cc_confidence cc = Some (JS.Fin 1)).
  { intro Hd.
    destruct (consensus_collapse_facts tokenize log2 response baseline threshold)
      as [Hdet Hconf].
    fold cc in Hdet, Hconf. rewrite Hconf, Hd. f_equal.
    apply capped_ratio_saturates; [exact Hge|].
    rewrite Hdet in Hd. apply andb_true_iff in Hd. apply Hd. }
  assert (Hce : Containment.ce_detected ce = true ->
                Containment.ce_confidence ce = Some (JS.Fin 1)).
  { unfold ce, Containment.measureCertaintyEscalation.
    destruct (List.length responses <? 2)%nat; simpl; [discriminate|].
    intro Hd. f_equal. apply escalation_confidence_saturates. exact Hd. }
  split; [exact Hcc|]. split; [exact Hce|]. split.
  - intros c Hc Hlt. destruct (Containment.cc_detected cc) eqn:E; [|reflexivity].
    rewrite (Hcc eq_refl) in Hc. inversion Hc; subst c. discriminate Hlt.
  - intros c Hc Hlt. destruct (Containment.ce_detected ce) eqn:E; [|reflexivity].
    rewrite (Hce eq_refl) in Hc. inversion Hc; subst c. discriminate Hlt.
Qed.

(** The claim at the default threshold: a drop from entropy 7 to entropy 3,
    and a certainty score rising from 0 to 1/4. *)
Lemma detected_confidence_is_one_witness :
  Containment.cc_confidence
    (Containment.detectConsensusCollapse Samples.wordTokens Samples.log2Dyadic
       (Samples.distinctWords 8) (Samples.distinctWords 128)
       Containment.defaultThreshold) = Some (JS.Fin 1)
  /\ Containment.ce_confidence
       (Containment.measureCertaintyEscalation Samples.wordTokens
          (Samples.risingHistory ++ [Samples.risingText])) = Some (JS.Fin 1).
Proof.
  destruct (detected_confidence_is_one Samples.wordTokens Samples.log2Dyadic
              (Samples.distinctWords 8) (Samples.distinctWords 128)
              Containment.defaultThreshold
              (Samples.risingHistory ++ [Samples.risingText]) eq_refl)
    as [Hcc [Hce _]].
  split.
  - apply Hcc. vm_compute. reflexivity.
  - apply Hce. vm_compute. reflexivity.
Defined.

(** ** C3: the certainty-escalation check *)

(** For two responses or more, the reported escalation is the value of the
    fitted line at index 1, that is intercept plus slope. *)
Lemma escalation_is_fitted_value :
  forall (tokenize : string -> list string) (responses : list string),
    (2 <= List.length responses)%nat ->
    let line := SimpleStatistics.linearRegression
                  (Containment.indexed 0
                     (map (Containment.certaintyScore tokenize) responses)) in
    Containment.escalation (Containment.measureCertaintyEscalation tokenize responses)
    = (SimpleStatistics.b line + SimpleStatistics.m line * JS.Fin 1)%js.
Proof.
  intros tokenize responses Hlen line.
  unfold Containment.measureCertaintyEscalation.
  assert (E1 : (List.length responses <? 2)%nat = false) by (apply Nat.ltb_ge; exact Hlen).
  rewrite E1. simpl Containment.escalation.
  assert (E2 : (1 <? List.length (map (Containment.certaintyScore tokenize) responses))%nat = true)
    by (rewrite length_map; apply Nat.ltb_lt; lia).
  rewrite E2. reflexivity.
Qed.

(** C3: the check on a history of one text followed by the same text.  Both
    certainty scores are 1/4, the least-squares line over the indices 0, 1 has
    slope 0 and intercept 1/4; the reported escalation is 1/4 (the fitted value
    at index 1, not the slope), so the check reports detected with
    confidence 1 on a flat sequence. *)
Theorem certainty_escalation_flat_history :
  let responses := Samples.flatHistory ++ [Samples.flatText] in
  let scores := map (Containment.certaintyScore Samples.wordTokens) responses in
  let line := SimpleStatistics.linearRegression (Containment.indexed 0 scores) in
  let r := Containment.measureCertaintyEscalation Samples.wordTokens responses in
  Containment.certaintyScores r = Some [JS.Fin (1 # 4); JS.Fin (1 # 4)]
  /\ (SimpleStatistics.m line === JS.Fin 0)%js
  /\ (SimpleStatistics.b line === JS.Fin (1 # 4))%js
  /\ (Containment.escalation r === JS.Fin (1 # 4))%js
  /\ Containment.ce_detected r = true
  /\ Containment.ce_confidence r = Some (JS.Fin 1).
Proof.
  vm_compute. repeat split; reflexivity.
Qed.

(** ** C4: the dominant mechanism *)

Lemma le_fin (x y : Q) : JS.le (JS.Fin x) (JS.Fin y) = true <-> x <= y.
Proof. apply Qle_bool_iff. Qed.

Lemma lt_fin (x y : Q) : JS.lt (JS.Fin x) (JS.Fin y) = true <-> x < y.
Proof. apply (gt_fin y x). Qed.

Ltac order_goal :=
  match goal with
  | |- JS.le (JS.Fin _) (JS.Fin _) = true => apply le_fin; lra
  | |- JS.lt (JS.Fin _) (JS.Fin _) = true => apply lt_fin; lra
  end.

Ltac dominates_goal :=
  split; [assumption | split; [assumption |]];
  let m' := fresh "m" in
  let Hm := fresh "Hm" in
  intros m' Hm; destruct m'; try congruence;
  eexists; (split; [eassumption |]);
  (split; [order_goal
          | let Hr := fresh "Hr" in
            intro Hr; cbn [Mechanism.rank] in Hr; first [exfalso; lia | order_goal]]).

Ltac compare_confidences :=
  repeat match goal with
         | |- context [(JS.Fin ?x >? JS.Fin ?y)%js] =>
             let E := fresh "E" in
             destruct (JS.Fin x >? JS.Fin y)%js eqn:E;
             [apply gt_fin in E | apply gt_fin_false in E]; cbn [fst snd andb]
         end.

(** When every detected mechanism carries a positive finite confidence, the
    three steps keep the first mechanism of highest confidence. *)
Lemma select_dominant (d : Containment.Details) :
  (forall m, Mechanism.detectedOf d m = true ->
             exists q, Mechanism.confidenceOf d m = Some (JS.Fin q) /\ 0 < q) ->
  (exists m, Mechanism.detectedOf d m = true) ->
  exists m c, Mechanism.select d = (Some m, c) /\ Mechanism.dominates d m c.
Proof.
  intros Hpos [m0 Hm0].
  pose proof (Hpos Containment.social_proof) as H1.
  pose proof (Hpos Containment.recursive_defense) as H2.
  pose proof (Hpos Containment.observer_collapse) as H3.
  unfold Mechanism.select, Mechanism.dominates.
  destruct (Mechanism.detectedOf d Containment.social_proof) eqn:D1;
  destruct (Mechanism.detectedOf d Containment.recursive_defense) eqn:D2;
  destruct (Mechanism.detectedOf d Containment.observer_collapse) eqn:D3;
  try (destruct (H1 eq_refl) as [q1 [C1 P1]]; rewrite C1);
  try (destruct (H2 eq_refl) as [q2 [C2 P2]]; rewrite C2);
  try (destruct (H3 eq_refl) as [q3 [C3 P3]]; rewrite C3);
  clear H1 H2 H3;
  unfold Containment.consider, Containment.gtOpt; cbn [fst snd andb];
  compare_confidences;
  try (exfalso; lra);
  try (destruct m0; congruence);
  first [ exists Containment.social_proof; eexists; split; [reflexivity | dominates_goal]
        | exists Containment.recursive_defense; eexists; split; [reflexivity | dominates_goal]
        | exists Containment.observer_collapse; eexists; split; [reflexivity | dominates_goal] ].
Qed.

(** Without any detection the three steps leave the initial pair. *)
Lemma select_none (d : Containment.Details) :
  (forall m, Mechanism.detectedOf d m = false) ->
  Mechanism.select d = (None, JS.Fin 0).
Proof.
  intro H. unfold Mechanism.select.
  rewrite (H Containment.social_proof), (H Containment.recursive_defense),
          (H Containment.observer_collapse).
  reflexivity.
Qed.

(** [min(depth / 0.5, 1)] is positive and finite whenever [depth > 0.3]. *)
Lemma loop_confidence_positive (depth : JS.number) :
  (depth >? JS.Fin (3 # 10))%js = true ->
  exists q, JS.min (depth / JS.Fin (5 # 10)) (JS.Fin 1) = JS.Fin q /\ 0 < q.
Proof.
  intro H. destruct depth as [x| | |]; try discriminate.
  - apply gt_fin in H. rewrite div_fin by discriminate.
    unfold JS.min. destruct (JS.lt (JS.Fin (x / (5 # 10))) (JS.Fin 1)).
    + exists (x / (5 # 10)). split; [reflexivity|].
      apply Qlt_shift_div_l; [reflexivity | lra].
    + exists 1. split; reflexivity.
  - exists 1. split; reflexivity.
Qed.

(** The pair computed by [detectContainment] is the selection over its own
    details. *)
Lemma detectContainment_select :
  forall tokenize log2 sentences coherence diversity output context,
    let r := Containment.detectContainment tokenize log2 sentences coherence diversity
               output context in
    (Containment.containment_type r, Containment.confidence r)
    = Mechanism.select (Containment.details r)
    /\ Containment.containment_detected r
       = match Containment.containment_type r with Some _ => true | None => false end.
Proof.
  intros. split; [|reflexivity].
  symmetry. apply surjective_pairing.
Qed.

Lemma lt_le (a b : JS.number) : JS.lt a b = true -> JS.le a b = true.
Proof.
  destruct a as [x| | |], b as [y| | |]; simpl; try discriminate; try reflexivity.
  intro H. apply negb_true_iff in H. apply Qle_bool_false in H.
  apply Qle_bool_iff. apply Qlt_le_weak. exact H.
Qed.

(** With a positive threshold every detected mechanism of
    [detectContainment] has a positive finite confidence. *)
Lemma detected_confidence_positive :
  forall tokenize log2 sentences coherence diversity output context,
    (Containment.threshold context >? JS.Fin 0)%js = true ->
    let r := Containment.detectContainment tokenize log2 sentences coherence diversity
               output context in
    forall m, Mechanism.detectedOf (Containment.details r) m = true ->
              exists q, Mechanism.confidenceOf (Containment.details r) m = Some (JS.Fin q)
                        /\ 0 < q.
Proof.
  intros tokenize log2 sentences coherence diversity output context Hth r m.
  destruct m; cbn [Mechanism.detectedOf Mechanism.confidenceOf r
                   Containment.details Containment.detectContainment
                   Containment.consensus_collapse Containment.recursive_loop
                   Containment.certainty_escalation_details].
  - destruct (Str.truthy (Containment.baseline context)); [|discriminate].
    intro Hd. exists 1. split; [|reflexivity].
    destruct (consensus_collapse_facts tokenize log2 output
                (Containment.baseline context) (Containment.threshold context))
      as [Hdet Hconf].
    rewrite Hconf, Hd. f_equal.
    apply capped_ratio_saturates; [apply lt_le; exact Hth|].
    rewrite Hdet in Hd. apply andb_true_iff in Hd. apply Hd.
  - unfold Containment.detectRecursiveLoop.
    destruct (Str.emptyText output); [discriminate|].
    destruct (Containment.scanSentences (sentences output)) as [count examples].
    cbn [Containment.rl_detected Containment.rl_confidence].
    intro Hd. destruct (loop_confidence_positive _ Hd) as [q [Eq Pq]].
    exists q. rewrite Eq. split; [reflexivity | exact Pq].
  - destruct (0 <? List.length (Containment.history context))%nat; [|discriminate].
    unfold Containment.measureCertaintyEscalation.
    destruct (List.length (Containment.history context ++ [output]) <? 2)%nat;
      [discriminate|].
    cbn [Containment.ce_detected Containment.ce_confidence].
    intro Hd. exists 1. split; [|reflexivity].
    f_equal. apply escalation_confidence_saturates. exact Hd.
Qed.

(** C4 fails as stated: with the threshold -0.5, a response of entropy 1
    against a baseline of entropy 2 drops by 0.5 > -0.5, so the
    consensus-collapse check detects, with confidence [min(0.5 / -0.5, 1) = -1];
    no other mechanism detects, yet the detector reports no containment,
    since -1 does not exceed the initial maximum 0.  (In the program a
    threshold of 0 or -0 fails in the same way when the drop is positive and
    the division gives -Infinity or, for a drop of 0 against -0, NaN; the
    amended statement therefore asks for a positive threshold.) *)
Lemma dominant_mechanism_counterexample :
  let r := Containment.detectContainment Samples.wordTokens Samples.log2Dyadic
             Samples.oneSentence Samples.noScore Samples.noScore
             Samples.negativeOutput Samples.negativeContext in
  Mechanism.detectedOf (Containment.details r) Containment.social_proof = true
  /\ (exists c, Mechanism.confidenceOf (Containment.details r) Containment.social_proof
                = Some c /\ (c === JS.Fin (- (1)))%js)
  /\ Mechanism.detectedOf (Containment.details r) Containment.recursive_defense = false
  /\ Mechanism.detectedOf (Containment.details r) Containment.observer_collapse = false
  /\ Containment.containment_detected r = false
  /\ Containment.containment_type r = None
  /\ ~ (exists m, Containment.containment_type r = Some m
                  /\ Mechanism.dominates (Containment.details r) m (Containment.confidence r)).
Proof.
  vm_compute. repeat split; try reflexivity.
  - eexists. split; reflexivity.
  - intros [m [H _]]. discriminate H.
Qed.

(** C4 (amended): when no mechanism detected, the detector reports no
    containment (containment_detected = false, type null, confidence 0); for
    every input whose threshold is positive, when some mechanism detected,
    the reported type is the detected mechanism of highest confidence, the one
    evaluated first (consensus collapse, recursive loop, certainty escalation)
    winning an exact tie, and the reported confidence is its confidence. *)
Theorem dominant_mechanism :
  forall (tokenize : string -> list string) (log2 : JS.number -> JS.number)
         (sentences : string -> list string)
         (coherence diversity : string -> JS.number)
         (output : string) (context : Containment.Context),
    let r := Containment.detectContainment tokenize log2 sentences coherence diversity
               output context in
    ((forall m, Mechanism.detectedOf (Containment.details r) m = false) ->
     Containment.containment_detected r = false
     /\ Containment.containment_type r = None
     /\ Containment.confidence r = JS.Fin 0)
    /\ ((Containment.threshold context >? JS.Fin 0)%js = true ->
        (exists m, Mechanism.detectedOf (Containment.details r) m = true) ->
        exists m, Containment.containment_detected r = true
                  /\ Containment.containment_type r = Some m
                  /\ Mechanism.dominates (Containment.details r) m
                                         (Containment.confidence r)).
Proof.
  intros tokenize log2 sentences coherence diversity output context r.
  destruct (detectContainment_select tokenize log2 sentences coherence diversity
              output context) as [Hsel Hdet].
  fold r in Hsel, Hdet.
  split.
  - intro Hnone. rewrite (select_none _ Hnone) in Hsel.
    apply pair_equal_spec in Hsel. destruct Hsel as [Hty Hc].
    rewrite Hdet, Hty. auto.
  - intros Hth Hsome.
    destruct (select_dominant (Containment.details r)
                (detected_confidence_positive tokenize log2 sentences coherence
                   diversity output context Hth) Hsome)
      as [m [c [Hs Hdom]]].
    rewrite Hs in Hsel. apply pair_equal_spec in Hsel. destruct Hsel as [Hty Hc].
    exists m. rewrite Hdet, Hty, Hc. auto.
Qed.

(** The claim where nothing detects, and where consensus collapse and
    recursive loop both detect with confidence 1. *)
Lemma dominant_mechanism_witness :
  (let r := Containment.detectContainment Samples.wordTokens Samples.log2Dyadic
              Samples.oneSentence Samples.noScore Samples.noScore
              Samples.plainText Containment.defaultContext in
   Containment.containment_detected r = false
   /\ Containment.containment_type r = None
   /\ Containment.confidence r = JS.Fin 0)
  /\ (let r := Containment.detectContainment Samples.wordTokens Samples.log2Dyadic
                 Samples.oneSentence Samples.noScore Samples.noScore
                 Samples.twoMarkers Samples.richBaseline in
      exists m, Containment.containment_detected r = true
                /\ Containment.containment_type r = Some m
                /\ Mechanism.dominates (Containment.details r) m
                                       (Containment.confidence r)).
Proof.
  split.
  - apply (dominant_mechanism Samples.wordTokens Samples.log2Dyadic
             Samples.oneSentence Samples.noScore Samples.noScore
             Samples.plainText Containment.defaultContext).
    intro m; destruct m; vm_compute; reflexivity.
  - apply (dominant_mechanism Samples.wordTokens Samples.log2Dyadic
             Samples.oneSentence Samples.noScore Samples.noScore
             Samples.twoMarkers Samples.richBaseline).
    + reflexivity.
    + exists Containment.social_proof. vm_compute. reflexivity.
Defined.

Example tie_goes_to_consensus_collapse :
  let r := Containment.detectContainment Samples.wordTokens Samples.log2Dyadic
             Samples.oneSentence Samples.noScore Samples.noScore
             Samples.twoMarkers Samples.richBaseline in
  Containment.cc_confidence (Containment.consensus_collapse (Containment.details r))
  = Some (JS.Fin 1)
  /\ Containment.rl_confidence (Containment.recursive_loop (Containment.details r))
     = Some (JS.Fin 1)
  /\ Containment.rl_detected (Containment.recursive_loop (Containment.details r)) = true
  /\ Containment.containment_type r = Some Containment.social_proof.
Proof. vm_compute. repeat split; reflexivity. Qed.

(** ** C6: the recursion depth *)

Lemma scanPatterns_count (sentence : string) :
  forall ps idx acc,
    fst (Containment.scanPatterns sentence idx ps acc)
    = (fst acc + list_sum (map (fun p => Regex.matchCount p sentence) ps))%nat.
Proof.
  induction ps as [|p ps IH]; intros idx acc; simpl.
  - lia.
  - rewrite IH. destruct (Regex.matchCount p sentence) eqn:E; simpl; lia.
Qed.

Lemma scanSentences_from (ss : list string) :
  forall acc,
    fst (fold_left (fun acc sentence =>
                      Containment.scanPatterns sentence 0 Containment.selfRefPatterns acc)
                   ss acc)
    = (fst acc + SelfReference.totalMatches ss)%nat.
Proof.
  induction ss as [|s ss IH]; intro acc; cbn [fold_left].
  - unfold SelfReference.totalMatches. simpl. lia.
  - rewrite IH, scanPatterns_count.
    change (SelfReference.totalMatches (s :: ss))
      with (SelfReference.matchesIn s + SelfReference.totalMatches ss)%nat.
    unfold SelfReference.matchesIn. lia.
Qed.

(** The running count of [detectRecursiveLoop] is the number of matches
    summed over the sentences. *)
Lemma scanSentences_count (ss : list string) :
  fst (Containment.scanSentences ss) = SelfReference.totalMatches ss.
Proof. unfold Containment.scanSentences. rewrite scanSentences_from. reflexivity. Qed.

Lemma ofNat_div (a b : nat) :
  (0 < b)%nat ->
  (JS.ofNat a / JS.ofNat b)%js
  = JS.Fin (inject_Z (Z.of_nat a) / inject_Z (Z.of_nat b)).
Proof.
  intro H. unfold JS.ofNat. apply div_fin.
  intro E. unfold Qeq in E. simpl in E. lia.
Qed.

Lemma ratio_nonneg (a b : nat) :
  (0 < b)%nat -> 0 <= inject_Z (Z.of_nat a) / inject_Z (Z.of_nat b).
Proof.
  intro H. apply Qle_shift_div_l.
  - unfold Qlt. simpl. lia.
  - rewrite Qmult_0_l. unfold Qle. simpl. lia.
Qed.

Lemma ratio_le_1 (a b : nat) :
  (0 < b)%nat -> (a <= b)%nat -> inject_Z (Z.of_nat a) / inject_Z (Z.of_nat b) <= 1.
Proof.
  intros H Hab. apply Qle_shift_div_r.
  - unfold Qlt. simpl. lia.
  - rewrite Qmult_1_l. unfold Qle. simpl. lia.
Qed.

Lemma totalMatches_bound (ss : list string) :
  (forall s, In s ss -> (SelfReference.matchesIn s <= 1)%nat) ->
  (SelfReference.totalMatches ss <= List.length ss)%nat.
Proof.
  unfold SelfReference.totalMatches.
  induction ss as [|s ss IH]; intro H; simpl.
  - lia.
  - assert (H1 := H s (or_introl eq_refl)).
    assert (H2 : (list_sum (map SelfReference.matchesIn ss) <= List.length ss)%nat)
      by (apply IH; intros s' Hs'; apply H; right; exact Hs').
    lia.
Qed.

(** C6 fails as stated: the one sentence ["Therefore this shows it."] matches
    the declaration pattern once and the connective pattern once, so two
    matches over one sentence give depth 2. *)
Lemma recursion_depth_counterexample :
  let r := Containment.detectRecursiveLoop Samples.oneSentence Samples.twoMarkers in
  Samples.twoMarkers <> ""
  /\ SelfReference.totalMatches (Samples.oneSentence Samples.twoMarkers) = 2%nat
  /\ List.length (Samples.oneSentence Samples.twoMarkers) = 1%nat
  /\ (Containment.depth r === JS.Fin 2)%js
  /\ JS.le (Containment.depth r) (JS.Fin 1) = false.
Proof.
  vm_compute. repeat split; try reflexivity. discriminate.
Qed.

(** C6 (amended): for every text that is not blank, the depth is
    [totalMatches / sentenceCount] (0 without sentences), [totalMatches] being
    the pattern matches summed over all sentences; [0 <= depth]; and
    [depth <= 1] when no sentence holds more than one match. *)
Theorem recursion_depth_bounds :
  forall (sentences : string -> list string) (text : string),
    Str.emptyText text = false ->
    let r := Containment.detectRecursiveLoop sentences text in
    let ss := sentences text in
    Containment.depth r
    = (if (0 <? List.length ss)%nat
       then JS.ofNat (SelfReference.totalMatches ss) / JS.ofNat (List.length ss)
       else JS.Fin 0)%js
    /\ JS.le (JS.Fin 0) (Containment.depth r) = true
    /\ ((forall s, In s ss -> (SelfReference.matchesIn s <= 1)%nat) ->
        JS.le (Containment.depth r) (JS.Fin 1) = true).
Proof.
  intros sentences text Hne r ss.
  assert (Hd : Containment.depth r
               = (if (0 <? List.length ss)%nat
                  then JS.ofNat (SelfReference.totalMatches ss) / JS.ofNat (List.length ss)
                  else JS.Fin 0)%js).
  { unfold r, Containment.detectRecursiveLoop. rewrite Hne. fold ss.
    rewrite <- (scanSentences_count ss).
    destruct (Containment.scanSentences ss) as [count examples]. reflexivity. }
  split; [exact Hd|]. rewrite Hd.
  destruct (0 <? List.length ss)%nat eqn:El.
  - apply Nat.ltb_lt in El. rewrite (ofNat_div _ El). split.
    + apply le_fin. apply ratio_nonneg. exact El.
    + intro H. apply le_fin. apply ratio_le_1; [exact El|].
      apply totalMatches_bound. exact H.
  - split; [reflexivity | intro; reflexivity].
Qed.

(** The claim at a text of one sentence holding one match. *)
Lemma recursion_depth_bounds_witness :
  let r := Containment.detectRecursiveLoop Samples.oneSentence "Thus it ends." in
  (Containment.depth r === JS.Fin 1)%js
  /\ JS.le (JS.Fin 0) (Containment.depth r) = true
  /\ JS.le (Containment.depth r) (JS.Fin 1) = true.
Proof.
  destruct (recursion_depth_bounds Samples.oneSentence "Thus it ends." eq_refl)
    as [Hd [H0 H1]].
  split; [|split].
  - rewrite Hd. vm_compute. reflexivity.
  - exact H0.
  - apply H1. intros s [Hs|[]]. subst s. vm_compute. lia.
Defined.

(* ================================================================== *)
(** * Facts about the sort and about slices of sorted arrays *)
(* ================================================================== *)

Lemma le_trans (a b c : JS.number) :
  JS.le a b = true -> JS.le b c = true -> JS.le a c = true.
Proof.
  destruct a as [x| | |], b as [y| | |], c as [z| | |]; simpl;
    try discriminate; try reflexivity.
  intros H1 H2. apply Qle_bool_iff in H1. apply Qle_bool_iff in H2.
  apply Qle_bool_iff. apply Qle_trans with y; assumption.
Qed.


Section SortedSlices.
Variable A : Type.
Variable R : A -> A -> Prop.




End SortedSlices.

Section SortFacts.
Variable A : Type.
Variable key : A -> JS.number.
Variable cmp : A -> A -> JS.number.
Hypothesis cmp_is_difference : forall a b, cmp a b = (key b - key a)%js.







End SortFacts.

(* ================================================================== *)
(** * The compression aggregator (analyze_compression.js) *)
(* ================================================================== *)

Lemma total_from (l : list nat) : forall a, fold_left Nat.add l a = (a + list_sum l)%nat.
Proof.
  induction l as [|x l IH]; intro a; simpl; [lia|]. rewrite IH. lia.
Qed.

Lemma total_sum (l : list nat) : Compression.total l = list_sum l.
Proof. unfold Compression.total. rewrite total_from. reflexivity. Qed.

Lemma collect_pools (rs : list Compression.Result) :
  forall st,
    Compression.baseline (fold_left Compression.collect rs st)
    = Compression.baseline st
      ++ map Compression.tokens (filter (Classified.taken Classified.Baseline) rs)
    /\ Compression.trigger (fold_left Compression.collect rs st)
       = Compression.trigger st
         ++ map Compression.tokens (filter (Classified.taken Classified.Trigger) rs).
Proof.
  induction rs as [|r rs IH]; intro st; cbn [fold_left filter map].
  - rewrite !app_nil_r. split; reflexivity.
  - destruct (IH (Compression.collect st r)) as [Hb Ht]. rewrite Hb, Ht.
    unfold Compression.collect, Classified.taken, Classified.classify.
    destruct (Compression.isBaseline (Compression.prompt r)).
    + cbn [Compression.baseline Compression.trigger map]. rewrite <- app_assoc.
      split; reflexivity.
    + destruct (Compression.isTrigger (Compression.prompt r));
        cbn [Compression.baseline Compression.trigger map];
        rewrite <- ?app_assoc; split; reflexivity.
Qed.

(** The two totals range over every result taken for a side. *)
Lemma totals_over_all_results (results : list Compression.Result) :
  Compression.baselineTotal (Compression.analyze results)
  = Classified.tokensOf Classified.Baseline results
  /\ Compression.triggerTotal (Compression.analyze results)
     = Classified.tokensOf Classified.Trigger results.
Proof.
  unfold Compression.analyze. cbn [Compression.baselineTotal Compression.triggerTotal].
  rewrite !total_sum. unfold Compression.collectAll.
  destruct (collect_pools results
              {| Compression.topics := []; Compression.baseline := [];
                 Compression.trigger := [] |}) as [Hb Ht].
  rewrite Hb, Ht. split; reflexivity.
Qed.

(** C2: the overall compression is
    [(sum of baseline tokens - sum of trigger tokens) / sum of baseline tokens * 100],
    the sums ranging over every result taken for the baseline side or for the
    trigger side, whatever became of its topic; the reported figure is that
    value printed with one decimal. *)
Theorem overall_compression_over_all_tokens :
  forall results : list Compression.Result,
    let rep := Compression.analyze results in
    let sumBaseline := Classified.tokensOf Classified.Baseline results in
    let sumTrigger := Classified.tokensOf Classified.Trigger results in
    Compression.compressionValue rep
    = ((JS.ofNat sumBaseline - JS.ofNat sumTrigger) / JS.ofNat sumBaseline * JS.Fin 100)%js
    /\ Compression.compression rep = JS.toFixed1 (Compression.compressionValue rep).
Proof.
  intros results rep sumBaseline sumTrigger.
  destruct (totals_over_all_results results) as [Hb Ht].
  split; [|reflexivity].
  unfold sumBaseline, sumTrigger. rewrite <- Hb, <- Ht. reflexivity.
Qed.

(** A topic with a baseline and no trigger still counts in the totals:
    550 baseline tokens against 110 give 80%, where the only paired topic
    alone compresses by 75.6%. *)
Example unpaired_baseline_counts :
  let rep := Compression.analyze Samples.pairAndHalf in
  Classified.pairedGroupCount Samples.pairAndHalf = 1%nat
  /\ Compression.baselineTotal rep = 550%nat
  /\ Compression.triggerTotal rep = 110%nat
  /\ (Compression.compression rep === JS.Fin 80)%js
  /\ (map Compression.tc_compression (Compression.ranked rep)) = [JS.Fin (756 # 10)].
Proof. vm_compute. repeat split; reflexivity. Qed.

(** ** C9: the top and bottom lists *)








(* ================================================================== *)
(** * The sequence aggregator (analyze_multiturn.js) *)
(* ================================================================== *)






(** ** C5: the escape analysis *)










(** ** C7: the dimension-bias analysis *)





Lemma mean_finite (A : Type) (f : A -> nat) (l : list A) :
  l <> [] -> JS.finite (Arr.mean f l).
Proof.
  intro H. unfold Arr.mean. rewrite ofNat_div.
  - eexists. reflexivity.
  - destruct l; [contradiction | simpl; lia].
Qed.




















(* ================================================================== *)
(** * The record normalizer (export_for_r.js, analyze_multiturn.js) *)
(* ================================================================== *)

Section KeyedFacts.
Variables (K V : Type) (eqb : K -> K -> bool).
Hypothesis eqb_spec : forall a b, eqb a b = true <-> a = b.



Lemma get_set_other (o : list (K * V)) (k k' : K) (v : V) :
  k <> k' -> ExportR.get eqb (ExportR.set eqb o k v) k' = ExportR.get eqb o k'.
Proof.
  intro Hne.
  assert (Hkk : eqb k k' = false).
  { destruct (eqb k k') eqn:E; [|reflexivity]. apply eqb_spec in E. contradiction. }
  induction o as [|[k0 v0] o IH]; cbn [ExportR.set ExportR.get].
  - rewrite Hkk. reflexivity.
  - destruct (eqb k0 k) eqn:E; cbn [ExportR.get].
    + apply eqb_spec in E. subst k0. rewrite Hkk. reflexivity.
    + rewrite IH. reflexivity.
Qed.

Variables (keyOf : ExportR.Row -> K) (zero : V) (add : V -> ExportR.Row -> V).
Variable addTo : list (K * V) -> ExportR.Row -> list (K * V).
Hypothesis addTo_def :
  forall o r,
    addTo o r
    = ExportR.set eqb o (keyOf r)
        (add (match ExportR.get eqb o (keyOf r) with Some a => a | None => zero end) r).




End KeyedFacts.

Lemma list_sum_cons (x : nat) (l : list nat) :
  list_sum (x :: l) = (x + list_sum l)%nat.
Proof. reflexivity. Qed.





Lemma isInherited_spec (k : string) :
  ObjectPrototype.isInherited k = true <-> In k ObjectPrototype.inherited.
Proof.
  unfold ObjectPrototype.isInherited. rewrite existsb_exists. split.
  - intros [x [Hx E]]. apply String.eqb_eq in E. subst x. exact Hx.
  - intro H. exists k. split; [exact H | apply String.eqb_refl].
Qed.

(** As long as no own key is an inherited name, filling [byDissenter] passes
    over the rows of an inherited name and handles the others as an
    ordinary map does. *)
Lemma byDissenter_own (rows : list ExportR.Row) :
  forall o,
    (forall k, ObjectPrototype.isInherited k = true -> ExportR.get String.eqb o k = None) ->
    fold_left ExportR.addDissenter rows o
    = fold_left (fun o r =>
                   ExportR.set String.eqb o (ExportR.dissenter r)
                     ((fun cur r =>
                         {| ExportR.d_count := S (ExportR.d_count cur);
                            ExportR.d_hedge := ExportR.d_hedge cur + ExportR.hedgeCount r |})
                        (match ExportR.get String.eqb o (ExportR.dissenter r) with
                         | Some a => a
                         | None => {| ExportR.d_count := 0; ExportR.d_hedge := 0 |}
                         end) r))
                (Normalized.ownNamed rows) o.
Proof.
  induction rows as [|r rows IH]; intros o Ho; [reflexivity|].
  cbn [fold_left]. unfold Normalized.ownNamed. cbn [filter].
  fold (Normalized.ownNamed rows).
  destruct (ObjectPrototype.isInherited (ExportR.dissenter r)) eqn:E; cbn [negb].
  - assert (Hstep : ExportR.addDissenter o r = o)
      by (unfold ExportR.addDissenter; rewrite (Ho _ E), E; reflexivity).
    rewrite Hstep. apply IH. exact Ho.
  - cbn [fold_left].
    assert (Hstep : ExportR.addDissenter o r
                    = ExportR.set String.eqb o (ExportR.dissenter r)
                        {| ExportR.d_count :=
                             S (ExportR.d_count
                                  (match ExportR.get String.eqb o (ExportR.dissenter r) with
                                   | Some a => a
                                   | None => {| ExportR.d_count := 0; ExportR.d_hedge := 0 |}
                                   end));
                           ExportR.d_hedge :=
                             ExportR.d_hedge
                               (match ExportR.get String.eqb o (ExportR.dissenter r) with
                                | Some a => a
                                | None => {| ExportR.d_count := 0; ExportR.d_hedge := 0 |}
                                end) + ExportR.hedgeCount r |}).
    { unfold ExportR.addDissenter. rewrite E.
      destruct (ExportR.get String.eqb o (ExportR.dissenter r)); reflexivity. }
    rewrite Hstep. apply IH.
    intros k Hk. rewrite (@get_set_other string _ String.eqb String.eqb_eq).
    + apply Ho. exact Hk.
    + intro C. rewrite C in E. congruence.
Qed.



(** What the loop body does with a result. *)
Lemma body_readable (entropyString : string -> string) (r : ExportR.Result) :
  Normalized.readable r = true ->
  ExportR.body entropyString r
  = if Normalized.resolved r
    then ExportR.Pushes (Normalized.row entropyString r)
    else ExportR.Skips (ExportR.warning r).
Proof.
  unfold Normalized.readable, Normalized.hasUsage, Normalized.hasTextAndProvider,
    Normalized.resolved, ExportR.body, Normalized.row, Normalized.textOf,
    Normalized.tokensOf, Normalized.modelOf.
  destruct (ExportR.response r) as [resp|]; [|discriminate].
  destruct (ExportR.tokenUsage resp) as [usage|]; [|discriminate].
  cbn [Normalized.present andb].
  destruct (ExportR.missing (ExportR.resolve r)); cbn [negb orb]; [reflexivity|].
  destruct (ExportR.output resp) as [text|]; [|discriminate].
  destruct (ExportR.provider r) as [p|]; [|discriminate].
  reflexivity.
Qed.

Lemma body_unreadable (entropyString : string -> string) (r : ExportR.Result) :
  Normalized.readable r = false -> ExportR.body entropyString r = ExportR.Throws.
Proof.
  unfold Normalized.readable, Normalized.hasUsage, Normalized.hasTextAndProvider,
    Normalized.resolved, ExportR.body.
  destruct (ExportR.response r) as [resp|]; [|reflexivity].
  destruct (ExportR.tokenUsage resp) as [usage|]; [|reflexivity].
  cbn [Normalized.present andb].
  destruct (ExportR.missing (ExportR.resolve r)); cbn [negb orb]; [discriminate|].
  destruct (ExportR.output resp) as [text|]; [|reflexivity].
  destruct (ExportR.provider r) as [p|]; [discriminate | reflexivity].
Qed.

Lemma thrown_stays (entropyString : string -> string) (results : list ExportR.Result)
      (ws : list ExportR.LogLine) :
  fold_left (ExportR.step entropyString) results (ExportR.Thrown ws) = ExportR.Thrown ws.
Proof. induction results as [|r results IH]; [reflexivity | exact IH]. Qed.

(** The loop over the results: up to the first result that is not readable,
    a row for each resolved result and a warning for each other one, both in
    order. *)
Lemma extract_from (entropyString : string -> string) (results : list ExportR.Result) :
  forall rows ws,
    fold_left (ExportR.step entropyString) results (ExportR.Going rows ws)
    = if forallb Normalized.readable results
      then ExportR.Going
             (rows ++ map (Normalized.row entropyString) (Normalized.kept results))
             (ws ++ map ExportR.warning (Normalized.skipped results))
      else ExportR.Thrown
             (ws ++ map ExportR.warning
                        (Normalized.skipped (Normalized.readablePrefix results))).
Proof.
  induction results as [|r results IH]; intros rows ws;
    cbn [fold_left forallb Normalized.readablePrefix].
  - cbn. rewrite !app_nil_r. reflexivity.
  - unfold ExportR.step at 2.
    destruct (Normalized.readable r) eqn:Hr; cbn [andb].
    + rewrite (body_readable entropyString r Hr).
      unfold Normalized.kept, Normalized.skipped. cbn [filter].
      destruct (Normalized.resolved r); cbn [negb map]; rewrite IH;
        fold (Normalized.kept results); fold (Normalized.skipped results);
        fold (Normalized.skipped (Normalized.readablePrefix results));
        rewrite <- !app_assoc; reflexivity.
    + rewrite (body_unreadable entropyString r Hr), thrown_stays.
      cbn. rewrite app_nil_r. reflexivity.
Qed.

Lemma summary_has_no_warning (o : list (nat * ExportR.TurnAcc))
      (ds : list (string * ExportR.DissenterAcc)) :
  forallb (fun l => negb (Normalized.isWarning l))
          (flat_map (ExportR.turnLine o) [1; 2; 3; 4; 5]%nat
           ++ (if (1 <? List.length ds)%nat then map ExportR.dissenterLine ds else []))
  = true.
Proof.
  rewrite forallb_app. apply andb_true_iff. split.
  - apply forallb_forall. intros l Hl. apply in_flat_map in Hl.
    destruct Hl as [i [_ Hl]]. unfold ExportR.turnLine in Hl.
    destruct (ExportR.get Nat.eqb o i); [|contradiction].
    destruct Hl as [Hl|[]]. subst l. reflexivity.
  - destruct (1 <? List.length ds)%nat; [|reflexivity].
    apply forallb_forall. intros l Hl. apply in_map_iff in Hl.
    destruct Hl as [kv [Hl _]]. subst l. reflexivity.
Qed.

Lemma warnings_only (l : list ExportR.Result) :
  filter Normalized.isWarning (map ExportR.warning l) = map ExportR.warning l.
Proof.
  induction l as [|r l IH]; [reflexivity|].
  cbn [map filter]. unfold ExportR.warning at 1. cbn [Normalized.isWarning].
  rewrite IH. reflexivity.
Qed.

Lemma no_warning_filtered (l : list ExportR.LogLine) :
  forallb (fun x => negb (Normalized.isWarning x)) l = true ->
  filter Normalized.isWarning l = [].
Proof.
  induction l as [|x l IH]; [reflexivity|].
  cbn [forallb filter]. intro H. apply andb_true_iff in H. destruct H as [Hx Hl].
  apply negb_true_iff in Hx. rewrite Hx. apply IH. exact Hl.
Qed.

(** The run over readable results, and the run that meets a result that is
    not readable. *)
Lemma run_finished (entropyString : string -> string) (results : list ExportR.Result) :
  forallb Normalized.readable results = true ->
  ExportR.run entropyString results
  = let rows := map (Normalized.row entropyString) (Normalized.kept results) in
    ExportR.Finished
      {| ExportR.rows := rows;
         ExportR.log :=
           map ExportR.warning (Normalized.skipped results)
           ++ [ExportR.Extracted (List.length rows)]
           ++ flat_map (ExportR.turnLine (ExportR.byTurn rows)) [1; 2; 3; 4; 5]%nat
           ++ (if (1 <? List.length (ExportR.byDissenter rows))%nat
               then map ExportR.dissenterLine (ExportR.byDissenter rows)
               else []) |}.
Proof.
  intro H. unfold ExportR.run, ExportR.extract. rewrite extract_from, H. reflexivity.
Qed.

Lemma run_aborted (entropyString : string -> string) (results : list ExportR.Result) :
  forallb Normalized.readable results = false ->
  ExportR.run entropyString results
  = ExportR.Aborted (map ExportR.warning
                         (Normalized.skipped (Normalized.readablePrefix results))).
Proof.
  intro H. unfold ExportR.run, ExportR.extract. rewrite extract_from, H. reflexivity.
Qed.

Lemma log_warnings (ws : list ExportR.Result) (n : nat)
      (o : list (nat * ExportR.TurnAcc)) (ds : list (string * ExportR.DissenterAcc)) :
  filter Normalized.isWarning
         (map ExportR.warning ws
          ++ [ExportR.Extracted n]
          ++ flat_map (ExportR.turnLine o) [1; 2; 3; 4; 5]%nat
          ++ (if (1 <? List.length ds)%nat then map ExportR.dissenterLine ds else []))
  = map ExportR.warning ws.
Proof.
  rewrite filter_app, warnings_only.
  change ([ExportR.Extracted n] ++ ?x) with (ExportR.Extracted n :: x).
  cbn [filter Normalized.isWarning app].
  rewrite (no_warning_filtered _ (summary_has_no_warning _ _)).
  apply app_nil_r.
Qed.

(** ** C8: unresolved records *)




(** In the analysis, a result with an explicit turn whose topic and dissenter
    cannot be found is kept under the name ["unknown"] and counts at its
    turn. *)
Example unknown_dissenter_counts_at_its_turn :
  let m := Multiturn.toMetric Samples.wordTokens Samples.log2Dyadic Samples.turnOnly in
  Multiturn.topic m = "unknown"
  /\ Multiturn.dissenter m = "unknown"
  /\ Multiturn.turn m = 3%nat
  /\ Multiturn.atTurn 3 [m] = [m]
  /\ TurnThree.values [m] = ["unknown"].
Proof. vm_compute. repeat split; reflexivity. Qed.

(* ================================================================== *)
(** * Further properties of the metrics (containment.js) *)
(* ================================================================== *)

Lemma addOverlap_nonneg (tokenize : string -> list string) (q : Q) (s1 s2 : string) :
  0 <= q ->
  exists q', Metrics.addOverlap tokenize (JS.Fin q) s1 s2 = JS.Fin q' /\ 0 <= q'.
Proof.
  intro Hq. unfold Metrics.addOverlap.
  destruct (0 <? List.length
                   (Arr.setOf (Metrics.tokenSet tokenize s1 ++ Metrics.tokenSet tokenize s2)))%nat
    eqn:E.
  - apply Nat.ltb_lt in E. rewrite (ofNat_div _ E). cbn [JS.add].
    eexists. split; [reflexivity|].
    pose proof (ratio_nonneg
                  (List.length
                     (Arr.setOf (filter (Metrics.has (Metrics.tokenSet tokenize s2))
                                        (Metrics.tokenSet tokenize s1)))) E) as H.
    lra.
  - exists q. split; [reflexivity | exact Hq].
Qed.

Lemma overlaps_nonneg (tokenize : string -> list string) (ss : list string) :
  forall q, 0 <= q ->
            exists q', Metrics.overlaps tokenize ss (JS.Fin q) = JS.Fin q' /\ 0 <= q'.
Proof.
  induction ss as [|s1 ss IH]; intros q Hq.
  - exists q. split; [reflexivity | exact Hq].
  - destruct ss as [|s2 ss'].
    + exists q. split; [reflexivity | exact Hq].
    + cbn [Metrics.overlaps].
      destruct (addOverlap_nonneg tokenize s1 s2 Hq) as [q1 [E1 H1]].
      rewrite E1. apply IH. exact H1.
Qed.

(** X1: whatever the sentence splitter and the tokenizer return, the
    coherence of a text is a finite number between 0 and 1. *)
Theorem coherence_between_0_and_1 :
  forall (sentences : string -> list string) (tokenize : string -> list string)
         (text : string),
  exists q, Metrics.calculateCoherence sentences tokenize text = JS.Fin q
            /\ 0 <= q /\ q <= 1.
Proof.
  intros sentences tokenize text. unfold Metrics.calculateCoherence.
  destruct (Str.emptyText text).
  - exists 0. split; [reflexivity|]. split; discriminate.
  - destruct (List.length (sentences text) <? 2)%nat eqn:E.
    + exists 1. split; [reflexivity|]. split; discriminate.
    + apply Nat.ltb_ge in E.
      destruct (overlaps_nonneg tokenize (sentences text) (Qle_refl 0)) as [t [Et Ht]].
      rewrite Et.
      assert (Hn : ~ inject_Z (Z.of_nat (List.length (sentences text) - 1)) == 0)
        by (intro H; unfold Qeq in H; simpl in H; lia).
      unfold JS.ofNat. rewrite (div_fin _ Hn). cbn [JS.mul].
      assert (Hc : 0 <= t / inject_Z (Z.of_nat (List.length (sentences text) - 1)) * 2).
      { apply Qmult_le_0_compat; [|discriminate].
        apply Qle_shift_div_l.
        - unfold Qlt. simpl. lia.
        - rewrite Qmult_0_l. exact Ht. }
      unfold JS.min.
      destruct (JS.lt (JS.Fin (t / inject_Z (Z.of_nat (List.length (sentences text) - 1)) * 2))
                      (JS.Fin 1)) eqn:El.
      * eexists. split; [reflexivity|]. split; [exact Hc|].
        apply lt_fin in El. apply Qlt_le_weak. exact El.
      * exists 1. split; [reflexivity|]. split; discriminate.
Qed.

(** ** The combined detector: what it reports whatever the threshold *)

Lemma min_one_capped (a : JS.number) (q : Q) :
  JS.min a (JS.Fin 1) = JS.Fin q -> q <= 1.
Proof.
  destruct a as [x| | |]; cbn [JS.min].
  - destruct (JS.lt (JS.Fin x) (JS.Fin 1)) eqn:E; intro H; injection H as H; subst q.
    + apply lt_fin in E. apply Qlt_le_weak. exact E.
    + discriminate.
  - cbn. intro H. injection H as H; subst q. discriminate.
  - cbn. intro H. discriminate.
  - intro H. discriminate.
Qed.

(** One step of the selection keeps the maximum between 0 and 1, positive
    exactly when a type is held, provided the candidate confidence, when
    finite, is at most 1. *)
Lemma consider_keeps_bounds (detected : bool) (conf : option JS.number)
      (ty : Containment.ContainmentType)
      (st : option Containment.ContainmentType * JS.number) :
  (forall q, conf = Some (JS.Fin q) -> q <= 1) ->
  (conf <> Some JS.PInf) ->
  (exists q, snd st = JS.Fin q /\ 0 <= q /\ q <= 1
             /\ (fst st = None -> q == 0) /\ (fst st <> None -> 0 < q)) ->
  exists q, snd (Containment.consider detected conf ty st) = JS.Fin q
            /\ 0 <= q /\ q <= 1
            /\ (fst (Containment.consider detected conf ty st) = None -> q == 0)
            /\ (fst (Containment.consider detected conf ty st) <> None -> 0 < q).
Proof.
  intros Hcap Hinf [q [Hs [H0 [H1 [Hnone Hsome]]]]].
  unfold Containment.consider.
  destruct (andb detected (Containment.gtOpt conf (snd st))) eqn:E.
  - apply andb_true_iff in E. destruct E as [_ E].
    destruct conf as [c|]; [|discriminate].
    cbn [Containment.gtOpt] in E. rewrite Hs in E.
    destruct c as [x| | |]; try discriminate.
    + apply gt_fin in E. exists x. cbn [fst snd].
      split; [reflexivity|]. split; [lra|]. split; [apply Hcap; reflexivity|].
      split; [discriminate | intros _; lra].
    + exfalso. apply Hinf. reflexivity.
  - exists q. auto.
Qed.

Lemma min_one_not_infinite (a : JS.number) : JS.min a (JS.Fin 1) <> JS.PInf.
Proof.
  destruct a as [x| | |]; cbn; try discriminate.
  destruct (negb (Qle_bool 1 x)); discriminate.
Qed.

Lemma capped_min (a : JS.number) :
  (forall q, Some (JS.min a (JS.Fin 1)) = Some (JS.Fin q) -> q <= 1)
  /\ Some (JS.min a (JS.Fin 1)) <> Some JS.PInf.
Proof.
  split.
  - intros q H. injection H as H. apply (min_one_capped _ H).
  - intro H. injection H as H. apply (min_one_not_infinite _ H).
Qed.

Lemma capped_none :
  (forall q, @None JS.number = Some (JS.Fin q) -> q <= 1)
  /\ @None JS.number <> Some JS.PInf.
Proof. split; [intros q H; discriminate | discriminate]. Qed.

(** The confidence of each mechanism of [detectContainment], when it is a
    finite number, is at most 1, and it is never infinite. *)
Lemma mechanism_confidence_capped :
  forall tokenize log2 sentences coherence diversity output context m,
    let d := Containment.details
               (Containment.detectContainment tokenize log2 sentences coherence
                  diversity output context) in
    (forall q, Mechanism.confidenceOf d m = Some (JS.Fin q) -> q <= 1)
    /\ Mechanism.confidenceOf d m <> Some JS.PInf.
Proof.
  intros tokenize log2 sentences coherence diversity output context m d.
  destruct m; cbn [d Mechanism.confidenceOf Containment.details
                   Containment.detectContainment Containment.consensus_collapse
                   Containment.recursive_loop Containment.certainty_escalation_details].
  - destruct (Str.truthy (Containment.baseline context)); [|apply capped_none].
    rewrite (proj2 (consensus_collapse_facts tokenize log2 output
                      (Containment.baseline context) (Containment.threshold context))).
    destruct (Containment.cc_detected _); [apply capped_min|].
    split; [intros q H; injection H as H; subst q; discriminate | discriminate].
  - unfold Containment.detectRecursiveLoop.
    destruct (Str.emptyText output); [apply capped_none|].
    destruct (Containment.scanSentences (sentences output)) as [count examples].
    cbn [Containment.rl_confidence]. apply capped_min.
  - destruct (0 <? List.length (Containment.history context))%nat; [|apply capped_none].
    unfold Containment.measureCertaintyEscalation.
    destruct (List.length (Containment.history context ++ [output]) <? 2)%nat;
      [apply capped_none|].
    cbn [Containment.ce_confidence]. apply capped_min.
Qed.

(** The selection over details whose confidences are capped. *)
Lemma select_keeps_bounds (d : Containment.Details) :
  (forall m, (forall q, Mechanism.confidenceOf d m = Some (JS.Fin q) -> q <= 1)
             /\ Mechanism.confidenceOf d m <> Some JS.PInf) ->
  exists q, snd (Mechanism.select d) = JS.Fin q
            /\ 0 <= q /\ q <= 1
            /\ (fst (Mechanism.select d) = None -> q == 0)
            /\ (fst (Mechanism.select d) <> None -> 0 < q).
Proof.
  intro Hcap. unfold Mechanism.select.
  apply consider_keeps_bounds;
    [apply (Hcap Containment.observer_collapse)
    |apply (Hcap Containment.observer_collapse)|].
  apply consider_keeps_bounds;
    [apply (Hcap Containment.recursive_defense)
    |apply (Hcap Containment.recursive_defense)|].
  apply consider_keeps_bounds;
    [apply (Hcap Containment.social_proof)
    |apply (Hcap Containment.social_proof)|].
  exists 0. cbn [fst snd]. split; [reflexivity|]. split; [discriminate|].
  split; [discriminate|]. split; [reflexivity | intro H; contradiction].
Qed.

(** The reported pair of [detectContainment]: a confidence between 0 and 1,
    zero without a type, positive with one. *)
Lemma detectContainment_bounds :
  forall tokenize log2 sentences coherence diversity output context,
    let r := Containment.detectContainment tokenize log2 sentences coherence diversity
               output context in
    exists q, Containment.confidence r = JS.Fin q
              /\ 0 <= q /\ q <= 1
              /\ (Containment.containment_type r = None -> q == 0)
              /\ (Containment.containment_type r <> None -> 0 < q).
Proof.
  intros tokenize log2 sentences coherence diversity output context r.
  destruct (detectContainment_select tokenize log2 sentences coherence diversity
              output context) as [Hsel _].
  fold r in Hsel.
  pose proof (@select_keeps_bounds (Containment.details r)
                (mechanism_confidence_capped tokenize log2 sentences coherence diversity
                   output context)) as H.
  rewrite <- Hsel in H. exact H.
Qed.

(** X2: for every input of the combined detector, negative thresholds
    included, the reported confidence is a finite number between 0 and 1;
    containment is reported exactly when that confidence is positive, and
    exactly when a type is named. *)
Theorem reported_confidence_is_a_probability :
  forall (tokenize : string -> list string) (log2 : JS.number -> JS.number)
         (sentences : string -> list string)
         (coherence diversity : string -> JS.number)
         (output : string) (context : Containment.Context),
    let r := Containment.detectContainment tokenize log2 sentences coherence diversity
               output context in
    exists q, Containment.confidence r = JS.Fin q
              /\ 0 <= q /\ q <= 1
              /\ (Containment.containment_detected r = true <-> 0 < q)
              /\ (Containment.containment_detected r = true
                  <-> Containment.containment_type r <> None).
Proof.
  intros tokenize log2 sentences coherence diversity output context r.
  destruct (detectContainment_select tokenize log2 sentences coherence diversity
              output context) as [_ Hdet].
  destruct (detectContainment_bounds tokenize log2 sentences coherence diversity
              output context) as [q [Hq [H0 [H1 [Hnone Hsome]]]]].
  fold r in Hdet, Hq, Hnone, Hsome.
  exists q. split; [exact Hq|]. split; [exact H0|]. split; [exact H1|].
  rewrite Hdet. destruct (Containment.containment_type r) as [ty|].
  - split; split; intro; try reflexivity; try discriminate.
    apply Hsome. discriminate.
  - split; split; intro H; try discriminate.
    + rewrite (Hnone eq_refl) in H. discriminate.
    + contradiction.
Qed.

(** X3: the Promptfoo assertion scores between 0 and 1 and passes exactly
    when the score is 1; a threshold that is absent, zero or NaN is replaced
    by 0.30. *)
Theorem assertion_score_and_threshold :
  forall (tokenize : string -> list string) (log2 : JS.number -> JS.number)
         (sentences : string -> list string)
         (nouns verbs adjectives : string -> list string)
         (p : Metrics.AssertionParams),
    let a := Metrics.containmentAssertion tokenize log2 sentences nouns verbs adjectives p in
    (exists s, Metrics.score a = JS.Fin s /\ 0 <= s /\ s <= 1
               /\ (Metrics.pass a = true <-> s == 1))
    /\ (match Metrics.a_threshold p with
        | None => True
        | Some t => JS.truthy t = false
        end ->
        a = Metrics.containmentAssertion tokenize log2 sentences nouns verbs adjectives
              {| Metrics.a_output := Metrics.a_output p;
                 Metrics.a_baseline := Metrics.a_baseline p;
                 Metrics.a_history := Metrics.a_history p;
                 Metrics.a_threshold := Some (JS.Fin (3 # 10)) |}).
Proof.
  intros tokenize log2 sentences nouns verbs adjectives p a.
  split.
  - unfold a, Metrics.containmentAssertion. cbn [Metrics.score Metrics.pass].
    unfold Metrics.detect.
    destruct (detectContainment_select tokenize log2 sentences
                (Metrics.calculateCoherence sentences tokenize)
                (Metrics.calculateSemanticDiversity tokenize nouns verbs adjectives)
                (Metrics.a_output p) (Metrics.detectionContext p)) as [_ Hdet].
    destruct (detectContainment_bounds tokenize log2 sentences
                (Metrics.calculateCoherence sentences tokenize)
                (Metrics.calculateSemanticDiversity tokenize nouns verbs adjectives)
                (Metrics.a_output p) (Metrics.detectionContext p))
      as [q [Hq [H0 [H1 [Hnone Hsome]]]]].
    rewrite Hq, Hdet. cbn [JS.sub].
    exists (1 - q). split; [reflexivity|]. split; [lra|]. split; [lra|].
    destruct (Containment.containment_type _) as [ty|]; cbn [negb].
    + assert (Hp : 0 < q) by (apply Hsome; discriminate).
      split; [discriminate|]. intro H. lra.
    + assert (Hz : q == 0) by (apply Hnone; reflexivity).
      split; [intros _; lra | reflexivity].
  - intro Hth. unfold a, Metrics.containmentAssertion, Metrics.detect.
    assert (Hctx : Metrics.detectionContext p
                   = Metrics.detectionContext
                       {| Metrics.a_output := Metrics.a_output p;
                          Metrics.a_baseline := Metrics.a_baseline p;
                          Metrics.a_history := Metrics.a_history p;
                          Metrics.a_threshold := Some (JS.Fin (3 # 10)) |}).
    { unfold Metrics.detectionContext. cbn [Metrics.a_baseline Metrics.a_history
                                             Metrics.a_threshold Metrics.numberOr].
      f_equal. destruct (Metrics.a_threshold p) as [t|]; [|reflexivity].
      cbn [Metrics.numberOr]. unfold JS.orElse. rewrite Hth. reflexivity. }
    rewrite Hctx. reflexivity.
Qed.

(** The assertion at a response that collapses against its baseline, and at
    a threshold given as 0. *)
Lemma assertion_score_and_threshold_witness :
  let p := {| Metrics.a_output := Samples.distinctWords 8;
              Metrics.a_baseline := Some (Samples.distinctWords 128);
              Metrics.a_history := None;
              Metrics.a_threshold := Some (JS.Fin 0) |} in
  Metrics.containmentAssertion Samples.wordTokens Samples.log2Dyadic Samples.oneSentence
    Samples.noWords Samples.noWords Samples.noWords p
  = Metrics.containmentAssertion Samples.wordTokens Samples.log2Dyadic Samples.oneSentence
      Samples.noWords Samples.noWords Samples.noWords
      {| Metrics.a_output := Samples.distinctWords 8;
         Metrics.a_baseline := Some (Samples.distinctWords 128);
         Metrics.a_history := None;
         Metrics.a_threshold := Some (JS.Fin (3 # 10)) |}.
Proof.
  intro p.
  apply (assertion_score_and_threshold Samples.wordTokens Samples.log2Dyadic
           Samples.oneSentence Samples.noWords Samples.noWords Samples.noWords p).
  reflexivity.
Defined.

(** ** The recursive-loop check in whole numbers *)

Lemma lt_ratio_iff (a : Q) (k n : nat) :
  (0 < n)%nat ->
  (a < inject_Z (Z.of_nat k) / inject_Z (Z.of_nat n)
   <-> a * inject_Z (Z.of_nat n) < inject_Z (Z.of_nat k)).
Proof.
  intro Hn.
  assert (HN : 0 < inject_Z (Z.of_nat n)) by (unfold Qlt; simpl; lia).
  split; intro H.
  - apply Qmult_lt_r with (z := inject_Z (Z.of_nat n)) in H; [|exact HN].
    rewrite (Qmult_comm (_ / _)) in H. rewrite Qmult_div_r in H; [exact H|].
    intro E. rewrite E in HN. apply (Qlt_irrefl 0 HN).
  - apply Qlt_shift_div_l; assumption.
Qed.

Lemma ratio_lt_iff (a : Q) (k n : nat) :
  (0 < n)%nat ->
  (inject_Z (Z.of_nat k) / inject_Z (Z.of_nat n) < a
   <-> inject_Z (Z.of_nat k) < a * inject_Z (Z.of_nat n)).
Proof.
  intro Hn.
  assert (HN : 0 < inject_Z (Z.of_nat n)) by (unfold Qlt; simpl; lia).
  split; intro H.
  - apply Qmult_lt_r with (z := inject_Z (Z.of_nat n)) in H; [|exact HN].
    rewrite (Qmult_comm (_ / _)) in H. rewrite Qmult_div_r in H; [exact H|].
    intro E. rewrite E in HN. apply (Qlt_irrefl 0 HN).
  - apply Qlt_shift_div_r; assumption.
Qed.

(** X4: for a text that is not blank and has sentences, the recursive-loop
    check detects exactly when there are more than 3 matches per 10
    sentences; its confidence is a number of [0, 1], equal to 1 exactly when
    there is at least one match per two sentences and above 0.6 whenever the
    check detects; at most five examples are kept. *)
Theorem recursive_loop_thresholds :
  forall (sentences : string -> list string) (text : string),
    Str.emptyText text = false ->
    sentences text <> [] ->
    let r := Containment.detectRecursiveLoop sentences text in
    let n := List.length (sentences text) in
    let k := SelfReference.totalMatches (sentences text) in
    (Containment.rl_detected r = true <-> (3 * n < 10 * k)%nat)
    /\ (exists c, Containment.rl_confidence r = Some (JS.Fin c)
                  /\ 0 <= c /\ c <= 1
                  /\ (c == 1 <-> (n <= 2 * k)%nat)
                  /\ (Containment.rl_detected r = true -> 3 # 5 < c))
    /\ (List.length (Containment.patterns r) <= 5)%nat.
Proof.
  intros sentences text Hne Hss r n k.
  assert (Hn : (0 < n)%nat) by (unfold n; destruct (sentences text); [contradiction | simpl; lia]).
  assert (Hr : r = {| Containment.rl_detected :=
                        (JS.Fin (inject_Z (Z.of_nat k) / inject_Z (Z.of_nat n))
                         >? JS.Fin (3 # 10))%js;
                      Containment.depth :=
                        JS.Fin (inject_Z (Z.of_nat k) / inject_Z (Z.of_nat n));
                      Containment.patterns :=
                        firstn 5 (snd (Containment.scanSentences (sentences text)));
                      Containment.rl_confidence :=
                        Some (JS.min (JS.Fin (inject_Z (Z.of_nat k) / inject_Z (Z.of_nat n))
                                      / JS.Fin (5 # 10))%js (JS.Fin 1)) |}).
  { unfold r, Containment.detectRecursiveLoop. rewrite Hne.
    unfold k. rewrite <- (scanSentences_count (sentences text)).
    destruct (Containment.scanSentences (sentences text)) as [count examples].
    fold n. assert (E : (0 <? n)%nat = true) by (apply Nat.ltb_lt; exact Hn).
    rewrite E. cbn [fst snd]. rewrite (ofNat_div _ Hn). reflexivity. }
  rewrite Hr. cbn [Containment.rl_detected Containment.rl_confidence Containment.patterns].
  set (y := inject_Z (Z.of_nat k) / inject_Z (Z.of_nat n)).
  assert (Hy0 : 0 <= y) by (apply ratio_nonneg; exact Hn).
  assert (Hdet : 3 # 10 < y <-> (3 * n < 10 * k)%nat).
  { unfold y. rewrite (lt_ratio_iff _ _ Hn).
    unfold Qlt, Qmult, inject_Z. cbn [Qnum Qden]. lia. }
  assert (Hone : y < 1 # 2 <-> (2 * k < n)%nat).
  { unfold y. rewrite (ratio_lt_iff _ _ Hn).
    unfold Qlt, Qmult, inject_Z. cbn [Qnum Qden]. lia. }
  split; [|split].
  - rewrite gt_fin. exact Hdet.
  - rewrite div_fin by discriminate. unfold JS.min.
    destruct (JS.lt (JS.Fin (y / (5 # 10))) (JS.Fin 1)) eqn:E.
    + apply lt_fin in E.
      assert (Ey : y / (5 # 10) == 2 * y) by (field).
      exists (y / (5 # 10)). split; [reflexivity|].
      rewrite Ey in E |- *. split; [lra|]. split; [lra|]. split.
      * split; intro H; [lra|].
        assert (Hk : ~ (2 * k < n)%nat) by lia.
        exfalso. apply Hk. apply Hone. lra.
      * intro Hd. apply gt_fin in Hd. lra.
    + apply gt_fin_false in E. change (JS.Fin 1 >? JS.Fin (y / (5 # 10)))%js
        with (JS.lt (JS.Fin (y / (5 # 10))) (JS.Fin 1)) in E.
      exists 1. split; [reflexivity|]. split; [discriminate|]. split; [discriminate|].
      split; [|intros _; reflexivity].
      split; [|reflexivity]. intros _.
      assert (Ey : y / (5 # 10) == 2 * y) by (field).
      rewrite Ey in E.
      destruct (Nat.le_gt_cases n (2 * k)) as [H|H]; [exact H|].
      apply Hone in H. lra.
  - rewrite length_firstn. lia.
Qed.

Lemma recursive_loop_thresholds_witness :
  Str.emptyText Samples.twoMarkers = false
  /\ Samples.oneSentence Samples.twoMarkers <> []
  /\ Containment.rl_detected
       (Containment.detectRecursiveLoop Samples.oneSentence Samples.twoMarkers) = true.
Proof.
  assert (He : Str.emptyText Samples.twoMarkers = false) by reflexivity.
  assert (Hs : Samples.oneSentence Samples.twoMarkers <> []) by discriminate.
  split; [exact He|]. split; [exact Hs|].
  apply (proj1 (recursive_loop_thresholds Samples.oneSentence Samples.twoMarkers He Hs)).
  vm_compute. lia.
Defined.

(** ** The certainty-escalation check on a history of one text *)

(** A certainty score is a finite number, zero or more. *)
Lemma certaintyScore_finite (tokenize : string -> list string) (response : string) :
  exists q, Containment.certaintyScore tokenize response = JS.Fin q /\ 0 <= q.
Proof.
  unfold Containment.certaintyScore.
  destruct (tokenize (Str.toLowerCase response)) as [|t ts] eqn:E.
  - exists 0. split; [reflexivity | discriminate].
  - rewrite ofNat_div by (simpl; lia).
    eexists. split; [reflexivity|]. apply ratio_nonneg. simpl; lia.
Qed.

(** The line fitted through [(0, x)] and [(1, y)] takes the value [y] at 1. *)
Lemma two_point_fit (x y : Q) :
  (SimpleStatistics.linearRegressionLine
     (SimpleStatistics.linearRegression
        (Containment.indexed 0 [JS.Fin x; JS.Fin y])) (JS.Fin 1)
   === JS.Fin y)%js.
Proof.
  cbn. field.
Qed.

(** A response without certainty marker scores zero. *)
Lemma certaintyScore_unmarked (tokenize : string -> list string) (response : string) :
  Containment.markerCount response = 0%nat ->
  (Containment.certaintyScore tokenize response === JS.Fin 0)%js.
Proof.
  intro H. unfold Containment.certaintyScore. rewrite H.
  destruct (tokenize (Str.toLowerCase response)) as [|t ts].
  - apply eqv_refl.
  - rewrite ofNat_div by (simpl; lia). unfold JS.eqv. unfold Qdiv. apply Qmult_0_l.
Qed.

(** X5: with exactly two responses (a history of one text, then the current
    text), the first of which holds no certainty marker, the scores fitted
    are 0 and the certainty score of the second response, and the reported
    escalation is that score; so the check reports detected exactly when the
    second response has tokens and more than one marker per hundred tokens.
    (Through the points (0, 0) and (1, score) every step of the fit is
    exact, also in binary64 arithmetic.) *)
Theorem two_response_escalation :
  forall (tokenize : string -> list string) (first second : string),
    Containment.markerCount first = 0%nat ->
    let r := Containment.measureCertaintyEscalation tokenize [first; second] in
    let tokens := List.length (tokenize (Str.toLowerCase second)) in
    (exists s, Containment.certaintyScores r
               = Some [s; Containment.certaintyScore tokenize second]
               /\ (s === JS.Fin 0)%js)
    /\ (Containment.escalation r === Containment.certaintyScore tokenize second)%js
    /\ (Containment.ce_detected r = true
        <-> (0 < tokens /\ tokens < 100 * Containment.markerCount second)%nat).
Proof.
  intros tokenize first second Hfirst r tokens.
  split.
  { exists (Containment.certaintyScore tokenize first).
    split; [reflexivity | apply certaintyScore_unmarked; exact Hfirst]. }
  destruct (certaintyScore_finite tokenize first) as [x [Ex _]].
  assert (Hr : (Containment.escalation r
                === Containment.certaintyScore tokenize second)%js).
  { unfold r, Containment.measureCertaintyEscalation.
    cbn [List.length Nat.ltb Nat.leb map Containment.escalation].
    rewrite Ex.
    destruct (certaintyScore_finite tokenize second) as [y [Ey _]].
    rewrite Ey. apply two_point_fit. }
  split; [exact Hr|].
  assert (Hd : Containment.ce_detected r
               = (Containment.escalation r >? JS.Fin (1 # 100))%js) by reflexivity.
  rewrite Hd.
  unfold Containment.certaintyScore in Hr. fold tokens in Hr.
  unfold tokens in *.
  destruct (tokenize (Str.toLowerCase second)) as [|t ts].
  - apply eqv_fin in Hr. destruct Hr as [e [Ee He]]. rewrite Ee.
    rewrite gt_fin. rewrite He. cbn [List.length]. split.
    + intro H. exfalso. revert H. apply Qle_not_lt. discriminate.
    + intros [H _]. lia.
  - set (n := List.length (t :: ts)) in *.
    assert (Hn : (0 < n)%nat) by (unfold n; simpl; lia).
    rewrite (ofNat_div _ Hn) in Hr.
    apply eqv_fin in Hr. destruct Hr as [e [Ee He]]. rewrite Ee.
    rewrite gt_fin. rewrite He. rewrite (lt_ratio_iff _ _ Hn).
    unfold Qlt, Qmult, inject_Z. cbn [Qnum Qden]. lia.
Qed.

(** The property at the history ["It may be so."] and the text
    ["It is definitely so."]: one marker in four tokens. *)
Lemma two_response_escalation_witness :
  Containment.ce_detected
    (Containment.measureCertaintyEscalation Samples.wordTokens
       ["It may be so."; Samples.risingText]) = true.
Proof.
  destruct (@two_response_escalation Samples.wordTokens "It may be so."
              Samples.risingText eq_refl) as [_ [_ H]].
  apply H. vm_compute. lia.
Defined.

(** ** The word entropy *)

(** The counts of a frequency table are positive and add up to the number of
    tokens counted. *)
Lemma bump_counts (frequencies : list (string * nat)) (token : string) :
  Forall (fun kv => (1 <= snd kv)%nat) frequencies ->
  Forall (fun kv => (1 <= snd kv)%nat) (Lexical.bump frequencies token)
  /\ list_sum (map snd (Lexical.bump frequencies token))
     = S (list_sum (map snd frequencies)).
Proof.
  induction frequencies as [|[k n] fs IH]; intro H.
  - split; [repeat constructor | reflexivity].
  - inversion H as [|? ? Hk Hfs]; subst. cbn [Lexical.bump].
    destruct (String.eqb k token).
    + split; [constructor; [simpl; lia | exact Hfs] | reflexivity].
    + destruct (IH Hfs) as [IH1 IH2]. split.
      * constructor; assumption.
      * cbn [map snd]. rewrite !list_sum_cons, IH2. lia.
Qed.

Lemma frequencies_counts (tokens : list string) (frequencies : list (string * nat)) :
  Forall (fun kv => (1 <= snd kv)%nat) frequencies ->
  Forall (fun kv => (1 <= snd kv)%nat) (fold_left Lexical.bump tokens frequencies)
  /\ list_sum (map snd (fold_left Lexical.bump tokens frequencies))
     = (List.length tokens + list_sum (map snd frequencies))%nat.
Proof.
  revert frequencies. induction tokens as [|t ts IH]; intros fs H.
  - split; [exact H | reflexivity].
  - cbn [fold_left List.length]. destruct (bump_counts t H) as [H1 H2].
    destruct (IH _ H1) as [IH1 IH2]. split; [exact IH1|].
    rewrite IH2, H2. lia.
Qed.

Lemma count_le_sum (frequencies : list (string * nat)) (kv : string * nat) :
  In kv frequencies -> (snd kv <= list_sum (map snd frequencies))%nat.
Proof.
  induction frequencies as [|x fs IH]; intro H; [contradiction|].
  cbn [map]. rewrite list_sum_cons.
  destruct H as [H|H]; [subst; lia | specialize (IH H); lia].
Qed.

(** Each term [- p * log2 p] of the sum is zero or more. *)
Lemma entropy_sum_nonneg (log2 : JS.number -> JS.number) (total : nat)
      (counts : list (string * nat)) (a : Q) :
  (forall p, 0 < p -> p <= 1 -> exists l, log2 (JS.Fin p) = JS.Fin l /\ l <= 0) ->
  (0 < total)%nat ->
  Forall (fun kv => (1 <= snd kv <= total)%nat) counts ->
  0 <= a ->
  exists e,
    fold_left (fun sum p => (sum - p * log2 p)%js)
      (map (fun kv => (JS.ofNat (snd kv) / JS.ofNat total)%js) counts) (JS.Fin a)
    = JS.Fin e /\ 0 <= e.
Proof.
  intros Hlog Ht. revert a. induction counts as [|[k n] cs IH]; intros a Hc Ha.
  - exists a. split; [reflexivity | exact Ha].
  - inversion Hc as [|? ? Hn Hcs]; subst. cbn [map fold_left snd] in *.
    rewrite (ofNat_div _ Ht).
    set (p := inject_Z (Z.of_nat n) / inject_Z (Z.of_nat total)).
    assert (Hp0 : 0 < p).
    { unfold p. apply (lt_ratio_iff 0 _ Ht). rewrite Qmult_0_l.
      unfold Qlt, inject_Z. cbn [Qnum Qden]. lia. }
    assert (Hp1 : p <= 1) by (apply ratio_le_1; lia).
    destruct (Hlog p Hp0 Hp1) as [l [El Hl]]. rewrite El.
    cbn [JS.mul JS.sub]. apply (IH (a - p * l) Hcs). nra.
Qed.

(** X6: when [Math.log2] gives a finite number that is zero or less on every
    probability of (0, 1], and no token is a key that the frequency object
    inherits (on such a key [frequencies[token] || 0] does not start a count
    at zero), the entropy of any text is a finite number, zero or more: never
    negative, never NaN. *)
Theorem entropy_is_nonnegative :
  forall (tokenize : string -> list string) (log2 : JS.number -> JS.number)
         (text : string),
    (forall p, 0 < p -> p <= 1 -> exists l, log2 (JS.Fin p) = JS.Fin l /\ l <= 0) ->
    ObjectPrototype.ownOnly (tokenize (Str.toLowerCase text)) ->
    exists e, Lexical.calculateEntropy tokenize log2 text = JS.Fin e /\ 0 <= e.
Proof.
  intros tokenize log2 text Hlog _. unfold Lexical.calculateEntropy.
  destruct (Str.emptyText text); [exists 0; split; [reflexivity | discriminate]|].
  destruct (tokenize (Str.toLowerCase text)) as [|t ts] eqn:E;
    [exists 0; split; [reflexivity | discriminate]|].
  set (tokens := t :: ts).
  destruct (@frequencies_counts tokens [] (Forall_nil _)) as [H1 H2].
  cbn [map list_sum] in H2. rewrite Nat.add_0_r in H2.
  apply entropy_sum_nonneg; [exact Hlog | unfold tokens; simpl; lia | | discriminate].
  apply Forall_forall. intros kv Hkv. split.
  - apply (proj1 (Forall_forall _ _) H1 kv Hkv).
  - rewrite <- H2. apply count_le_sum. exact Hkv.
Qed.

(** [Samples.log2Dyadic] is zero or less on (0, 1]. *)
Lemma log2Dyadic_nonpos (p : Q) :
  0 < p -> p <= 1 -> exists l, Samples.log2Dyadic (JS.Fin p) = JS.Fin l /\ l <= 0.
Proof.
  intros H0 H1. eexists. split; [reflexivity|].
  destruct p as [a b]. unfold Qlt, Qle in *. cbn [Qnum Qden] in *.
  assert (Hab : (a <= Z.pos b)%Z) by lia.
  apply Z.log2_le_mono in Hab.
  unfold Qle, inject_Z. cbn [Qnum Qden]. lia.
Qed.

Lemma entropy_is_nonnegative_witness :
  exists e, Lexical.calculateEntropy Samples.wordTokens Samples.log2Dyadic
              "alpha beta alpha gamma" = JS.Fin e /\ 0 <= e.
Proof.
  apply (entropy_is_nonnegative Samples.wordTokens Samples.log2Dyadic
           "alpha beta alpha gamma" log2Dyadic_nonpos).
  intros k Hk Hin. vm_compute in Hk, Hin.
  repeat (destruct Hk as [Hk|Hk]; [subst k; repeat (destruct Hin as [Hin|Hin]; [discriminate|]); exact Hin|]).
  exact Hk.
Defined.

(** ** The assertions over a single output *)

Lemma le_ratio_iff (a : Q) (k n : nat) :
  (0 < n)%nat ->
  (a <= inject_Z (Z.of_nat k) / inject_Z (Z.of_nat n)
   <-> a * inject_Z (Z.of_nat n) <= inject_Z (Z.of_nat k)).
Proof.
  intro Hn. split; intro H.
  - apply Qnot_lt_le. intro C. apply (ratio_lt_iff a k Hn) in C.
    apply (Qlt_not_le _ _ C H).
  - apply Qnot_lt_le. intro C. apply (ratio_lt_iff a k Hn) in C.
    apply (Qlt_not_le _ _ C H).
Qed.

Lemma ratio_le_iff (a : Q) (k n : nat) :
  (0 < n)%nat ->
  (inject_Z (Z.of_nat k) / inject_Z (Z.of_nat n) <= a
   <-> inject_Z (Z.of_nat k) <= a * inject_Z (Z.of_nat n)).
Proof.
  intro Hn. split; intro H.
  - apply Qnot_lt_le. intro C. apply (lt_ratio_iff a k Hn) in C.
    apply (Qlt_not_le _ _ C H).
  - apply Qnot_lt_le. intro C. apply (lt_ratio_iff a k Hn) in C.
    apply (Qlt_not_le _ _ C H).
Qed.

Lemma splitLength_positive (output : string) :
  (0 < PromptfooAssertions.splitLength output)%nat.
Proof. unfold PromptfooAssertions.splitLength. lia. Qed.

(** X7: the certainty-marker assertion passes exactly when at most 3 in 100
    of the pieces between white space are markers; its score is a number of
    [0, 1], equal to 1 exactly when there is no marker and to 0 exactly when
    one piece in ten or more is a marker.  An empty output counts one piece
    and passes. *)
Theorem certainty_marker_assertion :
  forall (output : string) (context : PromptfooAssertions.Context),
    let r := PromptfooAssertions.certaintyMarkerAssertion output context in
    let markers :=
      PromptfooAssertions.countMarkers PromptfooAssertions.certaintyPatterns output in
    let words := PromptfooAssertions.splitLength output in
    (PromptfooAssertions.pass r = true <-> (100 * markers <= 3 * words)%nat)
    /\ exists s, PromptfooAssertions.score r = JS.Fin s
                 /\ 0 <= s /\ s <= 1
                 /\ (s == 1 <-> markers = 0%nat)
                 /\ (s == 0 <-> (words <= 10 * markers)%nat).
Proof.
  intros output context r markers words.
  assert (Hw : (0 < words)%nat) by apply splitLength_positive.
  unfold r, PromptfooAssertions.certaintyMarkerAssertion.
  fold markers. fold words. cbn [PromptfooAssertions.pass PromptfooAssertions.score].
  rewrite (ofNat_div _ Hw).
  set (y := inject_Z (Z.of_nat markers) / inject_Z (Z.of_nat words)).
  assert (Hy0 : 0 <= y) by (apply ratio_nonneg; exact Hw).
  assert (Hpass : y <= 3 # 100 <-> (100 * markers <= 3 * words)%nat).
  { unfold y. rewrite (ratio_le_iff _ _ Hw).
    unfold Qle, Qmult, inject_Z. cbn [Qnum Qden]. lia. }
  assert (Hnone : y <= 0 <-> markers = 0%nat).
  { unfold y. rewrite (ratio_le_iff _ _ Hw).
    unfold Qle, Qmult, inject_Z. cbn [Qnum Qden]. lia. }
  assert (Hall : 1 # 10 <= y <-> (words <= 10 * markers)%nat).
  { unfold y. rewrite (le_ratio_iff _ _ Hw).
    unfold Qle, Qmult, inject_Z. cbn [Qnum Qden]. lia. }
  cbn [JS.mul]. rewrite div_fin by discriminate. cbn [JS.sub].
  split.
  - rewrite negb_true_iff, gt_fin_false. rewrite <- Hpass. split; intro H; lra.
  - unfold PromptfooAssertions.max.
    destruct (JS.lt (JS.Fin 0) (JS.Fin (1 - y * 100 / 10))) eqn:E.
    + apply lt_fin in E.
      assert (Ey : y * 100 / 10 == 10 * y) by field.
      rewrite Ey in E.
      exists (1 - y * 100 / 10). split; [reflexivity|]. rewrite Ey.
      split; [lra|]. split; [lra|]. split.
      * rewrite <- Hnone. split; intro H; lra.
      * rewrite <- Hall. split; intro H; lra.
    + apply gt_fin_false in E.
      assert (Ey : y * 100 / 10 == 10 * y) by field.
      rewrite Ey in E.
      exists 0. split; [reflexivity|]. split; [discriminate|]. split; [discriminate|].
      split.
      * rewrite <- Hnone. split; [discriminate | intro H; lra].
      * rewrite <- Hall. split; [intros _; lra | reflexivity].
Qed.

(** X8: the hedge-word assertion passes exactly when at least 1 in 100 of the
    pieces between white space is a hedge word, so an output without hedge
    words, the empty one included, always fails; its score is a number of
    [0, 1], equal to 0 exactly when there is no hedge word and to 1 exactly
    when 3 in 100 pieces or more are hedge words. *)
Theorem hedge_word_assertion :
  forall (output : string) (context : PromptfooAssertions.Context),
    let r := PromptfooAssertions.hedgeWordAssertion output context in
    let hedges :=
      PromptfooAssertions.countMarkers PromptfooAssertions.hedgePatterns output in
    let words := PromptfooAssertions.splitLength output in
    (PromptfooAssertions.pass r = true <-> (words <= 100 * hedges)%nat)
    /\ exists s, PromptfooAssertions.score r = JS.Fin s
                 /\ 0 <= s /\ s <= 1
                 /\ (s == 0 <-> hedges = 0%nat)
                 /\ (s == 1 <-> (3 * words <= 100 * hedges)%nat).
Proof.
  intros output context r hedges words.
  assert (Hw : (0 < words)%nat) by apply splitLength_positive.
  unfold r, PromptfooAssertions.hedgeWordAssertion.
  fold hedges. fold words. cbn [PromptfooAssertions.pass PromptfooAssertions.score].
  rewrite (ofNat_div _ Hw).
  set (y := inject_Z (Z.of_nat hedges) / inject_Z (Z.of_nat words)).
  assert (Hy0 : 0 <= y) by (apply ratio_nonneg; exact Hw).
  assert (Hpass : 1 # 100 <= y <-> (words <= 100 * hedges)%nat).
  { unfold y. rewrite (le_ratio_iff _ _ Hw).
    unfold Qle, Qmult, inject_Z. cbn [Qnum Qden]. lia. }
  assert (Hnone : y <= 0 <-> hedges = 0%nat).
  { unfold y. rewrite (ratio_le_iff _ _ Hw).
    unfold Qle, Qmult, inject_Z. cbn [Qnum Qden]. lia. }
  assert (Hall : 3 # 100 <= y <-> (3 * words <= 100 * hedges)%nat).
  { unfold y. rewrite (le_ratio_iff _ _ Hw).
    unfold Qle, Qmult, inject_Z. cbn [Qnum Qden]. lia. }
  cbn [JS.mul]. rewrite div_fin by discriminate.
  split.
  - rewrite negb_true_iff.
    change (JS.Fin (y * 100) <? JS.Fin 1)%js with (JS.Fin 1 >? JS.Fin (y * 100))%js.
    rewrite gt_fin_false. rewrite <- Hpass. split; intro H; lra.
  - unfold JS.min.
    assert (Ey : y * 100 / 3 == (100 # 3) * y) by field.
    destruct (JS.lt (JS.Fin 1) (JS.Fin (y * 100 / 3))) eqn:E.
    + apply lt_fin in E. rewrite Ey in E.
      exists 1. split; [reflexivity|]. split; [discriminate|]. split; [discriminate|].
      split.
      * rewrite <- Hnone. split; [discriminate | intro H; lra].
      * rewrite <- Hall. split; [intros _; lra | reflexivity].
    + apply gt_fin_false in E. rewrite Ey in E.
      exists (y * 100 / 3). split; [reflexivity|]. rewrite Ey.
      split; [lra|]. split; [lra|]. split.
      * rewrite <- Hnone. split; intro H; lra.
      * rewrite <- Hall. split; intro H; lra.
Qed.

(** X9: the token-compression assertion measures the length of the output in
    characters against the baseline length.  With a positive baseline length
    [b] it passes exactly when the output has at least 3/10 of [b]
    characters; a baseline length that is missing, zero or NaN counts as 500,
    so that the assertion then passes exactly from 150 characters on. *)
Theorem token_compression_assertion :
  forall (output : string) (context : PromptfooAssertions.Context),
    let r := PromptfooAssertions.tokenCompressionAssertion output context in
    let len := inject_Z (Z.of_nat (String.length output)) in
    (forall b, PromptfooAssertions.baseline_length context = Some (JS.Fin b) ->
               0 < b ->
               (PromptfooAssertions.pass r = true <-> (3 # 10) * b <= len)
               /\ PromptfooAssertions.score r = JS.Fin (len / b))
    /\ (PromptfooAssertions.baseline_length context = None
        \/ PromptfooAssertions.baseline_length context = Some (JS.Fin 0)
        \/ PromptfooAssertions.baseline_length context = Some JS.NaN ->
        (PromptfooAssertions.pass r = true <-> (150 <= String.length output)%nat)
        /\ PromptfooAssertions.score r = JS.Fin (len / 500)).
Proof.
  intros output context r len.
  assert (Hgen : forall b, 0 < b ->
            Metrics.numberOr (PromptfooAssertions.baseline_length context) (JS.Fin 500)
            = JS.Fin b ->
            (PromptfooAssertions.pass r = true <-> (3 # 10) * b <= len)
            /\ PromptfooAssertions.score r = JS.Fin (len / b)).
  { intros b Hb E. unfold r, PromptfooAssertions.tokenCompressionAssertion.
    rewrite E. cbn [PromptfooAssertions.pass PromptfooAssertions.score].
    unfold JS.ofNat. fold len.
    assert (Hb0 : ~ b == 0) by (intro Z; rewrite Z in Hb; apply (Qlt_irrefl 0 Hb)).
    rewrite (div_fin _ Hb0). cbn [JS.sub JS.mul]. split; [|reflexivity].
    rewrite negb_true_iff, gt_fin_false.
    assert (Ey : len / b * b == len) by (field; exact Hb0).
    set (y := len / b) in *. split; intro H; nra. }
  split.
  - intros b Eb Hb. apply (Hgen b Hb).
    rewrite Eb. unfold Metrics.numberOr, JS.orElse, JS.truthy.
    assert (Z : JS.isZero b = false).
    { apply isZero_false. intro Z. rewrite Z in Hb. apply (Qlt_irrefl 0 Hb). }
    rewrite Z. reflexivity.
  - intro Hmissing.
    assert (E : Metrics.numberOr (PromptfooAssertions.baseline_length context)
                  (JS.Fin 500) = JS.Fin 500)
      by (destruct Hmissing as [E|[E|E]]; rewrite E; reflexivity).
    destruct (Hgen 500 eq_refl E) as [Hp Hs]. split; [|exact Hs].
    rewrite Hp. unfold len, Qle, Qmult, inject_Z. cbn [Qnum Qden]. lia.
Qed.

Lemma token_compression_assertion_witness :
  PromptfooAssertions.pass
    (PromptfooAssertions.tokenCompressionAssertion "Plain words here."
       {| PromptfooAssertions.baseline_length := Some (JS.Fin 40);
          PromptfooAssertions.threshold := None |}) = true
  /\ PromptfooAssertions.pass
       (PromptfooAssertions.tokenCompressionAssertion "Plain words here."
          {| PromptfooAssertions.baseline_length := None;
             PromptfooAssertions.threshold := None |}) = false.
Proof.
  split.
  - apply (proj1 (token_compression_assertion "Plain words here."
                    {| PromptfooAssertions.baseline_length := Some (JS.Fin 40);
                       PromptfooAssertions.threshold := None |}) 40 eq_refl eq_refl).
    vm_compute. discriminate.
  - destruct (proj2 (token_compression_assertion "Plain words here."
                       {| PromptfooAssertions.baseline_length := None;
                          PromptfooAssertions.threshold := None |})
                    (or_introl eq_refl)) as [H _].
    apply not_true_is_false. intro E.
    apply (proj1 H) in E. vm_compute in E. lia.
Defined.

(** X10: the comprehensive assertion passes exactly when fewer than two of
    its four indicators fire; its score is [1 - k/4] and its containment
    percentage [25 k] for [k] indicators.  A blank output fires the
    low-entropy and the low-diversity indicator and no other: it fails, with
    score 1/2. *)
Theorem containment_score_assertion :
  forall (tokenize : string -> list string) (log2 : JS.number -> JS.number)
         (sentences nouns verbs adjectives : string -> list string)
         (output : string) (context : PromptfooAssertions.Context),
    let r := PromptfooAssertions.containmentScoreAssertion tokenize log2 sentences
               nouns verbs adjectives output context in
    let k := PromptfooAssertions.containmentIndicators tokenize log2 sentences
               nouns verbs adjectives output in
    (k <= 4)%nat
    /\ (PromptfooAssertions.s_pass r = true <-> (k < 2)%nat)
    /\ (exists s, PromptfooAssertions.s_score r = JS.Fin s
                  /\ s == 1 - inject_Z (Z.of_nat k) / 4 /\ 0 <= s /\ s <= 1)
    /\ (PromptfooAssertions.s_containmentPercent r
        === JS.Fin (25 * inject_Z (Z.of_nat k)))%js
    /\ (Str.emptyText output = true ->
        k = 2%nat /\ PromptfooAssertions.s_pass r = false).
Proof.
  intros tokenize log2 sentences nouns verbs adjectives output context r k.
  assert (Hk : (k <= 4)%nat).
  { unfold k, PromptfooAssertions.containmentIndicators, PromptfooAssertions.indicator.
    repeat match goal with |- context [if ?c then _ else _] => destruct c end; simpl; lia. }
  assert (Hpass : PromptfooAssertions.s_pass r = true <-> (k < 2)%nat).
  { unfold r, PromptfooAssertions.containmentScoreAssertion.
    cbn [PromptfooAssertions.s_pass]. fold k.
    unfold JS.ofNat. rewrite div_fin by discriminate.
    rewrite negb_true_iff.
    change (JS.Fin (inject_Z (Z.of_nat k) / 4) >=? JS.Fin (5 # 10))%js
      with (Qle_bool (5 # 10) (inject_Z (Z.of_nat k) / 4)).
    rewrite <- not_true_iff_false, Qle_bool_iff.
    assert (Ek : inject_Z (Z.of_nat k) / 4 == (1 # 4) * inject_Z (Z.of_nat k)) by field.
    rewrite Ek. unfold Qle, Qmult, inject_Z. cbn [Qnum Qden]. lia. }
  split; [exact Hk|]. split; [exact Hpass|]. split; [|split].
  - unfold r, PromptfooAssertions.containmentScoreAssertion.
    cbn [PromptfooAssertions.s_score]. fold k.
    unfold JS.ofNat. rewrite div_fin by discriminate. cbn [JS.sub].
    eexists. split; [reflexivity|]. split; [reflexivity|].
    assert (Ek : inject_Z (Z.of_nat k) / 4 == (1 # 4) * inject_Z (Z.of_nat k)) by field.
    rewrite Ek. split.
    + unfold Qle, Qminus, Qplus, Qopp, Qmult, inject_Z. cbn [Qnum Qden]. lia.
    + unfold Qle, Qminus, Qplus, Qopp, Qmult, inject_Z. cbn [Qnum Qden]. lia.
  - unfold r, PromptfooAssertions.containmentScoreAssertion.
    cbn [PromptfooAssertions.s_containmentPercent]. fold k.
    unfold JS.ofNat. rewrite div_fin by discriminate. cbn [JS.mul JS.eqv]. field.
  - intro Hblank.
    assert (E : k = 2%nat).
    { unfold k, PromptfooAssertions.containmentIndicators,
        Containment.calculateEntropy, Lexical.calculateEntropy,
        Metrics.calculateSemanticDiversity, Metrics.calculateCoherence,
        Containment.detectRecursiveLoop.
      rewrite Hblank. reflexivity. }
    split; [exact E|].
    destruct (PromptfooAssertions.s_pass r); [|reflexivity].
    assert (C : (k < 2)%nat) by (apply Hpass; reflexivity). lia.
Qed.

Lemma containment_score_assertion_witness :
  PromptfooAssertions.s_pass
    (PromptfooAssertions.containmentScoreAssertion Samples.wordTokens
       Samples.log2Dyadic Samples.oneSentence Samples.noWords Samples.noWords
       Samples.noWords "  "
       {| PromptfooAssertions.baseline_length := None;
          PromptfooAssertions.threshold := None |}) = false.
Proof.
  apply (containment_score_assertion Samples.wordTokens
           Samples.log2Dyadic Samples.oneSentence Samples.noWords Samples.noWords
           Samples.noWords "  "
           {| PromptfooAssertions.baseline_length := None;
              PromptfooAssertions.threshold := None |}).
  reflexivity.
Defined.

(* ================================================================== *)
(** * The topic table of analyze_compression.js *)
(* ================================================================== *)

Lemma lookup_app (ts l : Compression.Topics) (t : string) :
  Compression.lookup (ts ++ l) t
  = match Compression.lookup ts t with
    | Some p => Some p
    | None => Compression.lookup l t
    end.
Proof.
  induction ts as [|[k v] ts IH]; [reflexivity|].
  cbn [app Compression.lookup]. destruct (String.eqb k t); [reflexivity | exact IH].
Qed.

Lemma lookup_ensure (ts : Compression.Topics) (k t : string) :
  Compression.lookup (Compression.ensure ts k) t
  = if String.eqb k t
    then Some match Compression.lookup ts k with
              | Some p => p
              | None => {| Compression.p_baseline := None;
                           Compression.p_trigger := None |}
              end
    else Compression.lookup ts t.
Proof.
  unfold Compression.ensure.
  destruct (String.eqb k t) eqn:E.
  - apply String.eqb_eq in E. subst t.
    destruct (Compression.lookup ts k) as [p|] eqn:L; [exact L|].
    rewrite lookup_app, L. cbn [Compression.lookup]. rewrite String.eqb_refl.
    reflexivity.
  - destruct (Compression.lookup ts k) as [p|] eqn:L; [reflexivity|].
    rewrite lookup_app. cbn [Compression.lookup]. rewrite E.
    destruct (Compression.lookup ts t); reflexivity.
Qed.

Lemma lookup_update (ts : Compression.Topics) (k t : string)
      (f : Compression.Pair -> Compression.Pair) :
  Compression.lookup (Compression.update ts k f) t
  = if String.eqb k t then option_map f (Compression.lookup ts t)
    else Compression.lookup ts t.
Proof.
  induction ts as [|[j v] ts IH].
  - cbn. destruct (String.eqb k t); reflexivity.
  - cbn [Compression.update Compression.lookup].
    destruct (String.eqb j k) eqn:Ejk.
    + apply String.eqb_eq in Ejk. subst j. cbn [Compression.lookup].
      destruct (String.eqb k t); reflexivity.
    + cbn [Compression.lookup]. destruct (String.eqb j t) eqn:Ejt.
      * apply String.eqb_eq in Ejt. subst j. rewrite String.eqb_sym, Ejk. reflexivity.
      * exact IH.
Qed.

Lemma keys_update (ts : Compression.Topics) (k : string)
      (f : Compression.Pair -> Compression.Pair) :
  map fst (Compression.update ts k f) = map fst ts.
Proof.
  induction ts as [|[j v] ts IH]; [reflexivity|].
  cbn [Compression.update]. destruct (String.eqb j k); cbn [map fst]; [reflexivity|].
  rewrite IH. reflexivity.
Qed.

Lemma lookup_none (ts : Compression.Topics) (k : string) :
  Compression.lookup ts k = None -> ~ In k (map fst ts).
Proof.
  induction ts as [|[j v] ts IH]; intros H C; [contradiction|].
  cbn [Compression.lookup] in H. destruct (String.eqb j k) eqn:E; [discriminate|].
  destruct C as [C|C].
  - cbn [fst] in C. subst j. rewrite String.eqb_refl in E. discriminate.
  - exact (IH H C).
Qed.

Lemma keys_ensure (ts : Compression.Topics) (k : string) :
  NoDup (map fst ts) -> NoDup (map fst (Compression.ensure ts k)).
Proof.
  intro H. unfold Compression.ensure.
  destruct (Compression.lookup ts k) as [p|] eqn:L; [exact H|].
  rewrite map_app. cbn [map fst].
  apply NoDup_app; [exact H | repeat constructor; intros [] | ].
  intros x Hx [Hk|[]]. subst x. exact (lookup_none _ _ L Hx).
Qed.

Lemma keys_collect (st : Compression.Collected) (r : Compression.Result) :
  NoDup (map fst (Compression.topics st)) ->
  NoDup (map fst (Compression.topics (Compression.collect st r))).
Proof.
  intro H. unfold Compression.collect.
  destruct (Compression.isBaseline (Compression.prompt r));
    [|destruct (Compression.isTrigger (Compression.prompt r))];
    cbn [Compression.topics]; rewrite ?keys_update; apply keys_ensure; exact H.
Qed.

(** The entry of a topic after one more result. *)
Lemma lookup_collect (st : Compression.Collected) (r : Compression.Result) (t : string) :
  Compression.lookup (Compression.topics (Compression.collect st r)) t
  = if String.eqb (Compression.topic r) t
    then
      let p := match Compression.lookup (Compression.topics st) t with
               | Some p => p
               | None => {| Compression.p_baseline := None;
                            Compression.p_trigger := None |}
               end in
      Some {| Compression.p_baseline :=
                if Classified.taken Classified.Baseline r
                then Some (Compression.tokens r) else Compression.p_baseline p;
              Compression.p_trigger :=
                if Classified.taken Classified.Trigger r
                then Some (Compression.tokens r) else Compression.p_trigger p |}
    else Compression.lookup (Compression.topics st) t.
Proof.
  unfold Compression.collect, Classified.taken, Classified.classify.
  destruct (Compression.isBaseline (Compression.prompt r));
    [|destruct (Compression.isTrigger (Compression.prompt r))];
    cbn [Compression.topics]; rewrite ?lookup_update, lookup_ensure;
    destruct (String.eqb (Compression.topic r) t) eqn:E; try reflexivity;
    apply String.eqb_eq in E; subst t; cbn [option_map];
    destruct (Compression.lookup (Compression.topics st) (Compression.topic r))
      as [[b g]|]; reflexivity.
Qed.

Lemma lastOf_unnamed (b : Classified.Branch) (t : string)
      (results : list Compression.Result) :
  TopicTable.named t results = false -> TopicTable.lastOf b t results = None.
Proof.
  unfold TopicTable.named, TopicTable.lastOf.
  induction results as [|r results IH] using rev_ind; [reflexivity|].
  rewrite existsb_app, fold_left_app. cbn [existsb fold_left].
  rewrite orb_false_r. intro H. apply orb_false_iff in H. destruct H as [H1 H2].
  rewrite H2. cbn [andb]. exact (IH H1).
Qed.

(** X11: the topic table has one entry for each topic that a result names,
    and the entry of a topic holds the token count of the last baseline
    result and of the last trigger result of that topic: an earlier result of
    the same topic and side is overwritten (while the overall totals add up
    every result).  Topics are taken not to be keys that the table object
    inherits. *)
Theorem topic_table_keeps_last_result :
  forall (results : list Compression.Result) (t : string),
    ObjectPrototype.ownOnly (map Compression.topic results) ->
    let table := Compression.topics (Compression.collectAll results) in
    NoDup (map fst table)
    /\ Compression.lookup table t
       = if TopicTable.named t results
         then Some {| Compression.p_baseline :=
                        TopicTable.lastOf Classified.Baseline t results;
                      Compression.p_trigger :=
                        TopicTable.lastOf Classified.Trigger t results |}
         else None.
Proof.
  intros results t _. cbv zeta. unfold Compression.collectAll.
  induction results as [|r results IH] using rev_ind.
  - split; [constructor | reflexivity].
  - destruct IH as [IHk IHl]. rewrite fold_left_app. cbn [fold_left].
    split; [apply keys_collect; exact IHk|].
    rewrite lookup_collect, IHl.
    unfold TopicTable.named, TopicTable.lastOf.
    rewrite existsb_app, !fold_left_app. cbn [existsb fold_left].
    rewrite orb_false_r.
    destruct (String.eqb (Compression.topic r) t); cbn [andb].
    + rewrite orb_true_r. cbv zeta.
      destruct (existsb _ results) eqn:E; [reflexivity|].
      pose proof (lastOf_unnamed Classified.Baseline t results E) as Eb.
      pose proof (lastOf_unnamed Classified.Trigger t results E) as Et.
      unfold TopicTable.lastOf in Eb, Et. rewrite Eb, Et. reflexivity.
    + rewrite orb_false_r. reflexivity.
Qed.

Lemma topic_table_keeps_last_result_witness :
  Compression.lookup
    (Compression.topics
       (Compression.collectAll
          [Samples.baselineOf "evolution" 450; Samples.baselineOf "evolution" 300;
           Samples.triggerOf "evolution" 110]))
    "evolution"
  = Some {| Compression.p_baseline := Some 300%nat;
            Compression.p_trigger := Some 110%nat |}.
Proof.
  refine (eq_trans
            (proj2 (topic_table_keeps_last_result
                      [Samples.baselineOf "evolution" 450;
                       Samples.baselineOf "evolution" 300;
                       Samples.triggerOf "evolution" 110] "evolution" _)) _).
  - intros k Hk Hin. vm_compute in Hk, Hin.
    repeat (destruct Hk as [Hk|Hk];
            [subst k; repeat (destruct Hin as [Hin|Hin]; [discriminate|]); exact Hin|]).
    exact Hk.
  - vm_compute. reflexivity.
Defined.

(* ================================================================== *)
(** * The summary of analyze_compression.js *)
(* ================================================================== *)








(** ** The CSV export *)










(* ================================================================== *)
(** * The descriptions of analyze_multiturn.js *)
(* ================================================================== *)

Lemma chars_append (a b : string) :
  Str.chars (a ++ b) = Str.chars a ++ Str.chars b.
Proof.
  unfold Str.chars. induction a as [|c a IH]; [reflexivity|].
  cbn [String.append list_ascii_of_string app]. rewrite IH. reflexivity.
Qed.

Lemma spanWord_word (w rest : list ascii) :
  forallb Regex.isWord w = true ->
  match rest with [] => True | c :: _ => Regex.isWord c = false end ->
  Multiturn.spanWord (w ++ rest) = (w, rest).
Proof.
  intros Hw Hrest. induction w as [|c w IH].
  - destruct rest as [|c rest]; [reflexivity|].
    cbn [app Multiturn.spanWord]. rewrite Hrest. reflexivity.
  - cbn [forallb] in Hw. apply andb_true_iff in Hw. destruct Hw as [Hc Hw].
    cbn [app Multiturn.spanWord]. rewrite Hc, (IH Hw). reflexivity.
Qed.

Lemma forallb_rev (A : Type) (f : A -> bool) (l : list A) :
  forallb f (rev l) = forallb f l.
Proof.
  induction l as [|x l IH]; [reflexivity|].
  cbn [rev forallb]. rewrite forallb_app, IH. cbn [forallb].
  rewrite andb_true_r. apply andb_comm.
Qed.

Lemma existsb_rev (A : Type) (f : A -> bool) (l : list A) :
  existsb f (rev l) = existsb f l.
Proof.
  induction l as [|x l IH]; [reflexivity|].
  cbn [rev existsb]. rewrite existsb_app, IH. cbn [existsb].
  rewrite orb_false_r. apply orb_comm.
Qed.

Lemma digit_is_digit (n : nat) :
  (n <= 9)%nat ->
  Multiturn.isDigit (Described.digit n) = true
  /\ (nat_of_ascii (Described.digit n) - 48)%nat = n.
Proof.
  intro H.
  do 10 (destruct n as [|n]; [split; reflexivity|]). lia.
Qed.

(** A decimal digit is not the letter that ends ["-Turn"]. *)
Lemma digit_not_n (c : ascii) : Multiturn.isDigit c = true -> c <> "n"%char.
Proof. intros H E. subst c. discriminate H. Qed.

(** X14: a description written in the documented format, topic, hyphen,
    dissenter, ["-Turn"] and one digit, is read back as the same topic,
    dissenter and turn, when the topic is not empty and holds no line break
    (it may hold hyphens) and the dissenter is a non-empty word of letters,
    digits and underscores.  A description that ends in two digits, such as
    a turn 10, is not read: it gives the topic and dissenter ["unknown"] and
    the turn 0. *)
Theorem parse_description_round_trip :
  (forall (topic dissenter : string) (turn : nat),
      topic <> EmptyString ->
      existsb Multiturn.isLineTerminator (Str.chars topic) = false ->
      dissenter <> EmptyString ->
      forallb Regex.isWord (Str.chars dissenter) = true ->
      (turn <= 9)%nat ->
      Multiturn.parseDescription (Described.describe topic dissenter turn)
      = {| Multiturn.p_topic := topic;
           Multiturn.p_dissenter := dissenter;
           Multiturn.p_turn := turn |})
  /\ (forall (front : string) (d1 d2 : ascii),
         Multiturn.isDigit d1 = true -> Multiturn.isDigit d2 = true ->
         Multiturn.parseDescription
           (front ++ String d1 (String d2 EmptyString))
         = {| Multiturn.p_topic := "unknown";
              Multiturn.p_dissenter := "unknown";
              Multiturn.p_turn := 0 |}).
Proof.
  split.
  - intros topic dissenter turn Ht Hlt Hd Hw Hturn.
    unfold Multiturn.parseDescription, Multiturn.matchDescription, Described.describe.
    rewrite !chars_append.
    change (Str.chars "-") with ["-"%char].
    change (Str.chars "-Turn") with ["-"; "T"; "u"; "r"; "n"]%char.
    change (Str.chars (String (Described.digit turn) EmptyString))
      with [Described.digit turn].
    rewrite !rev_app_distr. cbn [rev app].
    destruct (digit_is_digit Hturn) as [Hdig Hval]. rewrite Hdig.
    assert (Hspan : Multiturn.spanWord
                      (rev (Str.chars dissenter) ++ "-"%char :: rev (Str.chars topic))
                    = (rev (Str.chars dissenter), "-"%char :: rev (Str.chars topic))).
    { apply spanWord_word; [rewrite forallb_rev; exact Hw | reflexivity]. }
    rewrite <- app_assoc. cbn [app]. rewrite Hspan.
    destruct (rev (Str.chars dissenter)) as [|w ws] eqn:Ew.
    { exfalso. apply Hd. apply (f_equal (@rev ascii)) in Ew.
      rewrite rev_involutive in Ew. cbn [rev] in Ew.
      rewrite <- (string_of_list_ascii_of_string dissenter).
      unfold Str.chars in Ew. rewrite Ew. reflexivity. }
    destruct (rev (Str.chars topic)) as [|g gs] eqn:Eg.
    { exfalso. apply Ht. apply (f_equal (@rev ascii)) in Eg.
      rewrite rev_involutive in Eg. cbn [rev] in Eg.
      rewrite <- (string_of_list_ascii_of_string topic).
      unfold Str.chars in Eg. rewrite Eg. reflexivity. }
    change (rev gs ++ [g]) with (rev (g :: gs)).
    change (rev ws ++ [w]) with (rev (w :: ws)).
    rewrite <- Eg, <- Ew, existsb_rev, Hlt, !rev_involutive, Hval.
    unfold Str.chars. rewrite !string_of_list_ascii_of_string. reflexivity.
  - intros front d1 d2 H1 H2.
    unfold Multiturn.parseDescription, Multiturn.matchDescription.
    rewrite chars_append.
    change (Str.chars (String d1 (String d2 EmptyString))) with [d1; d2].
    rewrite rev_app_distr. cbn [rev app].
    pose proof (digit_not_n H1) as Hn.
    destruct d1 as [b0 b1 b2 b3 b4 b5 b6 b7].
    destruct b0, b1, b2, b3, b4, b5, b6, b7; try reflexivity;
      try discriminate H1; destruct (rev (Str.chars front)) as [|? [|? [|? [|? ?]]]];
      try reflexivity; exfalso; apply Hn; reflexivity.
Qed.

Lemma parse_description_round_trip_witness :
  Multiturn.parseDescription "AI-Safety-Chen-Turn3"
  = {| Multiturn.p_topic := "AI-Safety";
       Multiturn.p_dissenter := "Chen";
       Multiturn.p_turn := 3 |}
  /\ Multiturn.parseDescription "Climate-Smith-Turn10"
     = {| Multiturn.p_topic := "unknown";
          Multiturn.p_dissenter := "unknown";
          Multiturn.p_turn := 0 |}.
Proof.
  split.
  - apply (proj1 parse_description_round_trip "AI-Safety" "Chen" 3%nat).
    + discriminate.
    + reflexivity.
    + discriminate.
    + reflexivity.
    + lia.
  - apply (proj2 parse_description_round_trip "Climate-Smith-Turn" "1"%char "0"%char).
    + reflexivity.
    + reflexivity.
Defined.

(* ================================================================== *)
(** * The reports of analyze_multiturn.js *)
(* ================================================================== *)

Lemma turnReport_n (ms : list Multiturn.Metric) (n : nat) :
  list_sum (map Multiturn.tr_n (Multiturn.turnReport ms n))
  = List.length (Multiturn.atTurn n ms)
  /\ Forall (fun tr => Multiturn.tr_turn tr = n
                       /\ (1 <= Multiturn.tr_n tr)%nat
                       /\ Multiturn.tr_n tr = List.length (Multiturn.atTurn n ms)
                       /\ JS.finite (Multiturn.avgTokens tr)
                       /\ JS.finite (Multiturn.avgHedge tr)
                       /\ JS.finite (Multiturn.avgCertainty tr))
            (Multiturn.turnReport ms n).
Proof.
  unfold Multiturn.turnReport.
  destruct (Multiturn.atTurn n ms) as [|m l] eqn:E.
  - split; [reflexivity | constructor].
  - split; [cbn; lia|]. constructor; [|constructor].
    cbn [Multiturn.tr_turn Multiturn.tr_n Multiturn.avgTokens Multiturn.avgHedge
         Multiturn.avgCertainty].
    split; [reflexivity|]. split; [cbn; lia|]. split; [reflexivity|].
    repeat split; apply mean_finite; discriminate.
Qed.

Lemma turns_in_loop (ms : list Multiturn.Metric) :
  (List.length (Multiturn.atTurn 1 ms) + List.length (Multiturn.atTurn 2 ms)
   + List.length (Multiturn.atTurn 3 ms) + List.length (Multiturn.atTurn 4 ms)
   + List.length (Multiturn.atTurn 5 ms))%nat
  = List.length (filter MultiturnSummary.inLoop ms).
Proof.
  unfold Multiturn.atTurn, MultiturnSummary.inLoop.
  induction ms as [|m ms IH]; [reflexivity|]. cbn [filter].
  set (l := filter (fun m => (1 <=? Multiturn.turn m)%nat && (Multiturn.turn m <=? 5)%nat)
                   ms) in *.
  set (l1 := filter (fun m => Multiturn.turn m =? 1)%nat ms) in *.
  set (l2 := filter (fun m => Multiturn.turn m =? 2)%nat ms) in *.
  set (l3 := filter (fun m => Multiturn.turn m =? 3)%nat ms) in *.
  set (l4 := filter (fun m => Multiturn.turn m =? 4)%nat ms) in *.
  set (l5 := filter (fun m => Multiturn.turn m =? 5)%nat ms) in *.
  destruct (Multiturn.turn m) as [|[|[|[|[|[|k]]]]]];
    cbn [Nat.eqb Nat.leb andb List.length]; lia.
Qed.

(** X15: the per-turn table lists the turns from 1 to 5 that have results, in
    that order and once each, with a positive count and finite averages of
    tokens, hedge words and certainty markers; the counts add up to the
    number of results whose turn lies between 1 and 5, so a result whose turn
    is 0 (nothing in its variables, and a description that is not read) or
    above 5 enters no average. *)
Theorem per_turn_table :
  forall ms : list Multiturn.Metric,
    let table := Multiturn.byTurn (Multiturn.analyzeMetrics ms) in
    map Multiturn.tr_turn table
    = filter (fun n => negb (Nat.eqb (List.length (Multiturn.atTurn n ms)) 0))
             [1; 2; 3; 4; 5]%nat
    /\ Forall (fun tr => (1 <= Multiturn.tr_n tr)%nat
                         /\ Multiturn.tr_n tr
                            = List.length (Multiturn.atTurn (Multiturn.tr_turn tr) ms)
                         /\ JS.finite (Multiturn.avgTokens tr)
                         /\ JS.finite (Multiturn.avgHedge tr)
                         /\ JS.finite (Multiturn.avgCertainty tr)) table
    /\ list_sum (map Multiturn.tr_n table)
       = List.length (filter MultiturnSummary.inLoop ms).
Proof.
  intros ms table. unfold table.
  cbn [Multiturn.byTurn Multiturn.analyzeMetrics flat_map].
  rewrite app_nil_r.
  split; [|split].
  - rewrite !map_app. cbn [filter].
    unfold Multiturn.turnReport.
    destruct (Multiturn.atTurn 1 ms), (Multiturn.atTurn 2 ms), (Multiturn.atTurn 3 ms),
      (Multiturn.atTurn 4 ms), (Multiturn.atTurn 5 ms); reflexivity.
  - repeat (apply Forall_app; split);
      match goal with
      | |- Forall _ (Multiturn.turnReport ms ?n) =>
          apply (Forall_impl _ (P := fun tr =>
                   Multiturn.tr_turn tr = n
                   /\ (1 <= Multiturn.tr_n tr)%nat
                   /\ Multiturn.tr_n tr = List.length (Multiturn.atTurn n ms)
                   /\ JS.finite (Multiturn.avgTokens tr)
                   /\ JS.finite (Multiturn.avgHedge tr)
                   /\ JS.finite (Multiturn.avgCertainty tr)));
          [ intros tr [Ht [H1 [H2 H3]]]; rewrite Ht; split; [exact H1|]; split; assumption
          | apply turnReport_n ]
      end.
  - rewrite !map_app, !list_sum_app.
    rewrite !(proj1 (turnReport_n ms _)), <- turns_in_loop. lia.
Qed.

(** ** Turn 1 without hedge words *)

Lemma mean_value (A : Type) (f : A -> nat) (l : list A) :
  l <> [] ->
  exists q, Arr.mean f l = JS.Fin q /\ 0 <= q
            /\ (q == 0 <-> Arr.sumNat f l = 0%nat).
Proof.
  intro H. unfold Arr.mean.
  assert (Hn : (0 < List.length l)%nat) by (destruct l; [contradiction | simpl; lia]).
  rewrite (ofNat_div _ Hn). eexists. split; [reflexivity|].
  split; [apply ratio_nonneg; exact Hn|].
  split; intro E.
  - assert (Hle : inject_Z (Z.of_nat (Arr.sumNat f l)) / inject_Z (Z.of_nat (List.length l))
                  <= 0) by (rewrite E; apply Qle_refl).
    apply (ratio_le_iff 0 _ Hn) in Hle. rewrite Qmult_0_l in Hle.
    unfold Qle, inject_Z in Hle. cbn [Qnum Qden] in Hle. lia.
  - rewrite E. unfold Qdiv. apply Qmult_0_l.
Qed.

Lemma isZero_eqv (x y : Q) : x == y -> JS.isZero x = JS.isZero y.
Proof. intro H. unfold JS.isZero. rewrite H. reflexivity. Qed.

(** [(0 - q) / 0 * 100] and [q / 0 * 100] for [q >= 0]. *)
Lemma drop_from_zero (z q : Q) :
  z == 0 -> 0 <= q ->
  ((JS.Fin z - JS.Fin q) / JS.Fin z * JS.Fin 100)%js
  = if JS.isZero q then JS.NaN else JS.NInf.
Proof.
  intros Hz Hq. cbn [JS.sub JS.div].
  assert (E1 : JS.isZero z = true) by (apply isZero_true; exact Hz).
  rewrite E1.
  destruct (JS.isZero q) eqn:E2.
  - apply isZero_true in E2.
    assert (E3 : JS.isZero (z - q) = true) by (apply isZero_true; rewrite Hz, E2; reflexivity).
    rewrite E3. reflexivity.
  - assert (Hq0 : ~ q == 0) by (apply isZero_false; exact E2).
    assert (E3 : JS.isZero (z - q) = false).
    { apply isZero_false. intro C. apply Hq0. rewrite Hz in C. lra. }
    rewrite E3.
    assert (E4 : JS.isPos (z - q) = false).
    { unfold JS.isPos. apply negb_false_iff. apply Qle_bool_iff. rewrite Hz. lra. }
    rewrite E4. reflexivity.
Qed.

Lemma ratio_to_zero (z q : Q) :
  z == 0 -> 0 <= q ->
  (JS.Fin q / JS.Fin z * JS.Fin 100)%js
  = if JS.isZero q then JS.NaN else JS.PInf.
Proof.
  intros Hz Hq. cbn [JS.div].
  assert (E1 : JS.isZero z = true) by (apply isZero_true; exact Hz).
  rewrite E1.
  destruct (JS.isZero q) eqn:E2; [reflexivity|].
  assert (Hq0 : ~ q == 0) by (apply isZero_false; exact E2).
  assert (E4 : JS.isPos q = true).
  { unfold JS.isPos. apply negb_true_iff. apply Qle_bool_false.
    destruct (Qlt_le_dec 0 q) as [H|H]; [exact H|].
    exfalso. apply Hq0. apply Qle_antisym; assumption. }
  rewrite E4. reflexivity.
Qed.

(** X16: when the results of turn 1 hold no hedge word, the hedge figures
    divide by zero.  The hedge drop of the lock-in test is NaN or -Infinity:
    the lock-in is never called strong, and is called moderate exactly when
    the token compression is at least 30.  The hedge recovery of the escape
    test is NaN when turn 5 holds no hedge word either, and the escape is
    then partial or failed, by the token recovery alone; it is Infinity when
    turn 5 holds one, and the escape is then never called failed, whatever
    the token recovery. *)
Theorem turn_1_without_hedge_words :
  forall ms : list Multiturn.Metric,
    Arr.sumNat Multiturn.hedgeCount (Multiturn.atTurn 1 ms) = 0%nat ->
    (forall l, Multiturn.lockInReport ms = Some l ->
       (Multiturn.hedgeDropT2 l = JS.NaN \/ Multiturn.hedgeDropT2 l = JS.NInf)
       /\ Multiturn.lockIn l <> Multiturn.StrongLockIn
       /\ (Multiturn.lockIn l = Multiturn.ModerateLockIn
           <-> (Multiturn.compressionT2 l >=? JS.Fin 30)%js = true))
    /\ (forall e, Multiturn.escapeReport ms = Some e ->
          (Arr.sumNat Multiturn.hedgeCount (Multiturn.atTurn 5 ms) = 0%nat ->
           Multiturn.hedgeRecovery e = JS.NaN
           /\ (Multiturn.escape e = Multiturn.PartialEscape
               \/ Multiturn.escape e = Multiturn.EscapeFailed)
           /\ (Multiturn.escape e = Multiturn.PartialEscape
               <-> (Multiturn.recovery e >=? JS.Fin 60)%js = true))
          /\ ((0 < Arr.sumNat Multiturn.hedgeCount (Multiturn.atTurn 5 ms))%nat ->
              Multiturn.hedgeRecovery e = JS.PInf
              /\ Multiturn.escape e <> Multiturn.EscapeFailed
              /\ (Multiturn.escape e = Multiturn.FullEscape
                  <-> (Multiturn.recovery e >=? JS.Fin 95)%js = true))).
Proof.
  intros ms Hzero. split.
  - intros l Hl. unfold Multiturn.lockInReport in Hl.
    destruct (Multiturn.atTurn 1 ms) as [|m1 turn1] eqn:E1; [discriminate Hl|].
    destruct (Multiturn.atTurn 2 ms) as [|m2 turn2] eqn:E2; [discriminate Hl|].
    destruct (@mean_value _ Multiturn.hedgeCount (m1 :: turn1)) as [z [Ez [_ Hz]]];
      [discriminate|].
    destruct (@mean_value _ Multiturn.hedgeCount (m2 :: turn2)) as [q [Eq [Hq _]]];
      [discriminate|].
    apply (f_equal (fun o => match o with Some x => x | None => l end)) in Hl.
    cbv beta iota in Hl. subst l.
    cbn [Multiturn.hedgeDropT2 Multiturn.lockIn Multiturn.compressionT2].
    rewrite Ez, Eq, (drop_from_zero (proj2 Hz Hzero) Hq).
    unfold Multiturn.classifyLockIn.
    set (c := ((Arr.mean Multiturn.tokens (m1 :: turn1)
                - Arr.mean Multiturn.tokens (m2 :: turn2))
               / Arr.mean Multiturn.tokens (m1 :: turn1) * JS.Fin 100)%js).
    destruct (JS.isZero q).
    + split; [left; reflexivity|].
      change (JS.NaN >=? JS.Fin 50)%js with false.
      change (JS.NaN >=? JS.Fin 30)%js with false.
      rewrite andb_false_r, orb_false_r.
      destruct (c >=? JS.Fin 30)%js; split; try discriminate; split; try discriminate;
        reflexivity.
    + split; [right; reflexivity|].
      change (JS.NInf >=? JS.Fin 50)%js with false.
      change (JS.NInf >=? JS.Fin 30)%js with false.
      rewrite andb_false_r, orb_false_r.
      destruct (c >=? JS.Fin 30)%js; split; try discriminate; split; try discriminate;
        reflexivity.
  - intros e He. unfold Multiturn.escapeReport in He.
    destruct (Multiturn.atTurn 1 ms) as [|m1 turn1] eqn:E1; [discriminate He|].
    destruct (Multiturn.atTurn 5 ms) as [|m5 turn5] eqn:E5; [discriminate He|].
    destruct (@mean_value _ Multiturn.hedgeCount (m1 :: turn1)) as [z [Ez [_ Hz]]];
      [discriminate|].
    destruct (@mean_value _ Multiturn.hedgeCount (m5 :: turn5)) as [q [Eq [Hq Hq0]]];
      [discriminate|].
    apply (f_equal (fun o => match o with Some x => x | None => e end)) in He.
    cbv beta iota in He. subst e.
    cbn [Multiturn.hedgeRecovery Multiturn.escape Multiturn.recovery].
    rewrite Ez, Eq, (ratio_to_zero (proj2 Hz Hzero) Hq).
    unfold Multiturn.classifyEscape.
    set (r := (Arr.mean Multiturn.tokens (m5 :: turn5)
               / Arr.mean Multiturn.tokens (m1 :: turn1) * JS.Fin 100)%js).
    split.
    + intro H5. apply Hq0 in H5. apply isZero_true in H5. rewrite H5.
      split; [reflexivity|].
      change (JS.NaN >=? JS.Fin 95)%js with false.
      change (JS.NaN >=? JS.Fin 80)%js with false.
      change (JS.NaN >=? JS.Fin 60)%js with false.
      rewrite !andb_false_r, orb_false_r.
      destruct (r >=? JS.Fin 60)%js.
      * split; [left; reflexivity|]. split; reflexivity.
      * split; [right; reflexivity|]. split; discriminate.
    + intro H5.
      assert (Hne : JS.isZero q = false).
      { apply isZero_false. intro C. apply Hq0 in C. lia. }
      rewrite Hne. split; [reflexivity|].
      change (JS.PInf >=? JS.Fin 95)%js with true.
      change (JS.PInf >=? JS.Fin 80)%js with true.
      change (JS.PInf >=? JS.Fin 60)%js with true.
      rewrite !andb_true_r, orb_true_r.
      destruct (r >=? JS.Fin 95)%js.
      * split; [discriminate|]. split; reflexivity.
      * destruct (r >=? JS.Fin 80)%js; split; try discriminate; split; discriminate.
Qed.

Lemma turn_1_without_hedge_words_witness :
  exists e,
    Multiturn.escapeReport
      [Samples.metric 1 "Smith" 400 0; Samples.metric 5 "Smith" 40 1] = Some e
    /\ Multiturn.hedgeRecovery e = JS.PInf
    /\ Multiturn.escape e <> Multiturn.EscapeFailed.
Proof.
  destruct (Multiturn.escapeReport
              [Samples.metric 1 "Smith" 400 0; Samples.metric 5 "Smith" 40 1])
    as [e|] eqn:He.
  - exists e. split; [reflexivity|].
    destruct (proj2 (turn_1_without_hedge_words
                       [Samples.metric 1 "Smith" 400 0; Samples.metric 5 "Smith" 40 1]
                       eq_refl) e He) as [_ H].
    destruct H as [H1 [H2 _]]; [vm_compute; lia|]. split; assumption.
  - vm_compute in He. discriminate He.
Defined.

(** ** The key findings against the tests *)

Lemma ge_weaken (a : JS.number) (x y : Q) :
  y <= x -> (a >=? JS.Fin x)%js = true -> (a >=? JS.Fin y)%js = true.
Proof.
  intros Hxy H. unfold JS.ge in *.
  apply (le_trans (JS.Fin y) (JS.Fin x) a); [apply le_fin; exact Hxy | exact H].
Qed.

(** X17: the key findings repeat the lock-in and the escape test on the
    token figures alone, with labels of their own.  The compression and the
    recovery they print are those of the tests.  A strong lock-in comes with
    a strong containment effect, and an effect that is not weak with a
    lock-in that is not minimal; a full escape in the test is a full escape
    in the findings, a successful one is never failed there, and a failed one
    is failed there.  The dissenter finding appears exactly when the
    dissenter analysis compared dissenters. *)
Theorem key_findings :
  forall ms : list Multiturn.Metric,
    let s := MultiturnSummary.summary ms in
    match Multiturn.lockInReport ms with
    | None => MultiturnSummary.deepening s = None
    | Some l =>
        exists d, MultiturnSummary.deepening s = Some d
          /\ MultiturnSummary.d_compressionT2 d = Multiturn.compressionT2 l
          /\ (Multiturn.lockIn l = Multiturn.StrongLockIn ->
              MultiturnSummary.effect d = MultiturnSummary.StrongEffect)
          /\ (MultiturnSummary.effect d <> MultiturnSummary.WeakEffect ->
              Multiturn.lockIn l <> Multiturn.MinimalLockIn)
    end
    /\ match Multiturn.escapeReport ms with
       | None => MultiturnSummary.escapeFinding s = None
       | Some e =>
           exists f, MultiturnSummary.escapeFinding s = Some f
             /\ MultiturnSummary.e_recovery f = Multiturn.recovery e
             /\ (Multiturn.escape e = Multiturn.FullEscape ->
                 MultiturnSummary.label f = MultiturnSummary.FullLabel)
             /\ (Multiturn.escape e = Multiturn.EscapeSuccessful ->
                 MultiturnSummary.label f <> MultiturnSummary.FailedLabel)
             /\ (Multiturn.escape e = Multiturn.EscapeFailed ->
                 MultiturnSummary.label f = MultiturnSummary.FailedLabel)
       end
    /\ match Multiturn.dissenterReport ms with
       | None => MultiturnSummary.dissenterPatterns s = None
       | Some r =>
           MultiturnSummary.dissenterPatterns s
           = match Multiturn.comparison r with
             | Some _ => Some (List.length (Multiturn.dissenters r))
             | None => None
             end
       end.
Proof.
  intros ms s. unfold s, MultiturnSummary.summary.
  cbn [MultiturnSummary.deepening MultiturnSummary.escapeFinding
       MultiturnSummary.dissenterPatterns].
  split; [|split].
  - unfold Multiturn.lockInReport.
    destruct (Multiturn.atTurn 1 ms) as [|m1 turn1]; [reflexivity|].
    destruct (Multiturn.atTurn 2 ms) as [|m2 turn2]; [reflexivity|].
    eexists. split; [reflexivity|].
    cbn [MultiturnSummary.d_compressionT2 MultiturnSummary.effect
         Multiturn.compressionT2 Multiturn.lockIn].
    split; [reflexivity|]. unfold Multiturn.classifyLockIn.
    set (c := ((Arr.mean Multiturn.tokens (m1 :: turn1)
                - Arr.mean Multiturn.tokens (m2 :: turn2))
               / Arr.mean Multiturn.tokens (m1 :: turn1) * JS.Fin 100)%js).
    set (h := ((Arr.mean Multiturn.hedgeCount (m1 :: turn1)
                - Arr.mean Multiturn.hedgeCount (m2 :: turn2))
               / Arr.mean Multiturn.hedgeCount (m1 :: turn1) * JS.Fin 100)%js).
    assert (Hc : (c >=? JS.Fin 50)%js = true -> (c >=? JS.Fin 30)%js = true)
      by (apply ge_weaken; discriminate).
    destruct (c >=? JS.Fin 50)%js, (c >=? JS.Fin 30)%js, (h >=? JS.Fin 50)%js,
      (h >=? JS.Fin 30)%js; cbn [andb orb];
      try (specialize (Hc eq_refl); discriminate Hc);
      split; intro H; try reflexivity; try discriminate H; try discriminate;
      try (exfalso; apply H; reflexivity).
  - unfold Multiturn.escapeReport.
    destruct (Multiturn.atTurn 1 ms) as [|m1 turn1]; [reflexivity|].
    destruct (Multiturn.atTurn 5 ms) as [|m5 turn5]; [reflexivity|].
    eexists. split; [reflexivity|].
    cbn [MultiturnSummary.e_recovery MultiturnSummary.label
         Multiturn.recovery Multiturn.escape].
    split; [reflexivity|]. unfold Multiturn.classifyEscape.
    set (r := (Arr.mean Multiturn.tokens (m5 :: turn5)
               / Arr.mean Multiturn.tokens (m1 :: turn1) * JS.Fin 100)%js).
    set (h := (Arr.mean Multiturn.hedgeCount (m5 :: turn5)
               / Arr.mean Multiturn.hedgeCount (m1 :: turn1) * JS.Fin 100)%js).
    assert (H1 : (r >=? JS.Fin 95)%js = true -> (r >=? JS.Fin 80)%js = true)
      by (apply ge_weaken; discriminate).
    assert (H2 : (r >=? JS.Fin 80)%js = true -> (r >=? JS.Fin 60)%js = true)
      by (apply ge_weaken; discriminate).
    destruct (r >=? JS.Fin 95)%js, (r >=? JS.Fin 80)%js, (r >=? JS.Fin 60)%js;
      try (specialize (H1 eq_refl); discriminate H1);
      try (specialize (H2 eq_refl); discriminate H2);
      destruct (h >=? JS.Fin 95)%js, (h >=? JS.Fin 80)%js, (h >=? JS.Fin 60)%js;
      cbn [andb orb]; repeat split; intro H; try reflexivity; try discriminate H;
      try discriminate.
  - unfold Multiturn.dissenterReport.
    destruct (Multiturn.atTurn 3 ms) as [|m3 turn3]; [reflexivity|].
    cbn [Multiturn.comparison Multiturn.dissenters].
    destruct (2 <=? List.length (Arr.setOf (map Multiturn.dissenter (m3 :: turn3))))%nat;
      reflexivity.
Qed.

Lemma key_findings_witness :
  exists e f,
    Multiturn.escapeReport Samples.escapeRun = Some e
    /\ MultiturnSummary.escapeFinding (MultiturnSummary.summary Samples.escapeRun) = Some f
    /\ Multiturn.escape e = Multiturn.FullEscape
    /\ MultiturnSummary.label f = MultiturnSummary.FullLabel.
Proof.
  pose proof (proj1 (proj2 (key_findings Samples.escapeRun))) as H.
  destruct (Multiturn.escapeReport Samples.escapeRun) as [e|] eqn:He.
  - destruct H as [f [Hf [_ [Hfull _]]]].
    exists e, f. split; [reflexivity|]. split; [exact Hf|].
    assert (Hesc : Multiturn.escape e = Multiturn.FullEscape).
    { vm_compute in He. injection He as He. subst e. reflexivity. }
    split; [exact Hesc | apply Hfull; vm_compute; reflexivity].
  - vm_compute in He. discriminate He.
Defined.

(* ================================================================== *)
(** * The rows and the tables of export_for_r.js *)
(* ================================================================== *)

Lemma set_counts (K V : Type) (eqb : K -> K -> bool) (count : V -> nat)
      (zero : V) (next : V -> V) (o : list (K * V)) (k : K) :
  count zero = 0%nat ->
  (forall v, count (next v) = S (count v)) ->
  list_sum (map (fun kv => count (snd kv))
                (ExportR.set eqb o k
                   (next match ExportR.get eqb o k with
                         | Some a => a
                         | None => zero
                         end)))
  = S (list_sum (map (fun kv => count (snd kv)) o)).
Proof.
  intros Hzero Hnext. induction o as [|[k' v'] o IH]; cbn [ExportR.set ExportR.get].
  - cbn [map list_sum snd]. rewrite list_sum_cons, Hnext, Hzero. reflexivity.
  - destruct (eqb k' k); cbn [map snd]; rewrite !list_sum_cons.
    + rewrite Hnext. reflexivity.
    + rewrite IH. lia.
Qed.

Lemma byTurn_counts (rows : list ExportR.Row) :
  forall o,
    list_sum (map (fun kv => ExportR.t_count (snd kv)) (fold_left ExportR.addTurn rows o))
    = (List.length rows + list_sum (map (fun kv => ExportR.t_count (snd kv)) o))%nat.
Proof.
  induction rows as [|r rows IH]; intro o; [reflexivity|].
  cbn [fold_left List.length]. rewrite IH. unfold ExportR.addTurn.
  rewrite (set_counts Nat.eqb ExportR.t_count
             {| ExportR.t_count := 0; ExportR.t_tokens := Some 0%nat; ExportR.t_hedge := 0 |}
             (fun cur => {| ExportR.t_count := S (ExportR.t_count cur);
                            ExportR.t_tokens :=
                              ExportR.plus (ExportR.t_tokens cur) (ExportR.tokens r);
                            ExportR.t_hedge := ExportR.t_hedge cur + ExportR.hedgeCount r |})
             o (ExportR.turn r) eq_refl (fun v => eq_refl)).
  lia.
Qed.

Lemma own_counts (rows : list ExportR.Row) :
  forall o,
    list_sum (map (fun kv => ExportR.d_count (snd kv))
                  (fold_left
                     (fun o r =>
                        ExportR.set String.eqb o (ExportR.dissenter r)
                          ((fun cur r =>
                              {| ExportR.d_count := S (ExportR.d_count cur);
                                 ExportR.d_hedge :=
                                   ExportR.d_hedge cur + ExportR.hedgeCount r |})
                             (match ExportR.get String.eqb o (ExportR.dissenter r) with
                              | Some a => a
                              | None => {| ExportR.d_count := 0; ExportR.d_hedge := 0 |}
                              end) r))
                     rows o))
    = (List.length rows + list_sum (map (fun kv => ExportR.d_count (snd kv)) o))%nat.
Proof.
  induction rows as [|r rows IH]; intro o; [reflexivity|].
  cbn [fold_left List.length]. rewrite IH.
  rewrite (set_counts String.eqb ExportR.d_count
             {| ExportR.d_count := 0; ExportR.d_hedge := 0 |}
             (fun cur => {| ExportR.d_count := S (ExportR.d_count cur);
                            ExportR.d_hedge := ExportR.d_hedge cur + ExportR.hedgeCount r |})
             o (ExportR.dissenter r) eq_refl (fun v => eq_refl)).
  lia.
Qed.

(** The counts of the table by dissenter add up to the number of rows whose
    dissenter is not an inherited name. *)
Lemma byDissenter_counts (rows : list ExportR.Row) :
  list_sum (map (fun kv => ExportR.d_count (snd kv)) (ExportR.byDissenter rows))
  = List.length (Normalized.ownNamed rows).
Proof.
  unfold ExportR.byDissenter.
  rewrite byDissenter_own by (intros k _; reflexivity).
  rewrite own_counts. apply Nat.add_0_r.
Qed.

Lemma ownNamed_all (rows : list ExportR.Row) :
  ObjectPrototype.ownOnly (map ExportR.dissenter rows) -> Normalized.ownNamed rows = rows.
Proof.
  unfold Normalized.ownNamed. intro H.
  induction rows as [|r rows IH]; [reflexivity|].
  cbn [filter].
  assert (E : ObjectPrototype.isInherited (ExportR.dissenter r) = false).
  { apply not_true_is_false. intro C. apply isInherited_spec in C.
    apply (H (ExportR.dissenter r)); [left; reflexivity | exact C]. }
  rewrite E. cbn [negb]. f_equal. apply IH.
  intros k Hk. apply H. right. exact Hk.
Qed.

Lemma kept_or_skipped (results : list ExportR.Result) :
  (List.length (Normalized.kept results) + List.length (Normalized.skipped results))%nat
  = List.length results.
Proof.
  unfold Normalized.kept, Normalized.skipped.
  induction results as [|r results IH]; [reflexivity|].
  cbn [filter]. destruct (Normalized.resolved r); cbn [negb List.length]; lia.
Qed.

Lemma resolved_row (entropyString : string -> string) (r : ExportR.Result) :
  Normalized.resolved r = true ->
  ExportR.topic (Normalized.row entropyString r) <> EmptyString
  /\ ExportR.dissenter (Normalized.row entropyString r) <> EmptyString
  /\ (1 <= ExportR.turn (Normalized.row entropyString r))%nat.
Proof.
  unfold Normalized.resolved, Normalized.row, ExportR.missing.
  cbn [ExportR.topic ExportR.dissenter ExportR.turn].
  destruct (ExportR.resolve r) as [t d n].
  destruct t as [[|c t]|], d as [[|c' d]|], n as [[|n]|]; cbn; intro H;
    try discriminate H; repeat split; try discriminate; lia.
Qed.

(** X18: the export ends with its file written when and only when every
    result has a response with its token usage and every resolved result has
    an output and a provider too; otherwise reading the missing object ends
    it with a TypeError.  When it ends with its file written, every result
    gave either one row of the CSV file or one warning, so rows and warnings
    add up to the number of results; every row has a topic and a dissenter
    that are not empty and a turn of at least 1; the counts of the table by
    turn add up to the number of rows; the counts of the table by dissenter
    add up to the number of rows whose dissenter is not the name of a
    property every object inherits, hence to the number of rows when no
    dissenter is so named. *)
Theorem export_rows_and_tables :
  forall (entropyString : string -> string) (results : list ExportR.Result),
    ((exists out, ExportR.run entropyString results = ExportR.Finished out)
     <-> forallb Normalized.readable results = true)
    /\ (forall out,
          ExportR.run entropyString results = ExportR.Finished out ->
          (List.length (ExportR.rows out)
           + List.length (filter Normalized.isWarning (ExportR.log out)))%nat
          = List.length results
          /\ (forall row, In row (ExportR.rows out) ->
                ExportR.topic row <> EmptyString
                /\ ExportR.dissenter row <> EmptyString
                /\ (1 <= ExportR.turn row)%nat)
          /\ list_sum (map (fun kv => ExportR.t_count (snd kv))
                           (ExportR.byTurn (ExportR.rows out)))
             = List.length (ExportR.rows out)
          /\ list_sum (map (fun kv => ExportR.d_count (snd kv))
                           (ExportR.byDissenter (ExportR.rows out)))
             = List.length (Normalized.ownNamed (ExportR.rows out))
          /\ (ObjectPrototype.ownOnly (map ExportR.dissenter (ExportR.rows out)) ->
              list_sum (map (fun kv => ExportR.d_count (snd kv))
                            (ExportR.byDissenter (ExportR.rows out)))
              = List.length (ExportR.rows out))).
Proof.
  intros entropyString results.
  assert (Hiff : (exists out, ExportR.run entropyString results = ExportR.Finished out)
                 <-> forallb Normalized.readable results = true).
  { destruct (forallb Normalized.readable results) eqn:Hall.
    - rewrite (run_finished entropyString results Hall). split; [reflexivity|].
      intros _. eexists. reflexivity.
    - rewrite (run_aborted entropyString results Hall). split; [|discriminate].
      intros [out H]. discriminate H. }
  split; [exact Hiff|].
  intros out Hout.
  assert (Hall : forallb Normalized.readable results = true)
    by (apply Hiff; exists out; exact Hout).
  rewrite (run_finished entropyString results Hall) in Hout.
  apply (f_equal (fun o => match o with
                           | ExportR.Finished x => x
                           | ExportR.Aborted _ => out
                           end)) in Hout.
  cbv beta iota zeta in Hout. subst out. cbn [ExportR.rows ExportR.log].
  split; [|split; [|split; [|split]]].
  - rewrite log_warnings, !length_map. apply kept_or_skipped.
  - intros row Hrow. apply in_map_iff in Hrow.
    destruct Hrow as [r [Er Hr]]. subst row.
    apply resolved_row. unfold Normalized.kept in Hr. apply filter_In in Hr. apply Hr.
  - unfold ExportR.byTurn. rewrite byTurn_counts. apply Nat.add_0_r.
  - apply byDissenter_counts.
  - intro Hown. rewrite byDissenter_counts, (ownNamed_all _ Hown). reflexivity.
Qed.

(** The property at a run of five results, two of them unresolved, and at a
    run of two results one of whose dissenters is named ["constructor"]. *)
Lemma export_rows_and_tables_witness :
  (exists out,
     ExportR.run Samples.noEntropy Samples.mixedRun = ExportR.Finished out
     /\ List.length (ExportR.rows out) = 3%nat
     /\ list_sum (map (fun kv => ExportR.d_count (snd kv))
                      (ExportR.byDissenter (ExportR.rows out))) = 3%nat)
  /\ (exists out,
        ExportR.run Samples.noEntropy [Samples.explicit 1 400; Samples.inheritedName 1 200]
        = ExportR.Finished out
        /\ List.length (ExportR.rows out) = 2%nat
        /\ list_sum (map (fun kv => ExportR.d_count (snd kv))
                         (ExportR.byDissenter (ExportR.rows out))) = 1%nat).
Proof.
  split.
  - destruct (proj2 (proj1 (export_rows_and_tables Samples.noEntropy Samples.mixedRun))
                eq_refl) as [out Hout].
    exists out. split; [exact Hout|].
    destruct (proj2 (export_rows_and_tables Samples.noEntropy Samples.mixedRun) out Hout)
      as [_ [_ [_ [Hd _]]]].
    rewrite Hd.
    apply (f_equal (fun o => match o with
                             | ExportR.Finished x => x
                             | ExportR.Aborted _ => out
                             end)) in Hout.
    vm_compute in Hout. subst out. split; vm_compute; reflexivity.
  - destruct (proj2 (proj1 (export_rows_and_tables Samples.noEntropy
                              [Samples.explicit 1 400; Samples.inheritedName 1 200]))
                eq_refl) as [out Hout].
    exists out. split; [exact Hout|].
    destruct (proj2 (export_rows_and_tables Samples.noEntropy
                       [Samples.explicit 1 400; Samples.inheritedName 1 200]) out Hout)
      as [_ [_ [_ [Hd _]]]].
    rewrite Hd.
    apply (f_equal (fun o => match o with
                             | ExportR.Finished x => x
                             | ExportR.Aborted _ => out
                             end)) in Hout.
    vm_compute in Hout. subst out. split; vm_compute; reflexivity.
Defined.

(* ================================================================== *)
(** * The validation utility *)
(* ================================================================== *)

Lemma isNil_app (A : Type) (l1 l2 : list A) :
  Validation.isNil (l1 ++ l2) = andb (Validation.isNil l1) (Validation.isNil l2).
Proof. destruct l1; reflexivity. Qed.

Lemma isNil_true (A : Type) (l : list A) : Validation.isNil l = true <-> l = [].
Proof. destruct l; split; intro H; try reflexivity; discriminate H. Qed.

Lemma missingFrom_none (rs : list Validation.Result) (i : nat) :
  Validation.isNil (Validation.missingFrom i rs)
  = forallb (fun r => andb (Validation.present (Validation.prompt r))
                           (andb (Validation.present (Validation.response r))
                                 (Validation.present (Validation.vars r)))) rs.
Proof.
  revert i. induction rs as [|r rs IH]; intro i; [reflexivity|].
  cbn [Validation.missingFrom forallb]. rewrite isNil_app, IH.
  unfold Validation.missingOf.
  destruct (Validation.present (Validation.prompt r)),
    (Validation.present (Validation.response r)),
    (Validation.present (Validation.vars r)); reflexivity.
Qed.

Lemma filter_none (A : Type) (f : A -> bool) (l : list A) :
  Validation.isNil (filter f l) = forallb (fun x => negb (f x)) l.
Proof.
  induction l as [|x l IH]; [reflexivity|].
  cbn [filter forallb]. destruct (f x); [reflexivity | exact IH].
Qed.

Lemma forallb_same (A : Type) (f g : A -> bool) (l : list A) :
  (forall x, f x = g x) -> forallb f l = forallb g l.
Proof.
  intro H. induction l as [|x l IH]; [reflexivity|].
  cbn [forallb]. rewrite H, IH. reflexivity.
Qed.

Lemma forallb_andb (A : Type) (f g : A -> bool) (l : list A) :
  forallb (fun x => andb (f x) (g x)) l = andb (forallb f l) (forallb g l).
Proof.
  induction l as [|x l IH]; [reflexivity|].
  cbn [forallb]. rewrite IH.
  destruct (f x), (g x), (forallb f l), (forallb g l); reflexivity.
Qed.

(** The search of the cross-validation over the set of providers meets an
    object exactly when, going through the results, an object comes before
    any name that contains the expected provider. *)
Lemma someIncludes_unique (p : string) (l : list (option Validation.ProviderValue)) :
  forall seen,
    (forall s, In s seen ->
               Str.includes (Str.toLowerCase s) (Str.toLowerCase p) = false) ->
    Validation.someIncludes p
      (Validation.uniqueProviders seen (Validation.truthyProviders l)) = None
    <-> Validation.objectBeforeMatch p l = true.
Proof.
  induction l as [|a l IH]; intros seen Hseen;
    cbn [Validation.truthyProviders flat_map Validation.objectBeforeMatch].
  - cbn. split; discriminate.
  - fold (Validation.truthyProviders l).
    destruct a as [[s|id]|]; cbn [app].
    + destruct (Str.truthy s) eqn:Ts; cbn [app andb Validation.uniqueProviders].
      * destruct (existsb (String.eqb s) seen) eqn:Es.
        -- apply existsb_exists in Es. destruct Es as [x [Hx Ex]].
           apply String.eqb_eq in Ex. subst x.
           rewrite (Hseen s Hx). apply IH. exact Hseen.
        -- cbn [Validation.someIncludes].
           destruct (Str.includes (Str.toLowerCase s) (Str.toLowerCase p)) eqn:Is.
           ++ split; discriminate.
           ++ apply IH. intros x [Hx|Hx]; [subst x; exact Is | apply Hseen; exact Hx].
      * apply IH. exact Hseen.
    + cbn [Validation.uniqueProviders Validation.someIncludes]. split; reflexivity.
    + apply IH. exact Hseen.
Qed.

Lemma crossValidation_throws (rs : list Validation.Result) (m : Validation.Metadata) :
  Validation.validateAgainstMetadata rs m = None
  <-> exists p, Validation.m_provider m = Some p
                /\ Str.truthy p = true
                /\ Validation.objectBeforeMatch p (map Validation.provider rs) = true.
Proof.
  unfold Validation.validateAgainstMetadata.
  destruct (Validation.m_provider m) as [p|].
  - destruct (Str.truthy p) eqn:Tp.
    + assert (H := someIncludes_unique p (map Validation.provider rs) []
                     (fun s (F : In s []) => match F with end)).
      fold (Validation.modelsOf rs) in H.
      destruct (Validation.someIncludes p (Validation.modelsOf rs)) as [[|]|].
      * split; [discriminate|]. intros [q [Eq [_ Hq]]].
        apply (f_equal (fun o => match o with Some x => x | None => p end)) in Eq.
        cbv beta iota in Eq. subst q. apply H in Hq. discriminate Hq.
      * split; [discriminate|]. intros [q [Eq [_ Hq]]].
        apply (f_equal (fun o => match o with Some x => x | None => p end)) in Eq.
        cbv beta iota in Eq. subst q. apply H in Hq. discriminate Hq.
      * split; [|reflexivity]. intros _. exists p.
        split; [reflexivity|]. split; [exact Tp|]. apply H. reflexivity.
    + split; [discriminate|]. intros [q [Eq [Tq _]]].
      apply (f_equal (fun o => match o with Some x => x | None => p end)) in Eq.
      cbv beta iota in Eq. subst q. rewrite Tp in Tq. discriminate Tq.
  - split; [discriminate|]. intros [q [Eq _]]. discriminate Eq.
Qed.

Lemma sound_checks (rs : list Validation.Result) :
  forallb Validation.sound rs
  = andb (Validation.isNil (Validation.missingFrom 0 rs))
         (andb (forallb Validation.tracksTokens rs)
               (Validation.isNil (filter Validation.emptyOutput rs))).
Proof.
  rewrite missingFrom_none, filter_none, <- !forallb_andb.
  apply forallb_same. intro r. unfold Validation.sound.
  destruct (Validation.present (Validation.prompt r)),
    (Validation.present (Validation.response r)),
    (Validation.present (Validation.vars r)),
    (Validation.tracksTokens r), (Validation.emptyOutput r); reflexivity.
Qed.

(** The verdict and the errors of the checks 3 to 13 when the
    cross-validation does not throw. *)
Lemma examine_verdict (data : Validation.Data) (rs : list Validation.Result)
      (metadata : option Validation.Metadata) :
  (forall m, metadata = Some m -> Validation.validateAgainstMetadata rs m <> None) ->
  Validation.passed (Validation.examine data rs metadata) = forallb Validation.sound rs
  /\ Validation.isNil (Validation.errors (Validation.examine data rs metadata))
     = forallb Validation.sound rs
  /\ Validation.errors (Validation.examine data rs metadata)
     = Validation.errors (Validation.examine data rs None).
Proof.
  intro Hm. unfold Validation.examine.
  destruct metadata as [m|].
  - destruct (Validation.validateAgainstMetadata rs m) as [mc|] eqn:E;
      [|exfalso; exact (Hm m eq_refl E)].
    cbn [option_map Validation.passed Validation.errors].
    split; [|split; [|reflexivity]].
    + rewrite sound_checks. reflexivity.
    + rewrite sound_checks, !isNil_app.
      destruct (Validation.missingFrom 0 rs), (forallb Validation.tracksTokens rs),
        (filter Validation.emptyOutput rs); reflexivity.
  - cbn [Validation.passed Validation.errors].
    split; [|split; [|reflexivity]].
    + rewrite sound_checks. reflexivity.
    + rewrite sound_checks, !isNil_app.
      destruct (Validation.missingFrom 0 rs), (forallb Validation.tracksTokens rs),
        (filter Validation.emptyOutput rs); reflexivity.
Qed.

(** The report when the cross-validation throws. *)
Lemma examine_thrown (data : Validation.Data) (rs : list Validation.Result)
      (m : Validation.Metadata) :
  Validation.validateAgainstMetadata rs m = None ->
  let report := Validation.examine data rs (Some m) in
  Validation.passed report = false
  /\ (exists es, Validation.errors report
                 = es ++ [Validation.ValidationError Validation.notAFunction])
  /\ Validation.metadata_match (Validation.checks report) = None
  /\ Validation.has_duplicates (Validation.checks report) = None
  /\ Validation.empty_outputs (Validation.checks report) = None
  /\ Validation.has_seeds (Validation.checks report) = None.
Proof.
  intros E report. unfold report, Validation.examine. rewrite E.
  cbn [option_map Validation.passed Validation.errors Validation.checks
       Validation.metadata_match Validation.has_duplicates Validation.empty_outputs
       Validation.has_seeds].
  split; [reflexivity|]. split; [|repeat split].
  eexists. rewrite app_assoc. reflexivity.
Qed.

(** The verdict is [true] exactly when no error was pushed. *)
Lemma passed_without_error (file : Validation.File) :
  Validation.passed (Validation.validateResults file None) = true
  <-> Validation.errors (Validation.validateResults file None) = [].
Proof.
  unfold Validation.validateResults.
  destruct file as [|message|data]; try (split; discriminate).
  destruct (Validation.results data) as [[|r rs]|]; try (split; discriminate).
  destruct (examine_verdict data (r :: rs) (metadata := None)) as [Hp [He _]];
    [intros m H; discriminate H|].
  rewrite Hp, <- He. apply isNil_true.
Qed.

(** X19: the validation passes exactly when its report holds no error.
    Unless the cross-validation throws, it passes exactly when the file
    exists, parses, holds a results array that is not empty, and every
    result has a prompt, a response with token usage and an output that is
    not blank, and variables; the metadata given for cross-validation then
    change neither the verdict nor the errors, a mismatch being a warning
    only.  The cross-validation throws when the metadata name a provider
    and, going through the results, a provider that is an object (the form
    the evaluation writes) is met before any provider name that contains the
    expected one: the validation then fails whatever the results hold, the
    TypeError being its last error, and the checks for duplicates, empty
    outputs and seeds are not made. *)
Theorem validation_verdict :
  forall (file : Validation.File) (metadata : option Validation.Metadata),
    let report := Validation.validateResults file metadata in
    (Validation.passed report = true <-> Validation.errors report = [])
    /\ (Validation.crossCheckThrows file metadata = false ->
        (Validation.passed report = true
         <-> exists data rs,
               file = Validation.Parsed data
               /\ Validation.results data = Some rs
               /\ rs <> []
               /\ forallb Validation.sound rs = true)
        /\ Validation.passed report
           = Validation.passed (Validation.validateResults file None)
        /\ Validation.errors report
           = Validation.errors (Validation.validateResults file None))
    /\ (Validation.crossCheckThrows file metadata = true ->
        Validation.passed report = false
        /\ (exists es, Validation.errors report
                       = es ++ [Validation.ValidationError Validation.notAFunction])
        /\ Validation.metadata_match (Validation.checks report) = None
        /\ Validation.has_duplicates (Validation.checks report) = None
        /\ Validation.empty_outputs (Validation.checks report) = None
        /\ Validation.has_seeds (Validation.checks report) = None).
Proof.
  intros file metadata report. unfold report, Validation.validateResults,
    Validation.crossCheckThrows.
  destruct file as [|message|data].
  - cbn [Validation.passed Validation.errors].
    split; [split; discriminate|]. split; [|discriminate].
    intros _. split; [|split; reflexivity].
    split; [discriminate|]. intros [d [rs [H _]]]. discriminate H.
  - cbn [Validation.passed Validation.errors].
    split; [split; discriminate|]. split; [|discriminate].
    intros _. split; [|split; reflexivity].
    split; [discriminate|]. intros [d [rs [H _]]]. discriminate H.
  - destruct (Validation.results data) as [[|r rs]|] eqn:E.
    + cbn [Validation.passed Validation.errors].
      split; [split; discriminate|].
      split; [|destruct metadata as [m|]; discriminate].
      intros _. split; [|split; reflexivity].
      split; [discriminate|]. intros [d [rs [H [H1 [H2 _]]]]].
      apply (f_equal (fun f => match f with
                               | Validation.Parsed x => x
                               | _ => data
                               end)) in H.
      cbv beta iota in H. subst d. rewrite E in H1.
      apply (f_equal (fun o => match o with Some x => x | None => [] end)) in H1.
      cbv beta iota in H1. subst rs. contradiction.
    + assert (Hthrow : forall m,
                metadata = Some m ->
                (Validation.validateAgainstMetadata (r :: rs) m = None
                 <-> match Validation.m_provider m with
                     | Some p => andb (Str.truthy p)
                                      (Validation.objectBeforeMatch p
                                         (map Validation.provider (r :: rs)))
                     | None => false
                     end = true)).
      { intros m _. rewrite crossValidation_throws.
        destruct (Validation.m_provider m) as [p|].
        - rewrite andb_true_iff. split.
          + intros [q [Eq H]].
            apply (f_equal (fun o => match o with Some x => x | None => p end)) in Eq.
            cbv beta iota in Eq. subst q. exact H.
          + intro H. exists p. split; [reflexivity | exact H].
        - split; [intros [q [Eq _]]; discriminate Eq | discriminate]. }
      destruct (examine_verdict data (r :: rs) (metadata := None)) as [Hp0 _];
        [intros m H; discriminate H|].
      split; [|split].
      * destruct metadata as [m|].
        -- destruct (Validation.validateAgainstMetadata (r :: rs) m) as [mc|] eqn:Ev.
           ++ destruct (examine_verdict data (r :: rs) (metadata := Some m))
                as [Hp [He _]].
              { intros m' Hm'.
                apply (f_equal (fun o => match o with Some x => x | None => m end)) in Hm'.
                cbv beta iota in Hm'. subst m'. rewrite Ev. discriminate. }
              rewrite Hp, <- He. apply isNil_true.
           ++ destruct (examine_thrown data (r :: rs) m Ev) as [Hp [[es Hes] _]].
              rewrite Hp, Hes. split; [discriminate|].
              intro C. destruct es; discriminate C.
        -- destruct (examine_verdict data (r :: rs) (metadata := None)) as [Hp [He _]];
             [intros m H; discriminate H|].
           rewrite Hp, <- He. apply isNil_true.
      * intro Hno.
        destruct (examine_verdict data (r :: rs) (metadata := metadata)) as [Hp [He Hm]].
        { intros m Hm C. subst metadata. apply (Hthrow m eq_refl) in C.
          rewrite Hno in C. discriminate C. }
        split; [|split].
        -- rewrite Hp. split.
           ++ intro H. exists data, (r :: rs).
              split; [reflexivity|]. split; [exact E|]. split; [discriminate | exact H].
           ++ intros [d [rs' [H [H1 [_ H3]]]]].
              apply (f_equal (fun f => match f with
                                       | Validation.Parsed x => x
                                       | _ => data
                                       end)) in H.
              cbv beta iota in H. subst d. rewrite E in H1.
              apply (f_equal (fun o => match o with Some x => x | None => [] end)) in H1.
              cbv beta iota in H1. subst rs'. exact H3.
        -- rewrite Hp, Hp0. reflexivity.
        -- exact Hm.
      * intro Hyes. destruct metadata as [m|]; [|discriminate Hyes].
        apply examine_thrown. apply (Hthrow m eq_refl). exact Hyes.
    + cbn [Validation.passed Validation.errors].
      split; [split; discriminate|].
      split; [|destruct metadata as [m|]; discriminate].
      intros _. split; [|split; reflexivity].
      split; [discriminate|]. intros [d [rs [H [H1 _]]]].
      apply (f_equal (fun f => match f with
                               | Validation.Parsed x => x
                               | _ => data
                               end)) in H.
      cbv beta iota in H. subst d. rewrite E in H1. discriminate H1.
Qed.

Lemma tally_counts (fileAt : string -> Validation.File) (paths : list string) :
  forall s,
    let out := fold_left (Validation.tally fileAt) paths s in
    Validation.total out = Validation.total s
    /\ Validation.reports out
       = Validation.reports s
         ++ map (fun p => Validation.validateResults (fileAt p) None) paths
    /\ (Validation.s_passed out
        = Validation.s_passed s
          + List.length (filter (fun p => Validation.passed
                                            (Validation.validateResults (fileAt p) None))
                                paths))%nat
    /\ (Validation.s_passed out + Validation.s_failed out
        = Validation.s_passed s + Validation.s_failed s + List.length paths)%nat.
Proof.
  induction paths as [|p paths IH]; intro s; cbv zeta.
  - cbn [fold_left map filter List.length]. rewrite app_nil_r.
    repeat split; lia.
  - cbn [fold_left]. destruct (IH (Validation.tally fileAt s p)) as [H1 [H2 [H3 H4]]].
    set (out := fold_left (Validation.tally fileAt) paths (Validation.tally fileAt s p))
      in *.
    unfold Validation.tally in H1, H2, H3, H4.
    cbn [Validation.total Validation.reports Validation.s_passed Validation.s_failed]
      in H1, H2, H3, H4.
    cbn [map filter List.length].
    split; [exact H1|]. split; [rewrite H2, <- app_assoc; reflexivity|].
    destruct (Validation.passed (Validation.validateResults (fileAt p) None));
      cbn [List.length]; split; lia.
Qed.

(** X20: a batch validation gives one report per path, in order, each the
    validation of the file at that path without metadata; the files that
    passed and the files that failed add up to the total, and the number that
    passed counts the files whose report holds no error. *)
Theorem validate_batch_counts :
  forall (fileAt : string -> Validation.File) (paths : list string),
    let summary := Validation.validateBatch fileAt paths in
    Validation.total summary = List.length paths
    /\ Validation.reports summary
       = map (fun p => Validation.validateResults (fileAt p) None) paths
    /\ (Validation.s_passed summary + Validation.s_failed summary)%nat
       = Validation.total summary
    /\ Validation.s_passed summary
       = List.length (filter (fun report => Validation.isNil (Validation.errors report))
                             (Validation.reports summary)).
Proof.
  intros fileAt paths summary. unfold summary, Validation.validateBatch.
  destruct (tally_counts fileAt paths
              {| Validation.total := List.length paths; Validation.s_passed := 0;
                 Validation.s_failed := 0; Validation.reports := [] |})
    as [H1 [H2 [H3 H4]]].
  cbn [Validation.total Validation.reports Validation.s_passed Validation.s_failed
       app] in H1, H2, H3, H4.
  split; [exact H1|]. split; [exact H2|]. split; [rewrite H4, H1; lia|].
  rewrite H3, H2. cbn [Nat.add].
  clear. induction paths as [|p paths IH]; [reflexivity|].
  cbn [map filter].
  assert (E : Validation.passed (Validation.validateResults (fileAt p) None)
              = Validation.isNil (Validation.errors (Validation.validateResults (fileAt p) None))).
  { destruct (passed_without_error (fileAt p)) as [Ha Hb].
    destruct (Validation.passed (Validation.validateResults (fileAt p) None)).
    - symmetry. apply isNil_true. apply Ha. reflexivity.
    - destruct (Validation.isNil (Validation.errors (Validation.validateResults (fileAt p) None)))
        eqn:N; [|reflexivity].
      apply isNil_true in N. apply Hb in N. discriminate N. }
  rewrite E.
  destruct (Validation.isNil (Validation.errors (Validation.validateResults (fileAt p) None)));
    cbn [List.length]; rewrite IH; reflexivity.
Qed.

(** A sound file with provider names passes whatever the metadata expect,
    the mismatch being among the warnings; the same file with provider
    objects fails as soon as the metadata name a provider. *)
Lemma validation_verdict_witness :
  (let report := Validation.validateResults Samples.soundFile (Some Samples.otherMetadata) in
   Validation.passed report = true
   /\ In Validation.MetadataMismatch (Validation.warnings report))
  /\ (let report := Validation.validateResults Samples.evaluatedFile
                      (Some Samples.openaiMetadata) in
      Validation.passed report = false
      /\ Validation.errors report
         = [Validation.ValidationError "m.toLowerCase is not a function"]
      /\ Validation.passed (Validation.validateResults Samples.evaluatedFile None) = true).
Proof.
  split.
  - split.
    + destruct (proj1 (proj2 (validation_verdict Samples.soundFile
                                (Some Samples.otherMetadata))) eq_refl) as [Hiff _].
      apply Hiff.
      exists {| Validation.results :=
                    Some [Samples.soundResult "evolution"; Samples.soundResult "cryonics"];
                Validation.cache := Validation.CacheFlag false |},
        [Samples.soundResult "evolution"; Samples.soundResult "cryonics"].
      split; [reflexivity|]. split; [reflexivity|]. split; [discriminate|].
      vm_compute. reflexivity.
    + vm_compute. right. left. reflexivity.
  - split; [|split].
    + apply (proj2 (proj2 (validation_verdict Samples.evaluatedFile
                             (Some Samples.openaiMetadata))) eq_refl).
    + vm_compute. reflexivity.
    + vm_compute. reflexivity.
Defined.

(* ================================================================== *)
(** * The metadata utility *)
(* ================================================================== *)







Lemma unique_length (l : list string) :
  forall seen, (List.length (Arr.unique seen l) <= List.length l)%nat.
Proof.
  induction l as [|x l IH]; intro seen; cbn [Arr.unique]; [apply Nat.le_refl|].
  destruct (existsb (String.eqb x) seen); cbn [List.length].
  - specialize (IH seen). lia.
  - specialize (IH (x :: seen)). lia.
Qed.

Lemma truthyStrings_length (l : list (option string)) :
  (List.length (Validation.truthyStrings l) <= List.length l)%nat.
Proof.
  unfold Validation.truthyStrings.
  induction l as [|a l IH]; [apply Nat.le_refl|].
  cbn [flat_map]. rewrite length_app. cbn [List.length].
  destruct a as [s|]; [destruct (Str.truthy s)|]; cbn [List.length]; lia.
Qed.

Lemma maxOf_bounds (l : list nat) (x : nat) :
  In x l -> (x <= Metadata.maxOf l)%nat.
Proof.
  unfold Metadata.maxOf. induction l as [|y l IH]; [contradiction|].
  cbn [fold_right]. intros [H|H]; [subst; lia | specialize (IH H); lia].
Qed.

Lemma maxOf_ones (l : list nat) :
  l <> [] -> (forall x, In x l -> x = 1%nat) -> Metadata.maxOf l = 1%nat.
Proof.
  unfold Metadata.maxOf. induction l as [|y l IH]; [contradiction|].
  intros _ H. cbn [fold_right].
  assert (Hy : y = 1%nat) by (apply H; left; reflexivity).
  destruct l as [|z l]; [cbn; lia|].
  rewrite IH; [lia | discriminate | intros x Hx; apply H; right; exact Hx].
Qed.

(** X22: the extraction throws exactly on an empty results array.
    Otherwise the number of tests is the number of results, the numbers of
    topics and of errors are at most that, and the number of turns is at
    least 1 and at least the turn of every result; it is 1 when no result
    has a turn among its variables, also when results carry a [turn_num]:
    that variable is looked at to detect turns, never to count them. *)
Theorem extracted_counts :
  forall results : list Metadata.Result,
    match Metadata.extractFromResults results with
    | None => results = []
    | Some e =>
        results <> []
        /\ Metadata.nTests e = List.length results
        /\ (Metadata.nTopics e <= Metadata.nTests e)%nat
        /\ (Metadata.errors e <= Metadata.nTests e)%nat
        /\ (1 <= Metadata.nTurns e)%nat
        /\ (forall r n, In r results -> Metadata.vars_turn r = Some n ->
                        (n <= Metadata.nTurns e)%nat)
        /\ ((forall r, In r results -> Metadata.natTruthy (Metadata.vars_turn r) = false) ->
            Metadata.nTurns e = 1%nat)
    end.
Proof.
  intro results. unfold Metadata.extractFromResults.
  destruct results as [|r0 rs]; [reflexivity|].
  set (results := r0 :: rs).
  cbn [Metadata.nTests Metadata.nTopics Metadata.errors Metadata.nTurns].
  assert (Hone : forall r, In r results -> (1 <= Metadata.turnOr1 r)%nat).
  { intros r _. unfold Metadata.turnOr1.
    destruct (Metadata.vars_turn r) as [[|n]|]; lia. }
  assert (Hmax : forall r, In r results ->
                   (Metadata.turnOr1 r <= Metadata.maxOf (map Metadata.turnOr1 results))%nat).
  { intros r Hr. apply maxOf_bounds. apply in_map. exact Hr. }
  split; [discriminate|]. split; [reflexivity|]. split; [|split; [|split; [|split]]].
  - unfold Arr.setOf.
    apply Nat.le_trans with (List.length (Validation.truthyStrings
                                            (map Metadata.vars_topic results))).
    + apply unique_length.
    + rewrite <- (length_map Metadata.vars_topic results). apply truthyStrings_length.
  - apply filter_length_le.
  - destruct (existsb _ results); [|lia].
    specialize (Hmax r0 (or_introl eq_refl)). specialize (Hone r0 (or_introl eq_refl)). lia.
  - intros r n Hr Hn.
    destruct (existsb (fun r => Metadata.natTruthy (Metadata.vars_turn r)
                                || Metadata.natTruthy (Metadata.vars_turn_num r))
                      results) eqn:E.
    + specialize (Hmax r Hr). unfold Metadata.turnOr1 at 1 in Hmax. rewrite Hn in Hmax.
      destruct n as [|n]; lia.
    + destruct n as [|n]; [lia|].
      assert (C : existsb (fun r => Metadata.natTruthy (Metadata.vars_turn r)
                                    || Metadata.natTruthy (Metadata.vars_turn_num r))
                          results = true).
      { apply existsb_exists. exists r. split; [exact Hr|]. rewrite Hn. reflexivity. }
      rewrite C in E. discriminate E.
  - intro Hnone. destruct (existsb _ results); [|reflexivity].
    apply maxOf_ones; [discriminate|].
    intros x Hx. apply in_map_iff in Hx. destruct Hx as [r [Ex Hr]]. subst x.
    specialize (Hnone r Hr). unfold Metadata.turnOr1.
    destruct (Metadata.vars_turn r) as [[|n]|]; try reflexivity. discriminate Hnone.
Qed.

(** Five turns, named [turn_num]: one turn is extracted. *)
Lemma extracted_counts_witness :
  exists e, Metadata.extractFromResults Samples.numberedRun = Some e
            /\ Metadata.nTests e = 5%nat
            /\ Metadata.nTurns e = 1%nat.
Proof.
  pose proof (extracted_counts Samples.numberedRun) as H.
  destruct (Metadata.extractFromResults Samples.numberedRun) as [e|] eqn:E.
  - exists e. split; [reflexivity|].
    destruct H as [_ [Hn [_ [_ [_ [_ Hone]]]]]].
    split; [rewrite Hn; reflexivity|].
    apply Hone. intros r Hr.
    repeat (destruct Hr as [Hr|Hr]; [subst r; reflexivity|]). contradiction.
  - discriminate H.
Defined.

(* ================================================================== *)
(** * The entropy and the diversity assertion *)
(* ================================================================== *)

Lemma diversity_finite (tokenize nouns verbs adjectives : string -> list string)
      (text : string) :
  exists v, Metrics.calculateSemanticDiversity tokenize nouns verbs adjectives text
            = JS.Fin v /\ 0 <= v.
Proof.
  unfold Metrics.calculateSemanticDiversity.
  destruct (Str.emptyText text); [exists 0; split; [reflexivity | discriminate]|].
  destruct (tokenize (Str.toLowerCase text)) as [|t ts];
    [exists 0; split; [reflexivity | discriminate]|].
  rewrite ofNat_div by (simpl; lia). cbn [JS.mul].
  eexists. split; [reflexivity|].
  apply Qmult_le_0_compat; [apply ratio_nonneg; simpl; lia | discriminate].
Qed.

Lemma numberOr_default (t : option JS.number) (d : JS.number) :
  match t with None => True | Some a => JS.truthy a = false end ->
  Metrics.numberOr t d = d.
Proof.
  destruct t as [a|]; [|reflexivity]. intro H. cbn [Metrics.numberOr].
  unfold JS.orElse. rewrite H. reflexivity.
Qed.

(** X23: in the entropy and in the diversity assertion a threshold that is
    missing, zero or NaN is replaced by the default (3.5, and 20), so that a
    threshold of 0 does not switch the check off.  The diversity is a finite
    number, zero or more; the diversity assertion scores a fiftieth of it and,
    for a finite threshold other than 0, passes exactly when the diversity is
    at least the threshold.  With the default thresholds a blank output fails
    both assertions. *)
Theorem single_metric_assertions :
  forall (tokenize : string -> list string) (log2 : JS.number -> JS.number)
         (nouns verbs adjectives : string -> list string)
         (output : string) (context : PromptfooAssertions.Context),
    let e := PromptfooAssertions.entropyAssertion tokenize log2 output context in
    let d := PromptfooAssertions.semanticDiversityAssertion tokenize nouns verbs
               adjectives output context in
    let missing := match PromptfooAssertions.threshold context with
                   | None => True
                   | Some t => JS.truthy t = false
                   end in
    (missing ->
     e = PromptfooAssertions.entropyAssertion tokenize log2 output
           {| PromptfooAssertions.baseline_length :=
                PromptfooAssertions.baseline_length context;
              PromptfooAssertions.threshold := Some (JS.Fin (35 # 10)) |}
     /\ d = PromptfooAssertions.semanticDiversityAssertion tokenize nouns verbs
              adjectives output
              {| PromptfooAssertions.baseline_length :=
                   PromptfooAssertions.baseline_length context;
                 PromptfooAssertions.threshold := Some (JS.Fin 20) |})
    /\ (exists v,
          Metrics.calculateSemanticDiversity tokenize nouns verbs adjectives output
          = JS.Fin v
          /\ 0 <= v
          /\ PromptfooAssertions.score d = JS.Fin (v / 50)
          /\ forall m, PromptfooAssertions.threshold context = Some (JS.Fin m) ->
                       ~ m == 0 ->
                       (PromptfooAssertions.pass d = true <-> m <= v))
    /\ (missing -> Str.emptyText output = true ->
        PromptfooAssertions.pass e = false /\ PromptfooAssertions.pass d = false).
Proof.
  intros tokenize log2 nouns verbs adjectives output context e d missing.
  split; [|split].
  - intro H. unfold e, d, PromptfooAssertions.entropyAssertion,
      PromptfooAssertions.semanticDiversityAssertion.
    cbn [PromptfooAssertions.threshold].
    rewrite !(numberOr_default _ _ H). split; reflexivity.
  - destruct (diversity_finite tokenize nouns verbs adjectives output) as [v [Ev Hv]].
    exists v. split; [exact Ev|]. split; [exact Hv|].
    unfold d, PromptfooAssertions.semanticDiversityAssertion.
    cbn [PromptfooAssertions.score PromptfooAssertions.pass]. rewrite Ev.
    split; [apply div_fin; discriminate|].
    intros m Hm Hm0. rewrite Hm. cbn [Metrics.numberOr]. unfold JS.orElse, JS.truthy.
    assert (Z : JS.isZero m = false) by (apply isZero_false; exact Hm0).
    rewrite Z. cbn [negb]. rewrite negb_true_iff.
    change (JS.Fin v <? JS.Fin m)%js with (JS.Fin m >? JS.Fin v)%js.
    apply gt_fin_false.
  - intros H Hblank. unfold e, d, PromptfooAssertions.entropyAssertion,
      PromptfooAssertions.semanticDiversityAssertion.
    cbn [PromptfooAssertions.pass].
    rewrite !(numberOr_default _ _ H).
    unfold Containment.calculateEntropy, Lexical.calculateEntropy,
      Metrics.calculateSemanticDiversity.
    rewrite Hblank. split; reflexivity.
Qed.

Lemma single_metric_assertions_witness :
  PromptfooAssertions.pass
    (PromptfooAssertions.semanticDiversityAssertion Samples.wordTokens
       Samples.noWords Samples.noWords Samples.noWords "  "
       {| PromptfooAssertions.baseline_length := None;
          PromptfooAssertions.threshold := Some (JS.Fin 0) |}) = false.
Proof.
  apply (single_metric_assertions Samples.wordTokens Samples.log2Dyadic
           Samples.noWords Samples.noWords Samples.noWords "  "
           {| PromptfooAssertions.baseline_length := None;
              PromptfooAssertions.threshold := Some (JS.Fin 0) |}).
  - reflexivity.
  - reflexivity.
Defined.

(* ================================================================== *)
(** * The fallback of export_for_r.js on the conversation id *)
(* ================================================================== *)

Lemma splitChars_piece (d : ascii) (w cur s : list ascii) :
  forallb (fun c => negb (Ascii.eqb c d)) w = true ->
  Str.splitChars d cur (w ++ d :: s)
  = string_of_list_ascii (rev cur ++ w) :: Str.splitChars d [] s.
Proof.
  revert cur. induction w as [|c w IH]; intros cur H.
  - cbn [app Str.splitChars]. rewrite Ascii.eqb_refl, app_nil_r. reflexivity.
  - cbn [forallb] in H. apply andb_true_iff in H. destruct H as [Hc Hw].
    apply negb_true_iff in Hc. cbn [app Str.splitChars]. rewrite Hc.
    rewrite (IH (c :: cur) Hw). cbn [rev]. rewrite <- app_assoc. reflexivity.
Qed.

Lemma splitChars_last (d : ascii) (w cur : list ascii) :
  forallb (fun c => negb (Ascii.eqb c d)) w = true ->
  Str.splitChars d cur w = [string_of_list_ascii (rev cur ++ w)].
Proof.
  revert cur. induction w as [|c w IH]; intros cur H.
  - cbn [Str.splitChars]. rewrite app_nil_r. reflexivity.
  - cbn [forallb] in H. apply andb_true_iff in H. destruct H as [Hc Hw].
    apply negb_true_iff in Hc. cbn [Str.splitChars]. rewrite Hc.
    rewrite (IH (c :: cur) Hw). cbn [rev]. rewrite <- app_assoc. reflexivity.
Qed.

Lemma truthy_nonempty (s : string) : s <> EmptyString -> Str.truthy s = true.
Proof. destruct s; [contradiction | reflexivity]. Qed.

(** X24: for a result that lacks one of its explicit variables, a
    conversation id that starts with a topic, a hyphen and a dissenter (both
    non-empty and without hyphen), followed by nothing or by a hyphen and
    more, gives that topic and that dissenter, whatever the explicit topic
    and dissenter are; a topic with a hyphen of its own is cut at the hyphen.
    The turn is read off the message: it is a turn from 1 to 5, or the
    explicit turn when no sentence of the five is recognised. *)
Theorem conversation_id_fallback :
  forall (r : ExportR.Result) (t d rest : string),
    ExportR.missing {| ExportR.v_topic := ExportR.vars_topic r;
                       ExportR.v_dissenter := ExportR.vars_dissenter r;
                       ExportR.v_turn := ExportR.vars_turn r |} = true ->
    ExportR.conversationId r = Some (t ++ "-" ++ d ++ rest)%string ->
    t <> EmptyString -> d <> EmptyString ->
    ConversationId.hyphenFree t = true -> ConversationId.hyphenFree d = true ->
    ConversationId.tail rest = true ->
    let turn := ExportR.v_turn (ExportR.resolve r) in
    ExportR.v_topic (ExportR.resolve r) = Some t
    /\ ExportR.v_dissenter (ExportR.resolve r) = Some d
    /\ (turn = ExportR.vars_turn r
        \/ exists n, turn = Some n /\ (1 <= n <= 5)%nat).
Proof.
  intros r t d rest Hmiss Hid Ht Hd Hft Hfd Hrest turn.
  assert (Hparts : exists more,
             Str.split "-" (ExportR.orEmpty (ExportR.conversationId r)) = t :: d :: more).
  { rewrite Hid. cbn [ExportR.orEmpty]. unfold Str.split.
    rewrite !chars_append. change (Str.chars "-") with ["-"%char]. cbn [app].
    rewrite splitChars_piece by exact Hft. cbn [rev app].
    unfold Str.chars at 1. rewrite string_of_list_ascii_of_string.
    destruct rest as [|c rest'].
    - exists []. change (Str.chars EmptyString) with (@nil ascii). rewrite app_nil_r.
      rewrite splitChars_last by exact Hfd. cbn [rev app].
      unfold Str.chars. rewrite string_of_list_ascii_of_string. reflexivity.
    - cbn [ConversationId.tail] in Hrest. apply Ascii.eqb_eq in Hrest. subst c.
      change (Str.chars (String "-" rest')) with ("-"%char :: Str.chars rest').
      rewrite splitChars_piece by exact Hfd. cbn [rev app].
      unfold Str.chars at 1. rewrite string_of_list_ascii_of_string.
      eexists. reflexivity. }
  destruct Hparts as [more Hparts].
  assert (Hres : ExportR.resolve r
                 = {| ExportR.v_topic := Some t;
                      ExportR.v_dissenter := Some d;
                      ExportR.v_turn :=
                        ExportR.turnFromMessage (ExportR.orEmpty (ExportR.vars_message r))
                                                (ExportR.vars_turn r) |}).
  { unfold ExportR.resolve. rewrite Hmiss, Hparts. cbn [nth_error ExportR.strTruthy].
    rewrite (truthy_nonempty Ht), (truthy_nonempty Hd). reflexivity. }
  unfold turn. rewrite Hres. cbn [ExportR.v_topic ExportR.v_dissenter ExportR.v_turn].
  split; [reflexivity|]. split; [reflexivity|].
  unfold ExportR.turnFromMessage.
  repeat match goal with
         | |- context [if ?c then _ else _] => destruct c
         end;
    try (left; reflexivity);
    right; eexists; (split; [reflexivity | lia]).
Qed.

Lemma conversation_id_fallback_witness :
  ExportR.v_topic (ExportR.resolve (Samples.legacy 90)) = Some "Climate"
  /\ ExportR.v_dissenter (ExportR.resolve (Samples.legacy 90)) = Some "Chen".
Proof.
  destruct (@conversation_id_fallback (Samples.legacy 90) "Climate" "Chen" "")
    as [H1 [H2 _]]; try reflexivity; try discriminate.
  split; assumption.
Defined.

(* ================================================================== *)
(** * The tier analysis of analyze_compression.js *)
(* ================================================================== *)





